(** * The mechanistic interpretability engine, embedded and verified

    A shallow embedding of [interpretability_utils.py] (class
    [MechanisticInterpreter]): claim validation, the business-rule engine,
    the decision aggregator, the counterfactual generator, the fairness
    monitor and the audit logger, followed by the properties the
    specification states about them.

    Modelling conventions.
    - A claim record is a Python [dict]: an association list in insertion
      order, with distinct keys.  [dict.get] is a lookup with a default.
    - Python values are dynamically typed; an operation applied to a value
      of the wrong type raises, which is modelled by the [result] monad.
    - Numbers are [int] (as [Z]) or [float].  A finite float is the exact
      rational it denotes; [float_literal] gives the float of a decimal
      literal.  The divisions that produce the deviation, the percentage of
      the evidence and the group rates and ratios of the fairness monitor
      round to binary64, to nearest and ties to even ([Float64.nearest]);
      the true division of two ints raises [OverflowError] when the
      quotient is beyond the floats.  The products [threshold * 1.5] and
      [threshold * 0.9] are rounded likewise, and turn out exact on the
      tables of the class; [high / total], compared with 0.7 and 0.4, is
      kept exact.  The text of
      a float is its shortest [repr].  [float('inf')] and the NaN of pandas
      get constructors of their own where the code can produce them.
    - Strings are sequences of 8-bit characters. *)

From Stdlib Require Import List String Ascii Bool ZArith QArith Qabs Qminmax Lia Lqa.
From Stdlib Require Import Permutation Sorted DecimalString OrderedTypeEx.
Import ListNotations.

#[local] Open Scope string_scope.
#[local] Open Scope Z_scope.

(* ================================================================= *)
(** ** Rounding *)

(** Nearest integer to [n / d], ties to even, for [0 < d]. *)
Definition round_half_even (n d : Z) : Z :=
  let f := n / d in
  let r := n mod d in
  match (2 * r ?= d) with
  | Lt => f
  | Gt => f + 1
  | Eq => if Z.even f then f else f + 1
  end.

(* ================================================================= *)
(** ** binary64 arithmetic

    The floats of Python and of numpy: 53 bits of significand, exponents
    down to -1074, rounding to nearest with ties to even.  The value of a
    float is a rational; an operation computes the exact result and rounds
    it. *)

Module Float64.

(** [z * 2^k] for [0 <= k], [z] itself otherwise. *)
Definition shift (z k : Z) : Z := z * 2 ^ Z.max k 0.

(** The exponent [e] of a positive [n / d]: [2^e <= n / d < 2^(e+1)]. *)
Definition exponent (n d : Z) : Z :=
  let e0 := Z.log2 n - Z.log2 d in
  if shift n (- e0) <? shift d e0 then e0 - 1 else e0.

(** The exponent of the last place of the significand, with gradual
    underflow. *)
Definition last_place (n d : Z) : Z := Z.max (exponent n d) (-1022) - 52.

Definition significand (n d : Z) : Z :=
  let q := last_place n d in
  round_half_even (shift n (- q)) (shift d q).

(** [m * 2^q] *)
Definition scaled (m q : Z) : Q :=
  if 0 <=? q then inject_Z (m * 2 ^ q) else Qmake m (Z.to_pos (2 ^ (- q))).

Definition nearest_positive (n d : Z) : Q :=
  scaled (significand n d) (last_place n d).

(** The binary64 number nearest to [x], ties to even, the exponent not
    being bounded from above. *)
Definition nearest (x : Q) : Q :=
  let x := Qred x in
  match Qnum x with
  | Z0 => 0%Q
  | Zpos _ => nearest_positive (Qnum x) (Zpos (Qden x))
  | Zneg _ => (- nearest_positive (- Qnum x) (Zpos (Qden x)))%Q
  end.

Definition huge : Q := inject_Z (2 ^ 1024).

(** The largest float is [2^1024 - 2^971]; half a unit of its last place
    above it, rounding to nearest gives [2^1024]. *)
Definition threshold : Z := 2 ^ 1024 - 2 ^ 970.

(** The number nearest to [x] is beyond the largest float. *)
Definition overflows (x : Q) : bool := Qle_bool huge (Qabs (nearest x)).

(** A float that is finite or positive infinity. *)
Inductive t :=
| Fin (x : Q)
| Inf.

(** The rounded value of a positive result: an overflow gives infinity. *)
Definition rounded (x : Q) : t :=
  if overflows x then Inf else Fin (nearest x).

(** [x / y] and [x * y] on floats, for positive results. *)
Definition div (x y : Q) : t := rounded (x / y)%Q.

Definition mul (x : t) (y : Q) : t :=
  match x with
  | Fin x => rounded (x * y)%Q
  | Inf => Inf
  end.

End Float64.

(* ================================================================= *)
(** ** Python runtime: values, exceptions, dictionaries *)

Module Py.

Inductive exn := TypeError | AttributeError | OverflowError.

Inductive result (A : Type) :=
| Ok (a : A)
| Raise (e : exn).
Arguments Ok {A} a.
Arguments Raise {A} e.

Definition bind {A B : Type} (m : result A) (k : A -> result B) : result B :=
  match m with
  | Ok a => k a
  | Raise e => Raise e
  end.

Definition returns {A : Type} (m : result A) : bool :=
  match m with Ok _ => true | Raise _ => false end.

Inductive number :=
| Int (n : Z)
| Float (x : Q).

Inductive value :=
| VNone
| VBool (b : bool)
| VNum (n : number)
| VStr (s : string).

(** A [dict] in insertion order. *)
Definition dict := list (string * value).

(** [d.get(k, default)] *)
Fixpoint dict_get (d : dict) (k : string) (default : value) : value :=
  match d with
  | [] => default
  | (k', v) :: d' => if String.eqb k' k then v else dict_get d' k default
  end.

(** [d.get(k)], whose default is [None] *)
Definition get (d : dict) (k : string) : value := dict_get d k VNone.

(** [k in d] *)
Definition has_key (d : dict) (k : string) : bool :=
  existsb (fun kv => String.eqb (fst kv) k) d.

(** Keys of a dict are pairwise distinct. *)
Definition wf_dict (d : dict) : Prop := NoDup (map fst d).

(** *** Numbers *)

Definition Q_of_number (n : number) : Q :=
  match n with
  | Int z => inject_Z z
  | Float x => x
  end.

(** The numeric reading of an operand of [<], [<=], [/]: [bool] is a
    subclass of [int]; [None] and [str] operands raise a [TypeError]
    against a number. *)
Definition as_number (v : value) : result Q :=
  match v with
  | VBool b => Ok (if b then 1%Q else 0%Q)
  | VNum n => Ok (Q_of_number n)
  | VNone | VStr _ => Raise TypeError
  end.

Definition Qlt_bool (x y : Q) : bool := negb (Qle_bool y x).

Definition Q_of_nat (n : nat) : Q := inject_Z (Z.of_nat n).

(** [isinstance(v, float)] *)
Definition is_float (v : value) : bool :=
  match v with
  | VNum (Float _) => true
  | _ => false
  end.

(** [dividend / y] for a number [dividend] of value [x] and a nonzero int
    [y].  An int is divided exactly and the quotient rounded; an
    [OverflowError] is raised when it is too large for a float.  A float is
    divided as a float: by an int other than zero, its quotient is no
    larger than the float itself. *)
Definition true_divide (dividend : value) (x : Q) (y : Z) : result Q :=
  if negb (is_float dividend) && Float64.overflows (x / inject_Z y)%Q
  then Raise OverflowError
  else Ok (Float64.nearest (x / inject_Z y)%Q).

(** [minuend - k] for a number [minuend] of value [x] and an int [k]: exact
    on ints, rounded on floats. *)
Definition minus (minuend : value) (x : Q) (k : Z) : Q :=
  if is_float minuend then Float64.nearest (x - inject_Z k)%Q
  else (x - inject_Z k)%Q.

(** Truth value of an object in a condition. *)
Definition truthy (v : value) : bool :=
  match v with
  | VNone => false
  | VBool b => b
  | VNum n => negb (Qeq_bool (Q_of_number n) 0)
  | VStr s => negb (String.eqb s EmptyString)
  end.

(** [v == s] for a string literal [s] *)
Definition eq_str (v : value) (s : string) : bool :=
  match v with
  | VStr t => String.eqb t s
  | _ => false
  end.

(** [v in strings], for a list, set or dict keyed by string literals *)
Definition in_strs (v : value) (l : list string) : bool :=
  existsb (eq_str v) l.

(** *** Strings *)

Definition upper_char (c : ascii) : ascii :=
  let n := N_of_ascii c in
  if (97 <=? n)%N && (n <=? 122)%N then ascii_of_N (n - 32) else c.

(** [s.upper()]: the letters [a] to [z] are mapped, every other
    character is kept. *)
Fixpoint upper (s : string) : string :=
  match s with
  | EmptyString => EmptyString
  | String c s' => String (upper_char c) (upper s')
  end.

(** [v.upper()]: only [str] has the method. *)
Definition py_upper (v : value) : result string :=
  match v with
  | VStr s => Ok (upper s)
  | _ => Raise AttributeError
  end.

(** *** Formatting *)

Definition str_of_Z (z : Z) : string := NilZero.string_of_int (Z.to_int z).

Definition digit (d : Z) : string :=
  String (ascii_of_N (48 + Z.to_N d)) EmptyString.

Definition str_of_nat (n : nat) : string := str_of_Z (Z.of_nat n).

(** The [width] low decimal digits of [n], zero padded. *)
Fixpoint digits (width : nat) (n : Z) : string :=
  match width with
  | O => EmptyString
  | S w => digits w (n / 10) ++ digit (n mod 10)
  end.

(** [f'{q:.kf}'] for a finite number [q], [k] places. *)
Definition format_fixed (places : nat) (q : Q) : string :=
  let scale := 10 ^ Z.of_nat places in
  let r := Z.abs (round_half_even (Qnum q * scale) (Zpos (Qden q))) in
  (if Qnum q <? 0 then "-" else EmptyString)
  ++ str_of_Z (r / scale)
  ++ match places with
     | O => EmptyString
     | _ => "." ++ digits places (r mod scale)
     end.

(** [f'{x:.kf}'] for a float that may be infinite. *)
Definition format_float (places : nat) (x : Float64.t) : string :=
  match x with
  | Float64.Fin x => format_fixed places x
  | Float64.Inf => "inf"
  end.

(** [10^k] *)
Definition pow10 (k : Z) : Q :=
  if 0 <=? k then inject_Z (10 ^ k) else Qmake 1 (Z.to_pos (10 ^ (- k))).

(** The decimal exponent [e] of a positive [x]: [10^e <= x < 10^(e+1)]. *)
Definition decimal_exponent (x : Q) : Z :=
  let e0 := Z.of_nat (String.length (str_of_Z (Qnum x)))
            - Z.of_nat (String.length (str_of_Z (Zpos (Qden x)))) in
  if Qle_bool (pow10 e0) x then e0 else e0 - 1.

Definition floor (x : Q) : Z := Qnum x / Zpos (Qden x).

(** The decimal [c * 10^s] reads back as the float [x]. *)
Definition reads_back (x : Q) (c s : Z) : bool :=
  Qeq_bool (Float64.nearest (inject_Z c * pow10 s)) x.

(** The integer among the two around [x / 10^s] whose decimal reads back
    as the float [x], the nearer one when both do. *)
Definition candidate (x : Q) (s : Z) : option Z :=
  let y := (x / pow10 s)%Q in
  let lo := floor y in
  let hi := lo + 1 in
  let nearer :=
    match Qcompare (y - inject_Z lo) (inject_Z hi - y) with
    | Lt => lo
    | Gt => hi
    | Eq => if Z.even lo then lo else hi
    end in
  let other := if nearer =? lo then hi else lo in
  if reads_back x nearer s then Some nearer
  else if reads_back x other s then Some other
  else None.

(** The shortest digits that read back as the float [x], with the
    exponent of their last place; 17 digits always do. *)
Fixpoint shortest (x : Q) (e : Z) (p : nat) (fuel : nat) : Z * Z :=
  let s := e - Z.of_nat p + 1 in
  match fuel with
  | O => (floor (x / pow10 s), s)
  | S fuel' =>
      match candidate x s with
      | Some c => (c, s)
      | None => shortest x e (S p) fuel'
      end
  end.

(** Trailing zeros move into the exponent. *)
Fixpoint strip_zeros (fuel : nat) (c s : Z) : Z * Z :=
  match fuel with
  | O => (c, s)
  | S fuel' => if (c mod 10 =? 0) && negb (c =? 0)
               then strip_zeros fuel' (c / 10) (s + 1) else (c, s)
  end.

Fixpoint zeros (n : nat) : string :=
  match n with
  | O => EmptyString
  | S n' => String "0" (zeros n')
  end.

(** The exponent of the exponent form: a sign and at least two digits. *)
Definition exponent_text (e : Z) : string :=
  (if e <? 0 then "-" else "+")
  ++ (if Z.abs e <? 10 then "0" else EmptyString) ++ str_of_Z (Z.abs e).

(** [repr] of a positive float: positional when the decimal point lies
    within the digits or at most four zeros before or sixteen digits after
    their start, with an exponent otherwise. *)
Definition repr_positive (x : Q) : string :=
  let (c0, s0) := shortest x (decimal_exponent x) 1 17 in
  let (c, s) := strip_zeros 20 c0 s0 in
  let digits := str_of_Z c in
  let n := String.length digits in
  let decpt := Z.of_nat n + s in
  if (-4 <? decpt) && (decpt <=? 16)
  then
    if decpt <=? 0
    then "0." ++ zeros (Z.to_nat (- decpt)) ++ digits
    else if Z.of_nat n <=? decpt
    then digits ++ zeros (Z.to_nat (decpt - Z.of_nat n)) ++ ".0"
    else substring 0 (Z.to_nat decpt) digits ++ "."
         ++ substring (Z.to_nat decpt) (n - Z.to_nat decpt) digits
  else
    substring 0 1 digits
    ++ (if (1 <? n)%nat then "." ++ substring 1 (n - 1) digits
        else EmptyString)
    ++ "e" ++ exponent_text (decpt - 1).

(** [repr] of a finite float: the shortest decimal text that reads back
    as the float. *)
Definition float_repr (q : Q) : string :=
  let x := Float64.nearest q in
  match Qnum x with
  | Z0 => "0.0"
  | Zpos _ => repr_positive x
  | Zneg _ => "-" ++ repr_positive (- x)
  end.

(** The float that a decimal literal denotes: the nearest to its value. *)
Definition float_literal (q : Q) : number := Float (Float64.nearest q).

(** [str(v)], as interpolated by an f-string *)
Definition py_str (v : value) : string :=
  match v with
  | VNone => "None"
  | VBool true => "True"
  | VBool false => "False"
  | VNum (Int z) => str_of_Z z
  | VNum (Float x) => float_repr x
  | VStr s => s
  end.

(** [l.append(x)] *)
Definition append {A : Type} (l : list A) (x : A) : list A := (l ++ [x])%list.

End Py.

Import Py.

Notation "x <- m ;; k" := (Py.bind m (fun x => k))
  (at level 61, m at next level, right associativity).


(* ================================================================= *)
(** ** Library functions the class calls: sorted, json.dumps, md5 *)

(** [sorted(l, key=key)] on string keys, compared by code point: a stable
    insertion sort. *)
Section Sorted.
Context {A : Type} (key : A -> string).

Fixpoint insert_by (x : A) (l : list A) : list A :=
  match l with
  | [] => [x]
  | y :: l' =>
      if String.leb (key x) (key y) then x :: l else y :: insert_by x l'
  end.

Definition sort_by (l : list A) : list A := fold_right insert_by [] l.
End Sorted.

Module Json.

Definition hex_digit (n : N) : string :=
  String (ascii_of_N (if (n <? 10)%N then 48 + n else 87 + n)) EmptyString.

Definition backslash : string := String "092"%char EmptyString.

(** One character of a string, as [json.dumps] writes it with
    [ensure_ascii=True]. *)
Definition escape_char (c : ascii) : string :=
  let n := N_of_ascii c in
  if (n =? 34)%N then backslash ++ String c EmptyString
  else if (n =? 92)%N then backslash ++ backslash
  else if (n =? 10)%N then backslash ++ "n"
  else if (n =? 13)%N then backslash ++ "r"
  else if (n =? 9)%N then backslash ++ "t"
  else if (n =? 12)%N then backslash ++ "f"
  else if (n =? 8)%N then backslash ++ "b"
  else if (32 <=? n)%N && (n <=? 126)%N then String c EmptyString
  else backslash ++ "u00" ++ hex_digit (n / 16) ++ hex_digit (n mod 16).

Fixpoint escape (s : string) : string :=
  match s with
  | EmptyString => EmptyString
  | String c s' => escape_char c ++ escape s'
  end.

Definition quote : string := String "034"%char EmptyString.

Definition dumps_str (s : string) : string := quote ++ escape s ++ quote.

Definition dumps_value (v : value) : string :=
  match v with
  | VNone => "null"
  | VBool true => "true"
  | VBool false => "false"
  | VNum (Int z) => str_of_Z z
  | VNum (Float x) => float_repr x
  | VStr s => dumps_str s
  end.

Definition dumps_item (kv : string * value) : string :=
  dumps_str (fst kv) ++ ": " ++ dumps_value (snd kv).

(** [json.dumps(d)] lists the items in insertion order; with
    [sort_keys=True] in the order of [sorted(d.items())]. *)
Definition dumps (d : dict) (sort_keys : bool) : string :=
  let items := if sort_keys then sort_by fst d else d in
  "{" ++ String.concat ", " (map dumps_item items) ++ "}".

End Json.

(** [hashlib.md5(data).hexdigest()] (RFC 1321), on 32-bit words held in [Z]. *)
Module MD5.

Definition mask (x : Z) : Z := Z.land x 0xffffffff.

Definition rotl (x c : Z) : Z :=
  mask (Z.lor (Z.shiftl x c) (Z.shiftr x (32 - c))).

Definition sines : list Z :=
  [ 0xd76aa478; 0xe8c7b756; 0x242070db; 0xc1bdceee;
    0xf57c0faf; 0x4787c62a; 0xa8304613; 0xfd469501;
    0x698098d8; 0x8b44f7af; 0xffff5bb1; 0x895cd7be;
    0x6b901122; 0xfd987193; 0xa679438e; 0x49b40821;
    0xf61e2562; 0xc040b340; 0x265e5a51; 0xe9b6c7aa;
    0xd62f105d; 0x02441453; 0xd8a1e681; 0xe7d3fbc8;
    0x21e1cde6; 0xc33707d6; 0xf4d50d87; 0x455a14ed;
    0xa9e3e905; 0xfcefa3f8; 0x676f02d9; 0x8d2a4c8a;
    0xfffa3942; 0x8771f681; 0x6d9d6122; 0xfde5380c;
    0xa4beea44; 0x4bdecfa9; 0xf6bb4b60; 0xbebfbc70;
    0x289b7ec6; 0xeaa127fa; 0xd4ef3085; 0x04881d05;
    0xd9d4d039; 0xe6db99e5; 0x1fa27cf8; 0xc4ac5665;
    0xf4292244; 0x432aff97; 0xab9423a7; 0xfc93a039;
    0x655b59c3; 0x8f0ccc92; 0xffeff47d; 0x85845dd1;
    0x6fa87e4f; 0xfe2ce6e0; 0xa3014314; 0x4e0811a1;
    0xf7537e82; 0xbd3af235; 0x2ad7d2bb; 0xeb86d391 ].

Definition shifts : list Z :=
  [ 7; 12; 17; 22; 7; 12; 17; 22; 7; 12; 17; 22; 7; 12; 17; 22;
    5; 9; 14; 20; 5; 9; 14; 20; 5; 9; 14; 20; 5; 9; 14; 20;
    4; 11; 16; 23; 4; 11; 16; 23; 4; 11; 16; 23; 4; 11; 16; 23;
    6; 10; 15; 21; 6; 10; 15; 21; 6; 10; 15; 21; 6; 10; 15; 21 ].

Definition state : Type := Z * Z * Z * Z.

Definition init : state := (0x67452301, 0xefcdab89, 0x98badcfe, 0x10325476).

(** [data.encode()]: the bytes of a string. *)
Definition bytes_of (s : string) : list Z :=
  map (fun c => Z.of_N (N_of_ascii c)) (list_ascii_of_string s).

(** The [n] low bytes of [x], least significant first. *)
Fixpoint le_bytes (n : nat) (x : Z) : list Z :=
  match n with
  | O => []
  | S n' => Z.land x 0xff :: le_bytes n' (Z.shiftr x 8)
  end.

Definition pad (msg : list Z) : list Z :=
  let len := Z.of_nat (List.length msg) in
  (msg ++ [0x80] ++ repeat 0 (Z.to_nat ((55 - len) mod 64))
       ++ le_bytes 8 (8 * len))%list.

Fixpoint word_le (bytes : list Z) : Z :=
  match bytes with
  | [] => 0
  | b :: bytes' => Z.lor b (Z.shiftl (word_le bytes') 8)
  end.

(** A list cut into pieces of [size] elements, [count] of them. *)
Fixpoint pieces (count size : nat) (l : list Z) : list (list Z) :=
  match count with
  | O => []
  | S count' => firstn size l :: pieces count' size (skipn size l)
  end.

Definition step (M : list Z) (st : state) (i : nat) : state :=
  let '(a, b, c, d) := st in
  let iz := Z.of_nat i in
  let '(f, g) :=
    if iz <? 16 then
      (Z.lor (Z.land b c) (Z.land (Z.lxor b 0xffffffff) d), iz)
    else if iz <? 32 then
      (Z.lor (Z.land d b) (Z.land (Z.lxor d 0xffffffff) c), (5 * iz + 1) mod 16)
    else if iz <? 48 then
      (Z.lxor (Z.lxor b c) d, (3 * iz + 5) mod 16)
    else
      (Z.lxor c (Z.lor b (Z.lxor d 0xffffffff)), (7 * iz) mod 16) in
  let f := mask (f + a + nth i sines 0 + nth (Z.to_nat g) M 0) in
  (d, mask (b + rotl f (nth i shifts 0)), b, c).

Definition process (st : state) (chunk : list Z) : state :=
  let M := map word_le (pieces 16 4 chunk) in
  let '(a0, b0, c0, d0) := st in
  let '(a, b, c, d) := fold_left (step M) (seq 0 64) st in
  (mask (a0 + a), mask (b0 + b), mask (c0 + c), mask (d0 + d)).

Definition hex_byte (b : Z) : string :=
  Json.hex_digit (Z.to_N (b / 16)) ++ Json.hex_digit (Z.to_N (b mod 16)).

Definition hexdigest (s : string) : string :=
  let data := pad (bytes_of s) in
  let chunks := pieces (List.length data / 64) 64 data in
  let '(a, b, c, d) := fold_left process chunks init in
  String.concat EmptyString
    (map hex_byte (le_bytes 4 a ++ le_bytes 4 b ++ le_bytes 4 c ++ le_bytes 4 d)%list).

End MD5.

(** The part of pandas that [check_demographic_fairness] uses: a frame
    with a boolean column and two label columns, each of which may be
    absent; [groupby(...)[...].mean()]; [Series.max] and [Series.min]. *)
Module Pandas.

(** A [float64]: a finite number, positive infinity or NaN.  The numbers
    that occur are rates and their quotients: none is negative. *)
Inductive float64 :=
| Num (x : Q)
| PInf
| NaN.

Record DataFrame := {
  is_outlier : option (list bool);
  patient_state : option (list string);
  provider_name : option (list string)
}.

(** Mean of a boolean column: the number of [True] over the number of
    rows, as floats. *)
Definition mean (flags : list bool) : Q :=
  Float64.nearest
    (Q_of_nat (List.length (filter (fun b : bool => b) flags))
     / Q_of_nat (List.length flags))%Q.

(** The rows of one group. *)
Definition group (rows : list (string * bool)) (label : string) : list bool :=
  map snd (filter (fun row => String.eqb (fst row) label) rows).

(** The group labels: the distinct values of the column, sorted. *)
Definition labels (column : list string) : list string :=
  sort_by (fun label => label) (nodup string_dec column).

(** [df.groupby(by)[flag].mean()]: one rate per group label. *)
Definition groupby_mean (by_column : list string) (flags : list bool)
  : list (string * Q) :=
  let rows := combine by_column flags in
  map (fun label => (label, mean (group rows label))) (labels (map fst rows)).

(** [Series.max()], NaN for an empty series. *)
Definition series_max (s : list (string * Q)) : float64 :=
  match map snd s with
  | [] => NaN
  | x :: xs => Num (fold_left Qmax xs x)
  end.

Definition series_min (s : list (string * Q)) : float64 :=
  match map snd s with
  | [] => NaN
  | x :: xs => Num (fold_left Qmin xs x)
  end.

(** [a > k] for a finite [k]; a comparison with NaN is false. *)
Definition gt (a : float64) (k : Q) : bool :=
  match a with
  | Num x => Qlt_bool k x
  | PInf => true
  | NaN => false
  end.

(** [a / b] on non-negative operands; numpy divides by zero and overflows
    without an exception. *)
Definition div (a b : float64) : float64 :=
  match a, b with
  | Num x, Num y =>
      if Qeq_bool y 0 then (if Qeq_bool x 0 then NaN else PInf)
      else match Float64.div x y with
           | Float64.Fin q => Num q
           | Float64.Inf => PInf
           end
  | Num _, PInf => Num 0
  | PInf, Num _ => PInf
  | _, _ => NaN
  end.

(** [f'{a:.kf}'] *)
Definition format (places : nat) (a : float64) : string :=
  match a with
  | Num x => format_fixed places x
  | PInf => "inf"
  | NaN => "nan"
  end.

End Pandas.

(* ================================================================= *)
(** ** class MechanisticInterpreter *)

Module MechanisticInterpreter.

Definition VALID_STATES : list string :=
  [ "AL"; "AK"; "AZ"; "AR"; "CA"; "CO"; "CT"; "DE"; "FL"; "GA";
    "HI"; "ID"; "IL"; "IN"; "IA"; "KS"; "KY"; "LA"; "ME"; "MD";
    "MA"; "MI"; "MN"; "MS"; "MO"; "MT"; "NE"; "NV"; "NH"; "NJ";
    "NM"; "NY"; "NC"; "ND"; "OH"; "OK"; "OR"; "PA"; "RI"; "SC";
    "SD"; "TN"; "TX"; "UT"; "VT"; "VA"; "WA"; "WV"; "WI"; "WY" ].

(** *** validate_claim_data *)

Record validation := { valid : bool; errors : list string }.

Definition valid_procedures : list string :=
  [ "Virtual Consultation"; "Mental Health Session";
    "Prescription Refill"; "Follow-up Visit"; "Emergency Consult" ].

Definition amount_error (amount : value) : string :=
  "Invalid claim amount: $" ++ py_str amount
  ++ ". Must be between $1 and $10,000".

Definition state_error (state : string) : string :=
  "Invalid state code: " ++ state.

Definition procedure_error (procedure : value) : string :=
  "Invalid procedure type: " ++ py_str procedure.

Definition validate_claim_data (claim_data : dict) : result validation :=
  let errors := [] in
  let amount := dict_get claim_data "claim_amount" (VNum (Int 0)) in
  a <- as_number amount ;;
  let errors :=
    if negb (Qle_bool 1 a && Qle_bool a 10000)
    then append errors (amount_error amount) else errors in
  state <- py_upper (dict_get claim_data "patient_state" (VStr EmptyString)) ;;
  let errors :=
    if negb (existsb (String.eqb state) VALID_STATES)
    then append errors (state_error state) else errors in
  let procedure := get claim_data "procedure_type" in
  let errors :=
    if truthy procedure && negb (in_strs procedure valid_procedures)
    then append errors (procedure_error procedure) else errors in
  Ok {| valid := Nat.eqb (List.length errors) 0; errors := errors |}.

(** *** analyze_claim_features *)

Record norm := { avg : Z; std : Z; max_normal : Z }.

(** The [procedure_norms] of [analyze_claim_features]; the rule engine has
    a table of the same name, below. *)
Definition feature_procedure_norms : list (string * norm) :=
  [ ("Virtual Consultation", {| avg := 150; std := 45; max_normal := 450 |});
    ("Mental Health Session", {| avg := 200; std := 60; max_normal := 600 |});
    ("Prescription Refill", {| avg := 50; std := 15; max_normal := 150 |});
    ("Follow-up Visit", {| avg := 120; std := 36; max_normal := 360 |});
    ("Emergency Consult", {| avg := 300; std := 90; max_normal := 900 |}) ].

Definition diagnosis_categories : list (string * list string) :=
  [ ("Mental Health", ["Anxiety"; "Depression"; "Insomnia"]);
    ("Physical", ["Hypertension"; "Diabetes"; "Common Cold"; "Back Pain";
                  "Migraine"; "Allergies"; "Stomach Flu"]) ].

(** Lookup in a dict literal keyed by strings: a key that is not a
    [str] equals none of them. *)
Fixpoint assoc {A : Type} (k : value) (table : list (string * A)) : option A :=
  match table with
  | [] => None
  | (k', a) :: table' => if eq_str k k' then Some a else assoc k table'
  end.

Record procedure_report := {
  expected_range : string;
  actual_amount : string;
  deviation_sigma : number;
  threshold_violation : bool
}.

Record diagnosis_report := {
  diagnosis_category : string;
  typical_procedures : string
}.

(** [procedure_analysis] is [None] for the empty dict [{}];
    [amount_analysis] and [geographic_analysis] always stay [{}]. *)
Record features := {
  procedure_analysis : option procedure_report;
  diagnosis_analysis : diagnosis_report;
  amount_analysis : dict;
  geographic_analysis : dict
}.

(** [next((cat for cat, diags in ... if diagnosis in diags), 'Unknown')] *)
Fixpoint category_of (diagnosis : value) (cats : list (string * list string))
  : string :=
  match cats with
  | [] => "Unknown"
  | (cat, diags) :: cats' =>
      if in_strs diagnosis diags then cat else category_of diagnosis cats'
  end.

Definition analyze_claim_features (claim_data : dict) : result features :=
  let procedure := get claim_data "procedure_type" in
  pa <- match assoc procedure feature_procedure_norms with
        | Some nrm =>
            let amount := dict_get claim_data "claim_amount" (VNum (Int 0)) in
            a <- as_number amount ;;
            deviation <-
              (if 0 <? std nrm
               then q <- true_divide amount (minus amount a (avg nrm)) (std nrm) ;;
                    Ok (Float q)
               else Ok (Int 0)) ;;
            Ok (Some {|
              expected_range :=
                "$" ++ str_of_Z (avg nrm - std nrm)
                ++ " - $" ++ str_of_Z (avg nrm + std nrm);
              actual_amount := "$" ++ py_str amount;
              deviation_sigma := deviation;
              threshold_violation := Qlt_bool (inject_Z (max_normal nrm)) a
            |})
        | None => Ok None
        end ;;
  let diagnosis := get claim_data "diagnosis" in
  Ok {|
    procedure_analysis := pa;
    diagnosis_analysis := {|
      diagnosis_category := category_of diagnosis diagnosis_categories;
      typical_procedures :=
        "Mental Health procedures typically for Mental Health diagnoses"
    |};
    amount_analysis := [];
    geographic_analysis := []
  |}.

(** *** evaluate_business_rules *)

Record activation := {
  rule_id : string;
  description : string;
  confidence : string;
  evidence : string
}.

Definition unusual_combos : list (string * string) :=
  [ ("Mental Health Session", "Common Cold");
    ("Mental Health Session", "Back Pain");
    ("Emergency Consult", "Allergies");
    ("Emergency Consult", "Common Cold") ].

Definition procedure_norms : list (string * Z) :=
  [ ("Virtual Consultation", 450);
    ("Mental Health Session", 600);
    ("Prescription Refill", 150);
    ("Follow-up Visit", 360);
    ("Emergency Consult", 900) ].

Definition restricted_states : list string := ["WY"; "AK"; "MT"].

(** The value of [procedure_norms.get(procedure, float('inf'))]: a
    number of the table or positive infinity. *)
Inductive bound :=
| Finite (t : number)
| Infinity.

Definition norms_get (procedure : value) : bound :=
  match assoc procedure procedure_norms with
  | Some t => Finite (Int t)
  | None => Infinity
  end.

(** [threshold * k] for the float of a positive literal [k]: a float. *)
Definition times (threshold : bound) (k : Q) : bound :=
  match threshold with
  | Finite t =>
      Finite (Float (Float64.nearest (Q_of_number t * Float64.nearest k)))
  | Infinity => Infinity
  end.

(** [amount > threshold]: no number is above infinity. *)
Definition exceeds (a : Q) (threshold : bound) : bool :=
  match threshold with
  | Finite t => Qlt_bool (Q_of_number t) a
  | Infinity => false
  end.

(** [amount / threshold * 100], the threshold being an int of the table,
    none of which is zero, or infinity: a finite number over infinity is
    [0.0].  The division of two ints may raise; the product of the
    quotient, a float, may overflow to infinity. *)
Definition percent_of (amount : value) (a : Q) (threshold : bound)
  : result Float64.t :=
  match threshold with
  | Finite (Int t) =>
      q <- true_divide amount a t ;;
      Ok (Float64.mul (Float64.Fin q) 100)
  | Finite (Float t) => Ok (Float64.mul (Float64.div a t) 100)
  | Infinity => Ok (Float64.Fin 0)
  end.

Definition str_bound (threshold : bound) : string :=
  match threshold with
  | Finite t => py_str (VNum t)
  | Infinity => "inf"
  end.

(** [(procedure, diagnosis) in unusual_combos] *)
Definition is_unusual_combo (procedure diagnosis : value) : bool :=
  existsb (fun pd => eq_str procedure (fst pd) && eq_str diagnosis (snd pd))
          unusual_combos.

Definition evaluate_business_rules (claim_data : dict)
  : result (list activation) :=
  let rules_activated := [] in
  let procedure := get claim_data "procedure_type" in
  let diagnosis := get claim_data "diagnosis" in
  let rules_activated :=
    if is_unusual_combo procedure diagnosis
    then append rules_activated {|
      rule_id := "UNUSUAL_COMBO";
      description := "Unusual combination: " ++ py_str procedure
                     ++ " + " ++ py_str diagnosis;
      confidence := "High";
      evidence := "Combination statistically rare in historical data" |}
    else rules_activated in
  let amount := dict_get claim_data "claim_amount" (VNum (Int 0)) in
  let threshold := norms_get procedure in
  a <- as_number amount ;;
  rules_activated <-
    (if exceeds a threshold
     then
       percent <- percent_of amount a threshold ;;
       Ok (append rules_activated {|
         rule_id := "HIGH_AMOUNT";
         description := "Claim amount $" ++ py_str amount ++ " exceeds $"
                        ++ str_bound threshold ++ " threshold";
         confidence := if exceeds a (times threshold (15 # 10))
                       then "High" else "Medium";
         evidence := format_float 1 percent
                     ++ "% above expected maximum" |})
     else Ok rules_activated) ;;
  let state := get claim_data "patient_state" in
  let rules_activated :=
    if in_strs state restricted_states
       && eq_str procedure "Virtual Consultation"
    then append rules_activated {|
      rule_id := "GEOGRAPHIC_RESTRICTION";
      description := "Virtual consultation from restricted state: "
                     ++ py_str state;
      confidence := "High";
      evidence := "State not covered for virtual consultations" |}
    else rules_activated in
  Ok rules_activated.

(** *** trace_decision_pathway *)

(** [any(rule['rule_id'] == rid for rule in rules_activated)] *)
Definition any_rule (rid : string) (rules_activated : list activation) : bool :=
  existsb (fun rule => String.eqb (rule_id rule) rid) rules_activated.

Definition trace_decision_pathway (rules_activated : list activation)
  : list string :=
  let pathway := [] in
  let pathway :=
    if any_rule "UNUSUAL_COMBO" rules_activated
    then append pathway
           "Primary trigger: Unusual diagnosis-procedure combination"
    else pathway in
  let pathway :=
    if any_rule "HIGH_AMOUNT" rules_activated
    then append pathway "Supporting factor: Abnormally high claim amount"
    else pathway in
  let pathway :=
    if any_rule "GEOGRAPHIC_RESTRICTION" rules_activated
    then append pathway "Geographic constraint violation"
    else pathway in
  pathway.

(** *** assess_confidence *)

Record assessment := { level : string; score : number; reason : string }.

Definition assess_confidence (rules_activated : list activation) : assessment :=
  let high_conf_rules :=
    List.length
      (filter (fun rule => String.eqb (confidence rule) "High")
              rules_activated) in
  let total_rules := List.length rules_activated in
  if Nat.eqb total_rules 0
  then {| level := "Low"; score := Int 0; reason := "No rules activated" |}
  else
    let confidence_score := (Q_of_nat high_conf_rules / Q_of_nat total_rules)%Q in
    let level :=
      if Qle_bool (7 # 10) confidence_score then "High"
      else if Qle_bool (4 # 10) confidence_score then "Medium"
      else "Low" in
    {| level := level;
       score := Float confidence_score;
       reason := str_of_nat high_conf_rules
                 ++ " high-confidence rules out of "
                 ++ str_of_nat total_rules ++ " total" |}.

(** *** generate_recommendations *)

Definition generate_recommendations (rules_activated : list activation)
  : list string :=
  let recommendations := [] in
  let recommendations :=
    if any_rule "UNUSUAL_COMBO" rules_activated
    then append recommendations
           "Review medical necessity of procedure-diagnosis combination"
    else recommendations in
  let recommendations :=
    if any_rule "HIGH_AMOUNT" rules_activated
    then append recommendations
           "Verify procedure coding and duration justification"
    else recommendations in
  let recommendations :=
    if any_rule "GEOGRAPHIC_RESTRICTION" rules_activated
    then append recommendations
           "Confirm patient residency and coverage eligibility"
    else recommendations in
  recommendations.

(** *** check_demographic_fairness *)

Record disparity := {
  max_rate : Pandas.float64;
  min_rate : Pandas.float64;
  ratio : Pandas.float64
}.

(** A key of the report is [None] when the code does not set it. *)
Record fairness := {
  state_disparities : option disparity;
  provider_disparities : option disparity
}.

Definition disparity_of (rates : list (string * Q)) : disparity :=
  {| max_rate := Pandas.series_max rates;
     min_rate := Pandas.series_min rates;
     ratio := if Pandas.gt (Pandas.series_min rates) 0
              then Pandas.div (Pandas.series_max rates) (Pandas.series_min rates)
              else Pandas.PInf |}.

Definition check_demographic_fairness (claims_df : Pandas.DataFrame) : fairness :=
  {| state_disparities :=
       match Pandas.is_outlier claims_df, Pandas.patient_state claims_df with
       | Some flags, Some states =>
           Some (disparity_of (Pandas.groupby_mean states flags))
       | _, _ => None
       end;
     provider_disparities :=
       match Pandas.is_outlier claims_df, Pandas.provider_name claims_df with
       | Some flags, Some providers =>
           Some (disparity_of (Pandas.groupby_mean providers flags))
       | _, _ => None
       end |}.

(** *** generate_disparity_alerts *)

(** [fairness_report.get(key, {}).get('ratio', 1.0)] *)
Definition ratio_or_one (d : option disparity) : Pandas.float64 :=
  match d with
  | Some x => ratio x
  | None => Pandas.Num 1
  end.

Definition state_alert (state_ratio : Pandas.float64) : string :=
  "HIGH DISPARITY: State outlier rates vary by "
  ++ Pandas.format 2 state_ratio ++ "x".

Definition provider_alert (provider_ratio : Pandas.float64) : string :=
  "HIGH DISPARITY: Provider outlier rates vary by "
  ++ Pandas.format 2 provider_ratio ++ "x".

Definition generate_disparity_alerts (fairness_report : fairness) : list string :=
  let alerts := [] in
  let state_ratio := ratio_or_one (state_disparities fairness_report) in
  let provider_ratio := ratio_or_one (provider_disparities fairness_report) in
  let alerts :=
    if Pandas.gt state_ratio 2
    then append alerts (state_alert state_ratio) else alerts in
  let alerts :=
    if Pandas.gt provider_ratio 3
    then append alerts (provider_alert provider_ratio) else alerts in
  alerts.

(** *** generate_counterfactuals *)

Definition procedure_thresholds : list (string * Z) :=
  [ ("Virtual Consultation", 450);
    ("Mental Health Session", 600);
    ("Emergency Consult", 900) ].

(** [threshold * 0.9] *)
Definition safe_amount (threshold : Z) : Q :=
  Float64.nearest (inject_Z threshold * Float64.nearest (9 # 10)).

Definition counterfactual (threshold : Z) (current_amount : value) : string :=
  "If claim amount were $" ++ format_fixed 2 (safe_amount threshold)
  ++ " instead of $" ++ py_str current_amount
  ++ ", this claim would likely not be flagged as an outlier".

(** [threshold and current_amount > threshold]: the comparison is only
    evaluated for a threshold that is found and not zero. *)
Definition generate_counterfactuals (claim_data : dict) : result (list string) :=
  let counterfactuals := [] in
  let current_amount := dict_get claim_data "claim_amount" (VNum (Int 0)) in
  let procedure := get claim_data "procedure_type" in
  match assoc procedure procedure_thresholds with
  | None => Ok counterfactuals
  | Some threshold =>
      if threshold =? 0 then Ok counterfactuals
      else
        a <- as_number current_amount ;;
        if Qlt_bool (inject_Z threshold) a
        then Ok (append counterfactuals (counterfactual threshold current_amount))
        else Ok counterfactuals
  end.

(** *** generate_interpretability_report *)

Record report := {
  claim_id : value;
  feature_analysis : features;
  rules_activated : list activation;
  decision_pathway : list string;
  confidence_assessment : assessment;
  similar_patterns : nat;
  recommendations : list string;
  counterfactuals : list string
}.

Definition generate_interpretability_report
  (claim_data : dict) (similar_claims : list dict) : result report :=
  feature_analysis <- analyze_claim_features claim_data ;;
  rules_activated <- evaluate_business_rules claim_data ;;
  let pathway := trace_decision_pathway rules_activated in
  let assessed := assess_confidence rules_activated in
  let recs := generate_recommendations rules_activated in
  cfs <- generate_counterfactuals claim_data ;;
  Ok {|
    claim_id := get claim_data "claim_id";
    feature_analysis := feature_analysis;
    rules_activated := rules_activated;
    decision_pathway := pathway;
    confidence_assessment := assessed;
    similar_patterns := List.length similar_claims;
    recommendations := recs;
    counterfactuals := cfs
  |}.

(** *** create_audit_log *)

(** The keys [claim_id], [rules_activated] and [decision_pathway] of the
    entry carry the prefix [audit_], the report having fields of these
    names. *)
Record audit_entry := {
  timestamp : string;
  audit_claim_id : value;
  decision : string;
  audit_rules_activated : list string;
  confidence_scores : list string;
  audit_decision_pathway : list string;
  system_version : string;
  audit_hash : string;
  validation_status : validation
}.

(** [now] is the reading of the clock,
    [datetime.datetime.utcnow().isoformat()].  An activation is a record
    with all its fields, so [rule.get('confidence', 'Unknown')] is its
    confidence. *)
Definition create_audit_log (now : string) (claim_data : dict)
  (rules_activated : list activation) (decision : string)
  : result audit_entry :=
  let data_hash := MD5.hexdigest (Json.dumps claim_data true) in
  status <- validate_claim_data claim_data ;;
  Ok {|
    timestamp := now;
    audit_claim_id := get claim_data "claim_id";
    decision := decision;
    audit_rules_activated := map rule_id rules_activated;
    confidence_scores := map confidence rules_activated;
    audit_decision_pathway := trace_decision_pathway rules_activated;
    system_version := "1.0";
    audit_hash := data_hash;
    validation_status := status
  |}.

End MechanisticInterpreter.


(* ================================================================= *)
(** ** Vocabulary of the properties, and sample inputs *)

Import MechanisticInterpreter.

(** The order of two elements by their keys. *)
Definition key_le {A : Type} (key : A -> string) (x y : A) : Prop :=
  String.leb (key x) (key y) = true.

(** [{'procedure_type': 'Virtual Consultation', 'claim_amount': 500}] *)
Definition consultation_500 : dict :=
  [ ("procedure_type", VStr "Virtual Consultation");
    ("claim_amount", VNum (Int 500)) ].

(** The only activation of [consultation_500]. *)
Definition high_amount_500 : activation :=
  {| rule_id := "HIGH_AMOUNT";
     description := "Claim amount $500 exceeds $450 threshold";
     confidence := "Medium";
     evidence := "111.1% above expected maximum" |}.

(** The evidence of HIGH_AMOUNT in the words of the specification:
    the percentage above the threshold, [(amount/threshold - 1) * 100]. *)
Definition evidence_percent_above (a threshold : Q) : string :=
  format_fixed 1 ((a / threshold - 1) * 100) ++ "% above expected maximum".

(** The order in which the rules are evaluated. *)
Definition RULE_ORDER : list string :=
  ["UNUSUAL_COMBO"; "HIGH_AMOUNT"; "GEOGRAPHIC_RESTRICTION"].

(** [l1] is [l2] with some elements left out. *)
Inductive subsequence {A : Type} : list A -> list A -> Prop :=
| subsequence_nil : subsequence [] []
| subsequence_skip x l1 l2 : subsequence l1 l2 -> subsequence l1 (x :: l2)
| subsequence_take x l1 l2 : subsequence l1 l2 -> subsequence (x :: l1) (x :: l2).

(** The amount of a claim, as the rule engine reads it. *)
Definition amount_of (claim_data : dict) : value :=
  dict_get claim_data "claim_amount" (VNum (Int 0)).

(** [x] is beyond the floats: at least [2^1024 - 2^970] in size, where
    rounding to nearest leaves the largest float. *)
Definition beyond_floats (x : Q) : bool :=
  Qle_bool (inject_Z Float64.threshold) (Qabs x).

(** The amount, of value [a], is an int above the threshold of the claim's
    procedure, and their quotient is beyond the floats: the evidence of
    HIGH_AMOUNT cannot be computed. *)
Definition engine_overflows (claim_data : dict) (a : Q) : bool :=
  match assoc (get claim_data "procedure_type") procedure_norms with
  | Some t =>
      Qlt_bool (inject_Z t) a
      && negb (is_float (amount_of claim_data))
      && beyond_floats (a / inject_Z t)%Q
  | None => false
  end.

(** The amount is an int, the procedure has norms, and the deviation
    [(amount - avg) / std] is beyond the floats. *)
Definition analysis_overflows (claim_data : dict) (a : Q) : bool :=
  match assoc (get claim_data "procedure_type") feature_procedure_norms with
  | Some nrm =>
      (0 <? std nrm)
      && negb (is_float (amount_of claim_data))
      && beyond_floats ((a - inject_Z (avg nrm)) / inject_Z (std nrm))%Q
  | None => false
  end.

(** A Virtual Consultation whose amount is the int [10 ** 400]. *)
Definition consultation_huge : dict :=
  [ ("procedure_type", VStr "Virtual Consultation");
    ("claim_amount", VNum (Int (10 ^ 400)));
    ("patient_state", VStr "CA") ].

(** [{**d, k: v}]: the dict with the value at [k] replaced, or added. *)
Fixpoint dict_set (d : dict) (k : string) (v : value) : dict :=
  match d with
  | [] => [(k, v)]
  | (k', v') :: d' =>
      if String.eqb k' k then (k', v) :: d' else (k', v') :: dict_set d' k v
  end.

(** The state of a claim, as the validator reads it. *)
Definition state_of (claim_data : dict) : value :=
  dict_get claim_data "patient_state" (VStr EmptyString).

(** The message of a check that failed, nothing otherwise. *)
Definition when (failed : bool) (message : string) : list string :=
  if failed then [message] else [].

(** The three checks of the validator. *)
Definition amount_out_of_bounds (a : Q) : bool :=
  negb (Qle_bool 1 a && Qle_bool a 10000).

Definition state_unknown (state : string) : bool :=
  negb (existsb (String.eqb state) VALID_STATES).

Definition procedure_unknown (procedure : value) : bool :=
  truthy procedure && negb (in_strs procedure valid_procedures).

(** A claim of 15000 from an unknown state for an unknown procedure: it
    fails the three checks of the validator. *)
Definition invalid_claim : dict :=
  [ ("claim_amount", VNum (Int 15000));
    ("patient_state", VStr "zz");
    ("procedure_type", VStr "Surgery") ].

(** A claim with every field but [claim_id]. *)
Definition claim_without_id : dict :=
  [ ("procedure_type", VStr "Virtual Consultation");
    ("diagnosis", VStr "Anxiety");
    ("claim_amount", VNum (Int 200));
    ("patient_state", VStr "CA") ].

(** The outcome of a call, reduced to one field of its result. *)
Definition field {A B : Type} (f : A -> B) (m : result A) : result B :=
  match m with
  | Ok a => Ok (f a)
  | Raise e => Raise e
  end.

(** [r > k], for a ratio that may be infinite. *)
Definition strictly_above (r : Pandas.float64) (k : Q) : Prop :=
  match r with
  | Pandas.Num x => (k < x)%Q
  | Pandas.PInf => True
  | Pandas.NaN => False
  end.

(** [M] is the greatest, [m] the least number of a list. *)
Definition is_max (M : Q) (xs : list Q) : Prop :=
  (forall x, In x xs -> (x <= M)%Q) /\ exists x, In x xs /\ (x == M)%Q.

Definition is_min (m : Q) (xs : list Q) : Prop :=
  (forall x, In x xs -> (m <= x)%Q) /\ exists x, In x xs /\ (x == m)%Q.

(** [M / m] as floats divide: the quotient rounded to the nearest float,
    infinity beyond the largest. *)
Definition float_quotient (M m : Q) : Pandas.float64 :=
  if beyond_floats (M / m)%Q
  then Pandas.PInf
  else Pandas.Num (Float64.nearest (M / m)%Q).

(** The rate of the group [label] among the rows of a batch, each row the
    label and the outlier flag of a claim: the number of outliers of the
    group over the number of its claims, as floats divide. *)
Definition group_rate (rows : list (string * bool)) (label : string) : Q :=
  Float64.nearest
    (Q_of_nat (List.length
                 (filter (fun row => String.eqb (fst row) label && snd row)
                         rows))
     / Q_of_nat (List.length
                   (filter (fun row => String.eqb (fst row) label) rows)))%Q.

(** [m] is the least, [M] the greatest rate of the groups of the rows. *)
Definition least_rate (m : Q) (rows : list (string * bool)) : Prop :=
  (forall label, In label (map fst rows) -> (m <= group_rate rows label)%Q)
  /\ exists label,
      In label (map fst rows) /\ (group_rate rows label == m)%Q.

Definition greatest_rate (M : Q) (rows : list (string * bool)) : Prop :=
  (forall label, In label (map fst rows) -> (group_rate rows label <= M)%Q)
  /\ exists label,
      In label (map fst rows) /\ (group_rate rows label == M)%Q.

(** The sub-report of one dimension, in terms of the rows of the batch:
    without a row there is no group, the rates are NaN and the ratio is
    infinite; otherwise the rates are the least and the greatest group
    rate, and the ratio is their quotient, or infinite when the least is
    zero. *)
Definition ratio_of_rates (d : disparity) (rows : list (string * bool)) : Prop :=
  match rows with
  | [] =>
      max_rate d = Pandas.NaN /\ min_rate d = Pandas.NaN
      /\ ratio d = Pandas.PInf
  | _ :: _ =>
      exists m M,
        min_rate d = Pandas.Num m /\ max_rate d = Pandas.Num M
        /\ least_rate m rows /\ greatest_rate M rows
        /\ (0 <= m)%Q
        /\ ((0 < m)%Q -> ratio d = float_quotient M m)
        /\ ((m == 0)%Q -> ratio d = Pandas.PInf)
  end.

(** There is a group, and all groups have the same rate, which is not zero. *)
Definition uniform_rate (rows : list (string * bool)) : Prop :=
  rows <> []
  /\ exists r,
      (0 < r)%Q
      /\ forall label, In label (map fst rows) -> (group_rate rows label == r)%Q.

(** A grouping column that is absent, or whose groups have one rate. *)
Definition uniform_dimension (column : option (list string)) (flags : list bool)
  : Prop :=
  match column with
  | Some groups => uniform_rate (combine groups flags)
  | None => True
  end.

(** [n] times [x] *)
Definition copies {A : Type} (n : nat) (x : A) : list A := repeat x n.

(** A frame of 28 claims.  Provider [a] has 5 outliers among its 7 claims,
    provider [b] 5 among 21: the quotient of the rates 5/7 and 5/21 is 3,
    the quotient of the floats is 3.0000000000000004.  The states NY, CA
    and TX have 5 outliers among 7 claims, 5 among 7 and none among 14. *)
Definition sample_frame : Pandas.DataFrame :=
  {| Pandas.is_outlier :=
       Some (copies 5 true ++ copies 2 false
             ++ copies 5 true ++ copies 2 false ++ copies 14 false)%list;
     Pandas.patient_state :=
       Some (copies 7 "NY" ++ copies 7 "CA" ++ copies 14 "TX")%list;
     Pandas.provider_name :=
       Some (copies 7 "a" ++ copies 21 "b")%list |}.

(** The frame of the first 14 claims of [sample_frame], by state only: one
    rate, 5/7, for both states. *)
Definition uniform_frame : Pandas.DataFrame :=
  {| Pandas.is_outlier :=
       Some (copies 5 true ++ copies 2 false
             ++ copies 5 true ++ copies 2 false)%list;
     Pandas.patient_state := Some (copies 7 "NY" ++ copies 7 "CA")%list;
     Pandas.provider_name := None |}.

(* ================================================================= *)
(** ** Further vocabulary: the parts of the rule engine's answer *)

(** [[x]] when the condition holds, nothing otherwise. *)
Definition only_if {A : Type} (condition : bool) (x : A) : list A :=
  if condition then [x] else [].

(** The activation of each rule, as the rule engine builds it. *)
Definition unusual_combo_record (procedure diagnosis : value) : activation :=
  {| rule_id := "UNUSUAL_COMBO";
     description := "Unusual combination: " ++ py_str procedure
                    ++ " + " ++ py_str diagnosis;
     confidence := "High";
     evidence := "Combination statistically rare in historical data" |}.

(** [amount / threshold * 100] when the division does not raise. *)
Definition percent (a : Q) (threshold : bound) : Float64.t :=
  match threshold with
  | Finite (Int t) =>
      Float64.mul (Float64.Fin (Float64.nearest (a / inject_Z t)%Q)) 100
  | Finite (Float t) => Float64.mul (Float64.div a t) 100
  | Infinity => Float64.Fin 0
  end.

Definition high_amount_record (amount : value) (a : Q) (threshold : bound)
  : activation :=
  {| rule_id := "HIGH_AMOUNT";
     description := "Claim amount $" ++ py_str amount ++ " exceeds $"
                    ++ str_bound threshold ++ " threshold";
     confidence := if exceeds a (times threshold (15 # 10))
                   then "High" else "Medium";
     evidence := format_float 1 (percent a threshold)
                 ++ "% above expected maximum" |}.

Definition geographic_record (state : value) : activation :=
  {| rule_id := "GEOGRAPHIC_RESTRICTION";
     description := "Virtual consultation from restricted state: "
                    ++ py_str state;
     confidence := "High";
     evidence := "State not covered for virtual consultations" |}.

(** The condition of the third rule. *)
Definition geographic_condition (claim_data : dict) : bool :=
  in_strs (get claim_data "patient_state") restricted_states
  && eq_str (get claim_data "procedure_type") "Virtual Consultation".

(** A Virtual Consultation of 100 from Wyoming, the state in lower case. *)
Definition wyoming_lower_case : dict :=
  [ ("procedure_type", VStr "Virtual Consultation");
    ("claim_amount", VNum (Int 100));
    ("patient_state", VStr "wy") ].

(** A Virtual Consultation of 100 from Wyoming. *)
Definition consultation_from_wyoming : dict :=
  [ ("procedure_type", VStr "Virtual Consultation");
    ("claim_amount", VNum (Int 100));
    ("patient_state", VStr "WY") ].

(** A Mental Health Session for a Common Cold. *)
Definition session_for_cold : dict :=
  [ ("procedure_type", VStr "Mental Health Session");
    ("diagnosis", VStr "Common Cold");
    ("claim_amount", VNum (Int 200));
    ("patient_state", VStr "CA") ].

(** *** Vocabulary of the aggregator *)

(** The line of the decision pathway for a rule id, and its recommendation. *)
Definition pathway_line (rid : string) : string :=
  if String.eqb rid "UNUSUAL_COMBO"
  then "Primary trigger: Unusual diagnosis-procedure combination"
  else if String.eqb rid "HIGH_AMOUNT"
  then "Supporting factor: Abnormally high claim amount"
  else "Geographic constraint violation".

Definition recommendation_line (rid : string) : string :=
  if String.eqb rid "UNUSUAL_COMBO"
  then "Review medical necessity of procedure-diagnosis combination"
  else if String.eqb rid "HIGH_AMOUNT"
  then "Verify procedure coding and duration justification"
  else "Confirm patient residency and coverage eligibility".

Definition is_high (rule : activation) : bool :=
  String.eqb (confidence rule) "High".

(** The number of High activations of a list. *)
Definition high_count (acts : list activation) : nat :=
  List.length (filter is_high acts).

(** Two activations of one rule and one of another, out of order. *)
Definition repeated_activations : list activation :=
  [ geographic_record (VStr "WY"); high_amount_500; geographic_record (VStr "AK") ].

(** *** Vocabulary of the feature analysis *)

(** The procedure report of a claim of amount [a] for norms [nrm]. *)
Definition procedure_report_of (amount : value) (a : Q) (nrm : norm)
  : procedure_report :=
  {| expected_range := "$" ++ str_of_Z (avg nrm - std nrm)
                       ++ " - $" ++ str_of_Z (avg nrm + std nrm);
     actual_amount := "$" ++ py_str amount;
     deviation_sigma :=
       if 0 <? std nrm
       then Float (Float64.nearest
                     (minus amount a (avg nrm) / inject_Z (std nrm))%Q)
       else Int 0;
     threshold_violation := Qlt_bool (inject_Z (max_normal nrm)) a |}.

(** The diagnoses of the two categories. *)
Definition mental_health_diagnoses : list string :=
  ["Anxiety"; "Depression"; "Insomnia"].

Definition physical_diagnoses : list string :=
  ["Hypertension"; "Diabetes"; "Common Cold"; "Back Pain";
   "Migraine"; "Allergies"; "Stomach Flu"].

(** A claim whose amount is a string, for a procedure without norms. *)
Definition text_amount_unknown_procedure : dict :=
  [ ("procedure_type", VStr "Surgery");
    ("claim_amount", VStr "a lot") ].

(** *** Further sample claims *)

(** A claim above the validator's bound, for a procedure with norms. *)
Definition claim_15000 : dict :=
  [ ("procedure_type", VStr "Emergency Consult");
    ("claim_amount", VNum (Int 15000));
    ("patient_state", VStr "CA") ].

(** A claim whose state is [None]. *)
Definition claim_state_none : dict :=
  [ ("claim_amount", VNum (Int 100));
    ("patient_state", VNone) ].

(** A valid claim with its state in lower case. *)
Definition claim_lower_case_state : dict :=
  [ ("claim_id", VStr "CLM_10007");
    ("procedure_type", VStr "Follow-up Visit");
    ("claim_amount", VNum (Float (12050 # 100)));
    ("patient_state", VStr "tx") ].

(** *** Vocabulary of the fairness monitor *)

(** What a sub-report of the fairness monitor can look like: no group and
    NaN rates, or rates between 0 and 1, the least below the greatest; the
    ratio is infinite or a number from 1 up. *)
Definition well_formed_disparity (d : disparity) : Prop :=
  ((max_rate d = Pandas.NaN /\ min_rate d = Pandas.NaN)
   \/ exists m M,
       min_rate d = Pandas.Num m /\ max_rate d = Pandas.Num M
       /\ (0 <= m)%Q /\ (m <= M)%Q /\ (M <= 1)%Q)
  /\ (ratio d = Pandas.PInf
      \/ exists x, ratio d = Pandas.Num x /\ (1 <= x)%Q).

(** A frame of four claims, none of them an outlier. *)
Definition frame_without_outliers : Pandas.DataFrame :=
  {| Pandas.is_outlier := Some [false; false; false; false];
     Pandas.patient_state := Some ["NY"; "CA"; "NY"; "TX"];
     Pandas.provider_name := None |}.

(* ================================================================= *)
(** ** run_agent.py: the validation of an agent response

    The response is text; its characters are taken to be ASCII: the case
    mappings, the white space and the character classes of the patterns are
    those of ASCII. *)

Module RunAgent.

(** *** String methods *)

Definition lower_char (c : ascii) : ascii :=
  let n := N_of_ascii c in
  if (65 <=? n)%N && (n <=? 90)%N then ascii_of_N (n + 32) else c.

(** [s.lower()] *)
Fixpoint lower (s : string) : string :=
  match s with
  | EmptyString => EmptyString
  | String c s' => String (lower_char c) (lower s')
  end.

(** White space: tab to carriage return, the separators 28 to 31, space. *)
Definition is_space (c : ascii) : bool :=
  let n := N_of_ascii c in
  ((9 <=? n)%N && (n <=? 13)%N) || ((28 <=? n)%N && (n <=? 32)%N).

Fixpoint lstrip (s : string) : string :=
  match s with
  | EmptyString => EmptyString
  | String c s' => if is_space c then lstrip s' else s
  end.

Definition reverse (s : string) : string :=
  string_of_list_ascii (rev (list_ascii_of_string s)).

(** [s.strip()] *)
Definition strip (s : string) : string :=
  reverse (lstrip (reverse (lstrip s))).

(** [needle in hay] *)
Fixpoint contains (hay needle : string) : bool :=
  String.prefix needle hay
  || match hay with
     | EmptyString => false
     | String _ hay' => contains hay' needle
     end.

(** [repr] of a list of strings that hold no quote and no backslash. *)
Definition repr_list (l : list string) : string :=
  "[" ++ String.concat ", " (map (fun s => "'" ++ s ++ "'") l) ++ "]".

(** *** The patterns of [re.search] *)

(** The atoms the two patterns are made of: [\b], one character of a
    class, and [n] or more characters of a class. *)
Inductive atom :=
| Boundary
| One (class : ascii -> bool)
| AtLeast (n : nat) (class : ascii -> bool).

Definition between (lo hi : N) (c : ascii) : bool :=
  let n := N_of_ascii c in (lo <=? n)%N && (n <=? hi)%N.

Definition is_digit : ascii -> bool := between 48 57.

Definition is_letter (c : ascii) : bool := between 65 90 c || between 97 122 c.

Definition is_char (x : ascii) (c : ascii) : bool := Ascii.eqb c x.

(** [\w] *)
Definition is_word (c : ascii) : bool :=
  is_letter c || is_digit c || is_char "_" c.

(** [\b] between the previous and the next character, either of which
    may be missing. *)
Definition at_boundary (prev next : option ascii) : bool :=
  xorb (match prev with Some c => is_word c | None => false end)
       (match next with Some c => is_word c | None => false end).

Definition first_char (s : string) : option ascii :=
  match s with
  | EmptyString => None
  | String c _ => Some c
  end.

(** Whether the pattern matches at the start of [s], [prev] being the
    character before it. *)
Fixpoint match_here (p : list atom) (prev : option ascii) (s : string) : bool :=
  match p with
  | [] => true
  | Boundary :: p' => at_boundary prev (first_char s) && match_here p' prev s
  | One class :: p' =>
      match s with
      | String c s' => class c && match_here p' (Some c) s'
      | EmptyString => false
      end
  | AtLeast n class :: p' =>
      (fix repeat (n : nat) (prev : option ascii) (s : string) : bool :=
         (match n with O => match_here p' prev s | S _ => false end)
         || match s with
            | String c s' => class c && repeat (Nat.pred n) (Some c) s'
            | EmptyString => false
            end) n prev s
  end.

(** Whether the pattern matches somewhere in [s]. *)
Fixpoint search_from (p : list atom) (prev : option ascii) (s : string) : bool :=
  match_here p prev s
  || match s with
     | String c s' => search_from p (Some c) s'
     | EmptyString => false
     end.

(** [re.search(pattern, s)], as a truth value *)
Definition search (p : list atom) (s : string) : bool := search_from p None s.

Definition dash : atom := One (is_char "-").

(** [\b\d{3}-\d{2}-\d{4}\b] *)
Definition ssn_pattern : list atom :=
  [ Boundary; One is_digit; One is_digit; One is_digit; dash;
    One is_digit; One is_digit; dash;
    One is_digit; One is_digit; One is_digit; One is_digit; Boundary ].

(** [[A-Za-z0-9._%+-]], [[A-Za-z0-9.-]] and [[A-Z|a-z]] *)
Definition local_part (c : ascii) : bool :=
  is_letter c || is_digit c || is_char "." c || is_char "_" c
  || is_char "%" c || is_char "+" c || is_char "-" c.

Definition domain_part (c : ascii) : bool :=
  is_letter c || is_digit c || is_char "." c || is_char "-" c.

Definition top_level (c : ascii) : bool := is_letter c || is_char "|" c.

(** [\b[A-Za-z0-9._%+-]+@[A-Za-z0-9.-]+\.[A-Z|a-z]{2,}\b] *)
Definition email_pattern : list atom :=
  [ Boundary; AtLeast 1 local_part; One (is_char "@");
    AtLeast 1 domain_part; One (is_char "."); AtLeast 2 top_level; Boundary ].

(** *** validate_agent_response *)

Record validation_results := {
  valid : bool;
  errors : list string;
  warnings : list string
}.

Definition outlier_keywords : list string :=
  ["OUTLIER"; "FLAGGED"; "BUSINESS RULE"; "TRIGGERED RULES"; "INTERPRETABILITY"].

Definition required_sections : list string :=
  ["SUMMARY:"; "TRIGGERED RULES:"; "CONFIDENCE:"; "RECOMMENDATION:"].

Definition error_indicators : list string :=
  [ "error occurred"; "unable to retrieve"; "failed to process";
    "timeout"; "connection failed" ].

Definition pii_patterns : list (list atom) := [ssn_pattern; email_pattern].

Definition question_keywords : list string :=
  [ "claims"; "outlier"; "amount"; "procedure"; "diagnosis"; "state";
    "provider"; "flagged"; "analysis"; "distribution" ].

(** One turn of the loop over the error indicators. *)
Definition check_indicator (response_text : string)
  (results : validation_results) (indicator : string) : validation_results :=
  if contains (lower response_text) (lower indicator)
  then {| valid := false;
          errors := append (errors results)
                      ("Response indicates system error: " ++ indicator);
          warnings := warnings results |}
  else results.

(** One turn of the loop over the PII patterns. *)
Definition check_pattern (response_text : string)
  (results : validation_results) (pattern : list atom) : validation_results :=
  if search pattern response_text
  then {| valid := valid results;
          errors := errors results;
          warnings := append (warnings results)
                        "Potential PII detected in response" |}
  else results.

Definition warn (results : validation_results) (message : string)
  : validation_results :=
  {| valid := valid results;
     errors := errors results;
     warnings := append (warnings results) message |}.

Definition validate_agent_response (response_text : string)
  : validation_results :=
  let validation_results := {| valid := true; errors := []; warnings := [] |} in
  if String.eqb response_text EmptyString
     || (String.length (strip response_text) <? 5)%nat
  then {| valid := false;
          errors := append (errors validation_results)
                      "Response is empty or too short";
          warnings := warnings validation_results |}
  else
    let is_outlier_analysis :=
      existsb (fun keyword => contains (upper response_text) keyword)
              outlier_keywords in
    let validation_results :=
      if is_outlier_analysis
      then
        let missing_sections :=
          filter (fun section => negb (contains response_text section))
                 required_sections in
        match missing_sections with
        | [] => validation_results
        | _ => warn validation_results
                 ("Structured response missing sections: "
                  ++ repr_list missing_sections)
        end
      else validation_results in
    let validation_results :=
      fold_left (check_indicator response_text) error_indicators
                validation_results in
    let validation_results :=
      fold_left (check_pattern response_text) pii_patterns
                validation_results in
    let validation_results :=
      if (String.length (strip response_text) <? 20)%nat
      then warn validation_results "Response seems very short"
      else validation_results in
    let has_relevant_content :=
      existsb (fun keyword => contains (lower response_text) (lower keyword))
              question_keywords in
    if negb has_relevant_content
    then warn validation_results
           "Response may not be relevant to insurance claims analysis"
    else validation_results.

(** *** run_conversation, from the final response on

    What [run_conversation] returns once the events of the agent have
    given the final response text and the tool calls.  The text is the
    initial fallback, the message of the exception handler, or the [text]
    of the first part of the final event, which is a [str] or [None].  The
    messages are printed and not kept; building one of them can raise. *)

Record conversation (call : Type) := {
  response : option string;
  predicted_trajectory : list call;
  conversation_validation : validation_results
}.
Arguments response {call} c.
Arguments predicted_trajectory {call} c.
Arguments conversation_validation {call} c.

(** The text when the events give no final response, and the text when
    running the agent raises [e]. *)
Definition no_final_response : string := "Unable to retrieve final response.".

Definition conversation_error (e : string) : string :=
  "An error occurred during the conversation: " ++ e.

(** [validate_agent_response] on the final text: [not None] holds, so
    [None] leaves by the first return, before any method of [str] is
    called. *)
Definition validate_final_response (final_response_text : option string)
  : validation_results :=
  match final_response_text with
  | Some response_text => validate_agent_response response_text
  | None => {| valid := false;
               errors := ["Response is empty or too short"];
               warnings := [] |}
  end.

(** [final_response_text[:200]]: [None] has no slices. *)
Definition first_200 (final_response_text : option string) : result string :=
  match final_response_text with
  | Some response_text => Ok (substring 0 200 response_text)
  | None => Raise TypeError
  end.

Definition conclude {call : Type} (final_response_text : option string)
  (tool_calls : list call) : result (conversation call) :=
  let validation := validate_final_response final_response_text in
  final_response_text <-
    (if negb (valid validation)
     then
       original <- first_200 final_response_text ;;
       Ok (Some "Response validation failed. Please try again.")
     else Ok final_response_text) ;;
  Ok {| response := final_response_text;
        predicted_trajectory := tool_calls;
        conversation_validation := validation |}.

End RunAgent.

(** A structured answer that quotes a social security number. *)
Definition response_with_ssn : string :=
  "SUMMARY: 3 claims flagged for patient 123-45-6789".

(** *** Vocabulary of the response validation *)

(** The response is empty or has fewer than five characters once stripped. *)
Definition too_short (response_text : string) : bool :=
  String.eqb response_text EmptyString
  || (String.length (RunAgent.strip response_text) <? 5)%nat.

(** The indicator occurs in the response, whatever the case of letters. *)
Definition indicates (response_text indicator : string) : bool :=
  RunAgent.contains (RunAgent.lower response_text) (RunAgent.lower indicator).

Definition indicator_error (indicator : string) : string :=
  "Response indicates system error: " ++ indicator.

Definition pii_warning : string := "Potential PII detected in response".

(** The warning about the sections of a structured answer, if any. *)
Definition structure_warnings (response_text : string) : list string :=
  if existsb (fun keyword => RunAgent.contains (upper response_text) keyword)
             RunAgent.outlier_keywords
  then
    match filter (fun section => negb (RunAgent.contains response_text section))
                 RunAgent.required_sections with
    | [] => []
    | missing => [ "Structured response missing sections: "
                   ++ RunAgent.repr_list missing ]
    end
  else [].

(** The message that replaces a response that fails validation. *)
Definition validation_failed : string :=
  "Response validation failed. Please try again.".

(* ================================================================= *)
(** ** Properties *)

(** *** The model against Python: formatting, JSON, MD5 *)

Example format_fixed_one_place : format_fixed 1 (1000 # 9) = "111.1".
Proof. reflexivity. Qed.

Example format_fixed_two_places : format_fixed 2 (405 # 1) = "405.00".
Proof. reflexivity. Qed.

Example format_fixed_tie_to_even : format_fixed 2 (1 # 8) = "0.12".
Proof. reflexivity. Qed.

Example format_fixed_negative : format_fixed 1 (-7 # 4) = "-1.8".
Proof. reflexivity. Qed.

Example float_repr_cents : float_repr (12345 # 100) = "123.45".
Proof. reflexivity. Qed.

Example float_repr_whole : float_repr (500 # 1) = "500.0".
Proof. reflexivity. Qed.

(** [repr] gives the shortest text that reads back, with an exponent for
    the small and the large. *)
Example float_repr_shortest :
  float_repr (1 # 10) = "0.1"
  /\ float_repr (1 # 3) = "0.3333333333333333"
  /\ float_repr ((1 # 10) + (2 # 10)) = "0.3"
  /\ float_repr (Float64.nearest (Float64.nearest (1 # 10)
                                  + Float64.nearest (2 # 10)))
     = "0.30000000000000004"
  /\ float_repr (1 # 100000) = "1e-05"
  /\ float_repr (1 # 10000) = "0.0001"
  /\ float_repr (inject_Z (10 ^ 15)) = "1000000000000000.0"
  /\ float_repr (inject_Z (10 ^ 16)) = "1e+16"
  /\ float_repr (- (15 # 10000000)) = "-1.5e-06".
Proof. repeat split; vm_compute; reflexivity. Qed.

Example upper_lowercase_state : upper "ca" = "CA".
Proof. reflexivity. Qed.

(** [0.1] and [1/3] as floats. *)
Example nearest_tenth :
  (Float64.nearest (1 # 10) == 3602879701896397 # 36028797018963968)%Q.
Proof. vm_compute. reflexivity. Qed.

Example nearest_third :
  (Float64.nearest (1 # 3) == 6004799503160661 # 18014398509481984)%Q.
Proof. vm_compute. reflexivity. Qed.

(** The tie between [2^53] and [2^53 + 2] goes to the even significand. *)
Example nearest_tie_to_even :
  (Float64.nearest (inject_Z (2 ^ 53 + 1)) == inject_Z (2 ^ 53))%Q
  /\ (Float64.nearest (inject_Z (2 ^ 53 + 3)) == inject_Z (2 ^ 53 + 4))%Q.
Proof. split; vm_compute; reflexivity. Qed.

(** The least subnormal number, and half of it, which rounds to zero. *)
Example nearest_subnormal :
  (Float64.nearest (1 # Pos.pow 2 1074) == 1 # Pos.pow 2 1074)%Q
  /\ (Float64.nearest (1 # Pos.pow 2 1075) == 0)%Q.
Proof. split; vm_compute; reflexivity. Qed.

(** Overflow starts half a unit of the last place above the largest
    float, [2^1024 - 2^971]. *)
Example overflow_threshold :
  Float64.overflows (inject_Z (2 ^ 1024 - 2 ^ 970)) = true
  /\ Float64.overflows (inject_Z (2 ^ 1024 - 2 ^ 970 - 1)) = false
  /\ (Float64.nearest (inject_Z (2 ^ 1024 - 2 ^ 970 - 1))
      == inject_Z (2 ^ 1024 - 2 ^ 971))%Q.
Proof. repeat split; vm_compute; reflexivity. Qed.

(** [10 ** 400 / 450] and [(10 ** 400 - 150) / 45] raise. *)
Example true_divide_huge :
  true_divide (VNum (Int (10 ^ 400))) (inject_Z (10 ^ 400)) 450
  = Raise OverflowError
  /\ true_divide (VNum (Int (10 ^ 400)))
       (minus (VNum (Int (10 ^ 400))) (inject_Z (10 ^ 400)) 150) 45
     = Raise OverflowError.
Proof. split; vm_compute; reflexivity. Qed.

Example dumps_sorts_keys :
  Json.dumps consultation_500 true
  = String.concat Json.quote
      [ "{"; "claim_amount"; ": 500, "; "procedure_type"; ": ";
        "Virtual Consultation"; "}" ].
Proof. reflexivity. Qed.

Example md5_of_empty_string :
  MD5.hexdigest EmptyString = "d41d8cd98f00b204e9800998ecf8427e".
Proof. vm_compute. reflexivity. Qed.

Example md5_of_empty_object :
  MD5.hexdigest (Json.dumps [] true) = "99914b932bd37a50b983c5e7c90ae93b".
Proof. vm_compute. reflexivity. Qed.

(** Two blocks of input:
    [{"claim_amount": 500, "claim_id": "CLM_1", "patient_state": "CA",
      "procedure_type": "Virtual Consultation"}]. *)
Example md5_of_claim :
  MD5.hexdigest
    (Json.dumps [ ("procedure_type", VStr "Virtual Consultation");
                  ("claim_amount", VNum (Int 500));
                  ("claim_id", VStr "CLM_1");
                  ("patient_state", VStr "CA") ] true)
  = "a1e1da83cf7932c3d2b71c78ff1f6a04".
Proof. vm_compute. reflexivity. Qed.

(** *** The end-to-end scenarios of the specification *)

Example scenario_unusual_combo :
  let claim := [ ("procedure_type", VStr "Mental Health Session");
                 ("diagnosis", VStr "Common Cold");
                 ("claim_amount", VNum (Int 200));
                 ("patient_state", VStr "CA") ] in
  field (fun r => (map rule_id (rules_activated r),
                   map confidence (rules_activated r),
                   decision_pathway r, recommendations r))
        (generate_interpretability_report claim [])
  = Ok (["UNUSUAL_COMBO"], ["High"],
        ["Primary trigger: Unusual diagnosis-procedure combination"],
        ["Review medical necessity of procedure-diagnosis combination"]).
Proof. reflexivity. Qed.

Example scenario_geographic :
  let claim := [ ("procedure_type", VStr "Virtual Consultation");
                 ("claim_amount", VNum (Int 100));
                 ("patient_state", VStr "WY") ] in
  field (map rule_id) (evaluate_business_rules claim)
  = Ok ["GEOGRAPHIC_RESTRICTION"].
Proof. reflexivity. Qed.

(** The float amount 602.7 for a Mental Health Session: the quotient by
    600 and its product by 100 are rounded, and the evidence reads 100.5,
    where the decimal 100.45 would be printed as 100.4. *)
Example scenario_float_amount :
  evaluate_business_rules
    [ ("procedure_type", VStr "Mental Health Session");
      ("claim_amount", VNum (float_literal (6027 # 10))) ]
  = Ok [ {| rule_id := "HIGH_AMOUNT";
            description := "Claim amount $602.7 exceeds $600 threshold";
            confidence := "Medium";
            evidence := "100.5% above expected maximum" |} ]
  /\ format_fixed 1 (10045 # 100) = "100.4".
Proof. split; vm_compute; reflexivity. Qed.

(** An int amount whose quotient by the threshold is a float, and whose
    percentage is beyond the floats: the product is infinite. *)
Example scenario_infinite_percentage :
  field (map evidence)
    (evaluate_business_rules
       [ ("procedure_type", VStr "Virtual Consultation");
         ("claim_amount", VNum (Int (5 * 10 ^ 310))) ])
  = Ok ["inf% above expected maximum"].
Proof. vm_compute. reflexivity. Qed.

(** The int amount [10 ** 400]: the validator reports it, the
    counterfactual generator answers, the feature analysis, the rule engine
    and the report raise. *)
Example scenario_huge_amount :
  field valid (validate_claim_data consultation_huge) = Ok false
  /\ returns (generate_counterfactuals consultation_huge) = true
  /\ field procedure_analysis (analyze_claim_features consultation_huge)
     = Raise OverflowError
  /\ evaluate_business_rules consultation_huge = Raise OverflowError
  /\ field claim_id (generate_interpretability_report consultation_huge [])
     = Raise OverflowError.
Proof. repeat split; vm_compute; reflexivity. Qed.

(** An empty frame that has the columns: no group, a NaN least rate, an
    infinite ratio, and both alerts. *)
Example empty_frame_alerts :
  generate_disparity_alerts
    (check_demographic_fairness
       {| Pandas.is_outlier := Some [];
          Pandas.patient_state := Some [];
          Pandas.provider_name := Some [] |})
  = [ "HIGH DISPARITY: State outlier rates vary by infx";
      "HIGH DISPARITY: Provider outlier rates vary by infx" ].
Proof. reflexivity. Qed.

(** *** Arithmetic helpers *)

Lemma Qlt_bool_iff (x y : Q) : Qlt_bool x y = true <-> (x < y)%Q.
Proof.
  unfold Qlt_bool. rewrite negb_true_iff. split.
  - intros H. apply Qnot_le_lt. intros Hle.
    apply Qle_bool_iff in Hle. congruence.
  - intros H. destruct (Qle_bool y x) eqn:E; [|reflexivity].
    apply Qle_bool_iff in E. exfalso. exact (Qlt_not_le _ _ H E).
Qed.

Lemma Qlt_bool_false_iff (x y : Q) : Qlt_bool x y = false <-> (y <= x)%Q.
Proof.
  unfold Qlt_bool. rewrite negb_false_iff. apply Qle_bool_iff.
Qed.

(** A fraction of naturals [h / t] with [h <= t] and [0 < t]. *)
Lemma fraction_bounds (h n : nat) :
  (h <= S n)%nat ->
  (0 <= Q_of_nat h / Q_of_nat (S n) <= 1)%Q
  /\ ((Q_of_nat h / Q_of_nat (S n) == 0)%Q <-> h = O).
Proof.
  intros Hle. unfold Q_of_nat, Qdiv, Qmult, Qinv, Qle, Qeq, inject_Z.
  cbn [Qnum Qden Z.of_nat]. repeat split; try lia.
Qed.

Lemma filter_nil_iff {A : Type} (f : A -> bool) (l : list A) :
  List.length (filter f l) = O <-> Forall (fun x => f x = false) l.
Proof.
  induction l as [|x l IH]; cbn.
  - split; [constructor | reflexivity].
  - destruct (f x) eqn:E; cbn.
    + split; [discriminate|]. intros H. inversion H; congruence.
    + rewrite IH. split; [now constructor | now inversion 1].
Qed.

(** *** binary64 rounding *)

Lemma round_half_even_ge n d K : 0 < d -> K * d <= n -> K <= round_half_even n d.
Proof.
  intros Hd H. unfold round_half_even.
  assert (K <= n / d) by (apply Z.div_le_lower_bound; lia).
  destruct (2 * (n mod d) ?= d); [destruct (Z.even (n / d)) | |]; lia.
Qed.

Lemma round_half_even_le n d K : 0 < d -> n <= K * d -> round_half_even n d <= K.
Proof.
  intros Hd H. unfold round_half_even.
  assert (Hf : n / d <= K) by (apply Z.div_le_upper_bound; lia).
  destruct (Z.eq_dec (n / d) K) as [E | E].
  - assert (Hr : n mod d = 0).
    { pose proof (Z.div_mod n d ltac:(lia)) as Hm.
      pose proof (Z.mod_pos_bound n d Hd). rewrite E in Hm. nia. }
    rewrite Hr.
    assert (Hc : (2 * 0 ?= d) = Lt) by (apply Z.compare_lt_iff; lia).
    rewrite Hc. lia.
  - destruct (2 * (n mod d) ?= d); [destruct (Z.even (n / d)) | |]; lia.
Qed.

Lemma round_half_even_ge_half n d K :
  0 < d -> Z.even K = true -> (2 * K - 1) * d <= 2 * n ->
  K <= round_half_even n d.
Proof.
  intros Hd Heven H. unfold round_half_even.
  pose proof (Z.div_mod n d ltac:(lia)) as Hm.
  pose proof (Z.mod_pos_bound n d Hd) as Hr.
  assert (Hf : K - 1 <= n / d) by nia.
  destruct (Z.eq_dec (n / d) (K - 1)) as [E | E].
  - rewrite E in *.
    assert (Hodd : Z.even (K - 1) = false).
    { rewrite Z.even_sub, Heven. reflexivity. }
    rewrite Hodd.
    destruct (2 * (n mod d) ?= d) eqn:C; [lia | | lia].
    rewrite Z.compare_lt_iff in C. exfalso.
    assert (H2 : 2 * n = 2 * (d * (K - 1)) + 2 * (n mod d)) by lia.
    assert (H3 : (2 * K - 1) * d = 2 * (d * (K - 1)) + d) by ring.
    lia.
  - destruct (2 * (n mod d) ?= d); [destruct (Z.even (n / d)) | |]; lia.
Qed.

Lemma round_half_even_le_half n d K :
  0 < d -> 2 * n < (2 * K + 1) * d -> round_half_even n d <= K.
Proof.
  intros Hd H. unfold round_half_even.
  pose proof (Z.div_mod n d ltac:(lia)) as Hm.
  pose proof (Z.mod_pos_bound n d Hd) as Hr.
  assert (Hf : n / d <= K) by nia.
  destruct (Z.eq_dec (n / d) K) as [E | E].
  - rewrite E in *.
    assert (C : (2 * (n mod d) ?= d) = Lt) by (apply Z.compare_lt_iff; nia).
    rewrite C. lia.
  - destruct (2 * (n mod d) ?= d); [destruct (Z.even (n / d)) | |]; lia.
Qed.

Module Float64Facts.
Import Float64.

Lemma shift_nonneg z k : 0 <= k -> shift z k = z * 2 ^ k.
Proof. intros. unfold shift. rewrite Z.max_l by lia. reflexivity. Qed.

Lemma shift_neg z k : k <= 0 -> shift z k = z.
Proof. intros. unfold shift. rewrite Z.max_r by lia. simpl. lia. Qed.

Lemma exponent_le n d : exponent n d <= Z.log2 n - Z.log2 d.
Proof. unfold exponent. destruct (_ <? _); lia. Qed.

(** [2^e <= n / d] for the exponent [e], when it is not negative. *)
Lemma exponent_low n d :
  0 < n -> 0 < d -> 0 <= exponent n d -> d * 2 ^ exponent n d <= n.
Proof.
  intros Hn Hd. unfold exponent.
  set (e0 := Z.log2 n - Z.log2 d).
  destruct (shift n (- e0) <? shift d e0) eqn:E; intros He.
  - pose proof (Z.log2_spec n Hn) as [Hl _].
    pose proof (Z.log2_spec d Hd) as [_ Hu].
    pose proof (Z.log2_nonneg d).
    assert (Hp : 2 ^ Z.log2 n = 2 ^ (e0 - 1) * 2 ^ Z.succ (Z.log2 d)).
    { rewrite <- Z.pow_add_r by lia. f_equal. lia. }
    assert (0 < 2 ^ (e0 - 1)) by (apply Z.pow_pos_nonneg; lia).
    nia.
  - apply Z.ltb_ge in E. rewrite (shift_neg n) in E by lia.
    rewrite (shift_nonneg d) in E by lia. exact E.
Qed.

Lemma exponent_nonneg n d : 0 < d -> d <= n -> 0 <= exponent n d.
Proof.
  intros Hd H. unfold exponent.
  pose proof (Z.log2_le_mono d n H).
  set (e0 := Z.log2 n - Z.log2 d) in *.
  destruct (shift n (- e0) <? shift d e0) eqn:E; [| lia].
  apply Z.ltb_lt in E.
  destruct (Z.eq_dec e0 0) as [E0 | E0]; [| lia].
  rewrite E0 in E. unfold shift in E. simpl in E. lia.
Qed.

Lemma scaled_nonneg m q : 0 <= m -> (0 <= scaled m q)%Q.
Proof.
  intros. unfold scaled. destruct (0 <=? q) eqn:E.
  - apply Z.leb_le in E. unfold Qle. simpl.
    assert (0 < 2 ^ q) by (apply Z.pow_pos_nonneg; lia). nia.
  - unfold Qle. simpl. lia.
Qed.

Lemma nearest_positive_nonneg n d : 0 <= n -> 0 < d -> (0 <= nearest_positive n d)%Q.
Proof.
  intros Hn Hd. apply scaled_nonneg. unfold significand.
  apply round_half_even_ge.
  - unfold shift. assert (0 < 2 ^ Z.max (last_place n d) 0) by (apply Z.pow_pos_nonneg; lia). nia.
  - unfold shift. assert (0 < 2 ^ Z.max (- last_place n d) 0) by (apply Z.pow_pos_nonneg; lia). nia.
Qed.

(** Rounding does not cross a power of two from below. *)
Lemma nearest_positive_le_pow2 n d k :
  0 < n -> 0 < d -> 0 <= k -> n <= 2 ^ k * d ->
  (nearest_positive n d <= inject_Z (2 ^ k))%Q.
Proof.
  intros Hn Hd Hk H.
  assert (He : exponent n d <= k).
  { pose proof (exponent_le n d).
    assert (Z.log2 n <= Z.log2 (2 ^ k * d)) by (apply Z.log2_le_mono; exact H).
    rewrite Z.mul_comm, Z.log2_mul_pow2 in H1 by lia. lia. }
  unfold nearest_positive, significand.
  set (q := last_place n d).
  assert (Hq : q <= k - 52) by (unfold q, last_place; lia).
  unfold scaled. destruct (0 <=? q) eqn:E.
  - apply Z.leb_le in E. rewrite (shift_neg n), (shift_nonneg d) by lia.
    assert (Hm : round_half_even n (d * 2 ^ q) <= 2 ^ (k - q)).
    { assert (0 < 2 ^ q) by (apply Z.pow_pos_nonneg; lia).
      apply round_half_even_le; [nia |].
      replace (2 ^ (k - q) * (d * 2 ^ q)) with (2 ^ k * d); [exact H |].
      replace k with ((k - q) + q) at 1 by lia.
      rewrite Z.pow_add_r by lia. ring. }
    rewrite <- Zle_Qle.
    replace (2 ^ k) with (2 ^ (k - q) * 2 ^ q)
      by (rewrite <- Z.pow_add_r by lia; f_equal; lia).
    apply Z.mul_le_mono_nonneg_r; [apply Z.pow_nonneg; lia | exact Hm].
  - apply Z.leb_gt in E. rewrite (shift_nonneg n), (shift_neg d) by lia.
    assert (0 < 2 ^ (- q)) by (apply Z.pow_pos_nonneg; lia).
    assert (Hm : round_half_even (n * 2 ^ (- q)) d <= 2 ^ (k - q)).
    { apply round_half_even_le; [lia |].
      replace (k - q) with (k + - q) by lia. rewrite Z.pow_add_r by lia. nia. }
    unfold Qle. simpl. rewrite Z2Pos.id by lia.
    replace (k - q) with (k + - q) in Hm by lia. rewrite Z.pow_add_r in Hm by lia. lia.
Qed.

(** Rounding does not cross one from above. *)
Lemma nearest_positive_ge_one n d :
  0 < d -> d <= n -> (1 <= nearest_positive n d)%Q.
Proof.
  intros Hd H.
  pose proof (exponent_nonneg n d Hd H) as He.
  pose proof (exponent_low n d ltac:(lia) Hd He) as Hl.
  unfold nearest_positive, significand.
  set (q := last_place n d).
  assert (Hq : q = exponent n d - 52) by (unfold q, last_place; lia).
  unfold scaled. destruct (0 <=? q) eqn:E.
  - apply Z.leb_le in E. rewrite (shift_neg n), (shift_nonneg d) by lia.
    assert (0 < 2 ^ q) by (apply Z.pow_pos_nonneg; lia).
    assert (Hm : 1 <= round_half_even n (d * 2 ^ q)).
    { apply round_half_even_ge; [nia |].
      assert (2 ^ q <= 2 ^ exponent n d) by (apply Z.pow_le_mono_r; lia). nia. }
    replace 1%Q with (inject_Z 1) by reflexivity. rewrite <- Zle_Qle. nia.
  - apply Z.leb_gt in E. rewrite (shift_nonneg n), (shift_neg d) by lia.
    assert (0 < 2 ^ (- q)) by (apply Z.pow_pos_nonneg; lia).
    assert (Hm : 2 ^ (- q) <= round_half_even (n * 2 ^ (- q)) d).
    { apply round_half_even_ge; [lia | nia]. }
    unfold Qle. simpl. rewrite Z2Pos.id by lia. lia.
Qed.

Lemma nearest_eq x y : (x == y)%Q -> nearest x = nearest y.
Proof. intros H. unfold nearest. rewrite (Qred_complete x y H). reflexivity. Qed.

Lemma nearest_cases x :
  (x == 0 /\ nearest x = 0)%Q \/
  ((0 < x)%Q /\ exists n d : Z, 0 < n /\ 0 < d /\
     (x == n # Z.to_pos d)%Q /\ nearest x = nearest_positive n d) \/
  ((x < 0)%Q /\ exists n d : Z, 0 < n /\ 0 < d /\
     (- x == n # Z.to_pos d)%Q /\ nearest x = (- nearest_positive n d)%Q).
Proof.
  pose proof (Qred_correct x) as Hx. unfold nearest.
  destruct (Qred x) as [n d] eqn:E. cbn [Qnum Qden].
  destruct n as [| p | p].
  - left. split; [| reflexivity]. rewrite <- Hx. reflexivity.
  - right. left. split; [rewrite <- Hx; reflexivity |].
    exists (Z.pos p), (Z.pos d). repeat split; try lia.
    rewrite <- Hx. reflexivity.
  - right. right. split; [rewrite <- Hx; reflexivity |].
    exists (Z.pos p), (Z.pos d). repeat split; try lia.
    rewrite <- Hx. reflexivity.
Qed.

Lemma nearest_nonneg x : (0 <= x -> 0 <= nearest x)%Q.
Proof.
  intros H. destruct (nearest_cases x) as [[_ ->] | [[_ (n & d & Hn & Hd & _ & ->)] | [Hneg _]]].
  - apply Qle_refl.
  - apply nearest_positive_nonneg; lia.
  - exfalso. apply (Qlt_irrefl 0). eapply Qle_lt_trans; eassumption.
Qed.

Lemma nearest_nonpos x : (x <= 0 -> nearest x <= 0)%Q.
Proof.
  intros H. destruct (nearest_cases x) as [[_ ->] | [[Hpos _] | [_ (n & d & Hn & Hd & _ & ->)]]].
  - apply Qle_refl.
  - exfalso. apply (Qlt_irrefl 0). eapply Qlt_le_trans; eassumption.
  - pose proof (nearest_positive_nonneg n d ltac:(lia) Hd). lra.
Qed.

Lemma nearest_ge_one x : (1 <= x -> 1 <= nearest x)%Q.
Proof.
  intros H. destruct (nearest_cases x) as [[E _] | [[_ (n & d & Hn & Hd & E & ->)] | [Hneg _]]].
  - lra.
  - apply nearest_positive_ge_one; [exact Hd |].
    rewrite E in H. unfold Qle in H. simpl in H. rewrite Z2Pos.id in H by lia. lia.
  - lra.
Qed.

Lemma nearest_abs_le_pow2 x k :
  0 <= k -> (Qabs x <= inject_Z (2 ^ k) -> Qabs (nearest x) <= inject_Z (2 ^ k))%Q.
Proof.
  intros Hk H.
  assert (Hp : (0 <= inject_Z (2 ^ k))%Q).
  { replace 0%Q with (inject_Z 0) by reflexivity. rewrite <- Zle_Qle. apply Z.pow_nonneg. lia. }
  destruct (nearest_cases x) as [[_ ->] | [[Hpos (n & d & Hn & Hd & E & ->)] | [Hneg (n & d & Hn & Hd & E & ->)]]].
  - exact Hp.
  - rewrite Qabs_pos by (apply nearest_positive_nonneg; lia).
    apply nearest_positive_le_pow2; try assumption.
    rewrite Qabs_pos in H by lra. rewrite E in H.
    unfold Qle in H. simpl in H. rewrite Z2Pos.id in H by lia. lia.
  - rewrite Qabs_opp. rewrite Qabs_pos by (apply nearest_positive_nonneg; lia).
    apply nearest_positive_le_pow2; try assumption.
    rewrite Qabs_neg in H by lra. rewrite E in H.
    unfold Qle in H. simpl in H. rewrite Z2Pos.id in H by lia. lia.
Qed.

Lemma nearest_le_one x : (x <= 1 -> nearest x <= 1)%Q.
Proof.
  intros H. destruct (Qlt_le_dec x 0) as [Hn | Hp].
  - pose proof (nearest_nonpos x ltac:(lra)). lra.
  - pose proof (nearest_abs_le_pow2 x 0 ltac:(lia)) as Hb.
    rewrite Qabs_pos in Hb by exact Hp.
    rewrite Qabs_pos in Hb by (apply nearest_nonneg; exact Hp).
    apply Hb. exact H.
Qed.

(** Nothing up to [2^1023] in size overflows. *)
Lemma overflows_bounded x :
  (Qabs x <= inject_Z (2 ^ 1023))%Q -> overflows x = false.
Proof.
  intros H. pose proof (nearest_abs_le_pow2 x 1023 ltac:(lia) H) as Hb.
  unfold overflows. destruct (Qle_bool huge (Qabs (nearest x))) eqn:E; [| reflexivity].
  apply Qle_bool_iff in E. exfalso.
  assert (Hlt : (inject_Z (2 ^ 1023) < huge)%Q).
  { unfold huge. rewrite <- Zlt_Qlt. apply Z.pow_lt_mono_r; lia. }
  apply (Qlt_irrefl huge). eapply Qle_lt_trans; [exact E |].
  eapply Qle_lt_trans; [exact Hb | exact Hlt].
Qed.

Lemma exponent_ge n d k :
  0 < d -> 0 <= k -> 2 ^ k * d <= n -> k <= exponent n d.
Proof.
  intros Hd Hk H. unfold exponent.
  assert (Hlog : k + Z.log2 d <= Z.log2 n).
  { assert (H1 : Z.log2 (2 ^ k * d) <= Z.log2 n) by (apply Z.log2_le_mono; exact H).
    rewrite Z.mul_comm, Z.log2_mul_pow2 in H1 by lia. lia. }
  set (e0 := Z.log2 n - Z.log2 d) in *.
  destruct (shift n (- e0) <? shift d e0) eqn:E; [| lia].
  apply Z.ltb_lt in E.
  rewrite (shift_neg n), (shift_nonneg d) in E by lia.
  destruct (Z.eq_dec e0 k) as [-> | Hne]; [lia | lia].
Qed.

(** Rounding does not cross a power of two from above. *)
Lemma nearest_positive_ge_pow2 n d k :
  0 < d -> 0 <= k -> 2 ^ k * d <= n ->
  (inject_Z (2 ^ k) <= nearest_positive n d)%Q.
Proof.
  intros Hd Hk H.
  assert (H2k : 0 < 2 ^ k) by (apply Z.pow_pos_nonneg; lia).
  assert (Hn : 0 < n) by nia.
  pose proof (exponent_ge n d k Hd Hk H) as He.
  pose proof (exponent_low n d Hn Hd ltac:(lia)) as Hl.
  unfold nearest_positive, significand.
  set (q := last_place n d).
  assert (Hq : q = exponent n d - 52) by (unfold q, last_place; lia).
  unfold scaled. destruct (0 <=? q) eqn:E.
  - apply Z.leb_le in E. rewrite (shift_neg n), (shift_nonneg d) by lia.
    assert (H2q : 0 < 2 ^ q) by (apply Z.pow_pos_nonneg; lia).
    rewrite <- Zle_Qle.
    destruct (Z_le_gt_dec q k) as [Hqk | Hqk].
    + assert (Hm : 2 ^ (k - q) <= round_half_even n (d * 2 ^ q)).
      { apply round_half_even_ge; [nia |].
        replace (2 ^ (k - q) * (d * 2 ^ q)) with (2 ^ k * d); [exact H |].
        replace k with ((k - q) + q) at 1 by lia.
        rewrite Z.pow_add_r by lia. ring. }
      replace (2 ^ k) with (2 ^ (k - q) * 2 ^ q)
        by (rewrite <- Z.pow_add_r by lia; f_equal; lia).
      apply Z.mul_le_mono_nonneg_r; [lia | exact Hm].
    + assert (Hm : 1 <= round_half_even n (d * 2 ^ q)).
      { apply round_half_even_ge; [nia |].
        assert (2 ^ q <= 2 ^ exponent n d) by (apply Z.pow_le_mono_r; lia). nia. }
      assert (2 ^ k <= 2 ^ q) by (apply Z.pow_le_mono_r; lia). nia.
  - apply Z.leb_gt in E. rewrite (shift_nonneg n), (shift_neg d) by lia.
    assert (0 < 2 ^ (- q)) by (apply Z.pow_pos_nonneg; lia).
    assert (Hm : 2 ^ (k - q) <= round_half_even (n * 2 ^ (- q)) d).
    { apply round_half_even_ge; [lia |].
      replace (k - q) with (k + - q) by lia. rewrite Z.pow_add_r by lia. nia. }
    unfold Qle. simpl. rewrite Z2Pos.id by lia.
    replace (k - q) with (k + - q) in Hm by lia. rewrite Z.pow_add_r in Hm by lia. lia.
Qed.

(** The exponent of a number of the last binade is 1023. *)
Lemma exponent_last n d :
  0 < d -> 2 ^ 1023 * d <= n -> n < 2 ^ 1024 * d -> exponent n d = 1023.
Proof.
  intros Hd Hlo Hhi.
  pose proof (exponent_ge n d 1023 Hd ltac:(lia) Hlo) as He.
  assert (Hn : 0 < n) by lia.
  pose proof (exponent_low n d Hn Hd ltac:(lia)) as Hl.
  destruct (Z_le_gt_dec (exponent n d) 1023) as [H | H]; [lia |].
  exfalso.
  assert (2 ^ 1024 <= 2 ^ exponent n d) by (apply Z.pow_le_mono_r; lia).
  nia.
Qed.

Lemma nearest_positive_overflow n d :
  0 < n -> 0 < d ->
  (inject_Z (2 ^ 1024) <= nearest_positive n d)%Q <-> threshold * d <= n.
Proof.
  intros Hn Hd. unfold threshold. split.
  - intros Hbig.
    destruct (Z_le_gt_dec ((2 ^ 1024 - 2 ^ 970) * d) n) as [H | H]; [exact H |].
    exfalso.
    destruct (Z_le_gt_dec n (2 ^ 1023 * d)) as [Hsmall | Hlarge].
    + pose proof (nearest_positive_le_pow2 n d 1023 Hn Hd ltac:(lia) Hsmall) as Hle.
      assert (Hlt : (inject_Z (2 ^ 1023) < inject_Z (2 ^ 1024))%Q)
        by (rewrite <- Zlt_Qlt; apply Z.pow_lt_mono_r; lia).
      apply (Qlt_irrefl (inject_Z (2 ^ 1024))).
      eapply Qle_lt_trans; [exact Hbig |].
      eapply Qle_lt_trans; [exact Hle | exact Hlt].
    + assert (Hhi : n < 2 ^ 1024 * d).
      { assert (0 < 2 ^ 970) by (apply Z.pow_pos_nonneg; lia). nia. }
      pose proof (exponent_last n d Hd ltac:(lia) Hhi) as He.
      revert Hbig. unfold nearest_positive, significand, last_place.
      rewrite He. change (Z.max 1023 (-1022) - 52) with 971.
      unfold scaled. change (0 <=? 971) with true. cbv iota.
      rewrite (shift_neg n), (shift_nonneg d) by lia.
      rewrite <- Zle_Qle. intros Hbig.
      assert (Hm : round_half_even n (d * 2 ^ 971) <= 2 ^ 53 - 1).
      { apply round_half_even_le_half.
        - assert (0 < 2 ^ 971) by (apply Z.pow_pos_nonneg; lia). nia.
        - replace ((2 * (2 ^ 53 - 1) + 1) * (d * 2 ^ 971))
            with (2 * ((2 ^ 1024 - 2 ^ 970) * d)); [lia |].
          replace (2 ^ 1024) with (2 ^ 53 * 2 ^ 971) by reflexivity.
          replace (2 ^ 971) with (2 * 2 ^ 970) by reflexivity. ring. }
      replace (2 ^ 1024) with (2 ^ 53 * 2 ^ 971) in Hbig by reflexivity.
      assert (0 < 2 ^ 971) by (apply Z.pow_pos_nonneg; lia). nia.
  - intros H.
    destruct (Z_le_gt_dec (2 ^ 1024 * d) n) as [Hbig | Hlast].
    + apply nearest_positive_ge_pow2; [exact Hd | lia | exact Hbig].
    + assert (Hlo : 2 ^ 1023 * d <= n).
      { assert (2 ^ 1023 <= 2 ^ 1024 - 2 ^ 970) by (vm_compute; discriminate). nia. }
      pose proof (exponent_last n d Hd Hlo ltac:(lia)) as He.
      unfold nearest_positive, significand, last_place.
      rewrite He. change (Z.max 1023 (-1022) - 52) with 971.
      unfold scaled. change (0 <=? 971) with true. cbv iota.
      rewrite (shift_neg n), (shift_nonneg d) by lia.
      rewrite <- Zle_Qle.
      assert (Hm : 2 ^ 53 <= round_half_even n (d * 2 ^ 971)).
      { apply round_half_even_ge_half.
        - assert (0 < 2 ^ 971) by (apply Z.pow_pos_nonneg; lia). nia.
        - reflexivity.
        - replace ((2 * 2 ^ 53 - 1) * (d * 2 ^ 971))
            with (2 * ((2 ^ 1024 - 2 ^ 970) * d)); [lia |].
          replace (2 ^ 1024) with (2 ^ 53 * 2 ^ 971) by reflexivity.
          replace (2 ^ 971) with (2 * 2 ^ 970) by reflexivity. ring. }
      replace (2 ^ 1024) with (2 ^ 53 * 2 ^ 971) by reflexivity.
      assert (0 < 2 ^ 971) by (apply Z.pow_pos_nonneg; lia). nia.
Qed.

(** A result overflows exactly from half a unit of the last place above
    the largest float. *)
Lemma overflows_iff (x : Q) :
  overflows x = true <-> (inject_Z threshold <= Qabs x)%Q.
Proof.
  unfold overflows, huge. rewrite Qle_bool_iff.
  assert (Hpos : (0 < inject_Z threshold)%Q) by (vm_compute; reflexivity).
  assert (Hhuge : (0 < inject_Z (2 ^ 1024))%Q) by (vm_compute; reflexivity).
  destruct (nearest_cases x)
    as [[E ->] | [[Hx (n & d & Hn & Hd & E & ->)] | [Hx (n & d & Hn & Hd & E & ->)]]].
  - rewrite E. split; intros H; exfalso.
    + apply (Qlt_irrefl 0). eapply Qlt_le_trans; [exact Hhuge | exact H].
    + apply (Qlt_irrefl 0). eapply Qlt_le_trans; [exact Hpos | exact H].
  - rewrite Qabs_pos by (apply nearest_positive_nonneg; lia).
    rewrite (Qabs_pos x) by lra.
    rewrite (nearest_positive_overflow n d Hn Hd), E.
    unfold Qle, inject_Z. cbn [Qnum Qden]. rewrite Z2Pos.id by lia. lia.
  - rewrite Qabs_opp, Qabs_pos by (apply nearest_positive_nonneg; lia).
    rewrite (Qabs_neg x) by lra.
    rewrite (nearest_positive_overflow n d Hn Hd), E.
    unfold Qle, inject_Z. cbn [Qnum Qden]. rewrite Z2Pos.id by lia. lia.
Qed.

End Float64Facts.

(** Overflow, as the size of the exact result. *)
Lemma overflows_beyond (x : Q) : Float64.overflows x = beyond_floats x.
Proof.
  unfold beyond_floats.
  destruct (Float64.overflows x) eqn:E.
  - symmetry. apply Qle_bool_iff, Float64Facts.overflows_iff, E.
  - destruct (Qle_bool _ _) eqn:E'; [|reflexivity].
    apply Qle_bool_iff, Float64Facts.overflows_iff in E'. congruence.
Qed.

(** *** Confidence assessment *)

(** C1, as amended: for every list of rule activations the confidence
    score lies in [0,1], and it is 0 exactly when no activation of the list
    has confidence High, which includes the empty list. *)
Theorem assess_confidence_score_range (acts : list activation) :
  let s := Q_of_number (score (assess_confidence acts)) in
  (0 <= s <= 1)%Q
  /\ ((s == 0)%Q <-> Forall (fun rule => confidence rule <> "High") acts).
Proof.
  cbv zeta. unfold assess_confidence.
  destruct acts as [|act acts].
  - cbn. split; [split; discriminate|]. split; [constructor | reflexivity].
  - set (l := act :: acts).
    change (List.length l) with (S (List.length acts)).
    cbn [Nat.eqb score Q_of_number].
    destruct (fraction_bounds
                (List.length (filter (fun r => (confidence r =? "High")%string) l))
                (List.length acts)) as [Hb Hz].
    { change (S (List.length acts)) with (List.length l).
      apply filter_length_le. }
    split; [exact Hb|]. rewrite Hz, filter_nil_iff.
    split; intros H; eapply Forall_impl; try exact H; cbv beta; intros r.
    + intros E. now apply String.eqb_neq.
    + intros E. now apply String.eqb_neq.
Qed.

(** C1, counterexample: the claim [consultation_500] activates one rule,
    HIGH_AMOUNT with confidence Medium, and its score is 0 although the
    list of activations is not empty. *)
Lemma assess_confidence_zero_nonempty :
  evaluate_business_rules consultation_500 = Ok [high_amount_500]
  /\ ~ ((Q_of_number (score (assess_confidence [high_amount_500])) == 0)%Q
        <-> [high_amount_500] = []).
Proof.
  split; [reflexivity|].
  intros [H _]. assert (E : [high_amount_500] = []) by (apply H; reflexivity).
  discriminate E.
Qed.

(** *** HIGH_AMOUNT evidence *)

(** C2, the code at [consultation_500]: the amount 500 is 11.1% above the
    threshold 450, and the evidence of the activation reads 111.1%, the
    amount as a percentage of the threshold. *)
Theorem high_amount_evidence_is_percent_of_threshold :
  (exists act,
      evaluate_business_rules consultation_500 = Ok [act]
      /\ rule_id act = "HIGH_AMOUNT"
      /\ evidence act = "111.1% above expected maximum")
  /\ evidence_percent_above 500 450 = "11.1% above expected maximum".
Proof.
  split; [|reflexivity].
  exists high_amount_500. repeat split.
Qed.

(** *** Rule engine *)

Create HintDb rules.
#[local] Hint Constructors subsequence NoDup Forall : rules.

Ltac distinct_strings :=
  repeat match goal with
         | |- NoDup _ => constructor
         | |- ~ In _ _ => cbn; intuition discriminate
         end.

Lemma assoc_None_iff {A : Type} (k : value) (table : list (string * A)) :
  assoc k table = None <-> in_strs k (map fst table) = false.
Proof.
  induction table as [|[k' x] table IH]; cbn; [tauto|].
  destruct (eq_str k k'); cbn; [split; discriminate | exact IH].
Qed.

(** The thresholds of the rule engine are the [max_normal] of the norms
    of the feature analysis. *)
Lemma procedure_norms_max_normal :
  map (fun entry => (fst entry, max_normal (snd entry))) feature_procedure_norms
  = procedure_norms.
Proof. reflexivity. Qed.

Lemma as_number_raise (v : value) (e : exn) :
  as_number v = Raise e -> e = TypeError.
Proof. destruct v; cbn; congruence. Qed.

Lemma evaluate_business_rules_raise (claim_data : dict) (e : exn) :
  as_number (amount_of claim_data) = Raise e ->
  evaluate_business_rules claim_data = Raise e.
Proof.
  intros Ha. unfold evaluate_business_rules.
  fold (amount_of claim_data). now rewrite Ha.
Qed.

(** The percentage of the evidence, for an amount above the threshold:
    the division raises exactly on an overflow. *)
Lemma percent_of_norms (claim_data : dict) (a : Q) :
  let threshold := norms_get (get claim_data "procedure_type") in
  exceeds a threshold = true ->
  percent_of (amount_of claim_data) a threshold
  = if engine_overflows claim_data a then Raise OverflowError
    else Ok (percent a threshold).
Proof.
  cbv zeta. unfold engine_overflows, norms_get.
  destruct (assoc (get claim_data "procedure_type") procedure_norms) as [t|];
    [|discriminate].
  cbn [exceeds Q_of_number percent_of percent]. intros ->. cbn [andb].
  unfold true_divide. rewrite overflows_beyond.
  destruct (negb (is_float (amount_of claim_data))
            && beyond_floats (a / inject_Z t)); reflexivity.
Qed.

(** An amount that is not above the threshold is not divided. *)
Lemma engine_overflows_exceeds (claim_data : dict) (a : Q) :
  exceeds a (norms_get (get claim_data "procedure_type")) = false ->
  engine_overflows claim_data a = false.
Proof.
  unfold engine_overflows, norms_get.
  destruct (assoc (get claim_data "procedure_type") procedure_norms) as [t|];
    [|reflexivity].
  cbn [exceeds Q_of_number]. now intros ->.
Qed.

(** The answer of the rule engine: the activations of the three rules, each
    on its own condition, in the order of evaluation. *)
Lemma evaluate_business_rules_parts (claim_data : dict) (a : Q) :
  as_number (amount_of claim_data) = Ok a ->
  engine_overflows claim_data a = false ->
  let procedure := get claim_data "procedure_type" in
  let diagnosis := get claim_data "diagnosis" in
  let threshold := norms_get procedure in
  evaluate_business_rules claim_data
  = Ok (only_if (is_unusual_combo procedure diagnosis)
                (unusual_combo_record procedure diagnosis)
        ++ only_if (exceeds a threshold)
                   (high_amount_record (amount_of claim_data) a threshold)
        ++ only_if (geographic_condition claim_data)
                   (geographic_record (get claim_data "patient_state")))%list.
Proof.
  intros Ha Hov. cbv zeta. unfold evaluate_business_rules, geographic_condition.
  fold (amount_of claim_data). rewrite Ha. cbn [bind]. cbv zeta.
  destruct (exceeds a (norms_get (get claim_data "procedure_type"))) eqn:Hex.
  - rewrite (percent_of_norms _ _ Hex), Hov. cbn [bind].
    destruct (is_unusual_combo _ _),
      (in_strs _ restricted_states && eq_str _ "Virtual Consultation");
      reflexivity.
  - cbn [bind].
    destruct (is_unusual_combo _ _),
      (in_strs _ restricted_states && eq_str _ "Virtual Consultation");
      reflexivity.
Qed.

(** The rule engine raises when the evidence of HIGH_AMOUNT overflows. *)
Lemma evaluate_business_rules_overflow (claim_data : dict) (a : Q) :
  as_number (amount_of claim_data) = Ok a ->
  engine_overflows claim_data a = true ->
  evaluate_business_rules claim_data = Raise OverflowError.
Proof.
  intros Ha Hov.
  destruct (exceeds a (norms_get (get claim_data "procedure_type"))) eqn:Hex.
  - unfold evaluate_business_rules.
    fold (amount_of claim_data). rewrite Ha. cbn [bind]. cbv zeta.
    rewrite Hex, (percent_of_norms _ _ Hex), Hov. reflexivity.
  - rewrite (engine_overflows_exceeds _ _ Hex) in Hov. discriminate Hov.
Qed.

(** Every threshold of the rule engine lies between 150 and 900. *)
Lemma procedure_norms_bounds (procedure : value) (t : Z) :
  assoc procedure procedure_norms = Some t -> 150 <= t <= 900.
Proof.
  unfold procedure_norms. cbn [assoc].
  repeat match goal with
         | |- context [eq_str procedure ?s] =>
             destruct (eq_str procedure s); [intros [= <-]; lia |]
         end.
  discriminate.
Qed.

Lemma Qlt_bool_comp (x y a : Q) :
  (x == y)%Q -> Qlt_bool x a = Qlt_bool y a.
Proof.
  intros E. destruct (Qlt_bool y a) eqn:H.
  - apply Qlt_bool_iff. rewrite E. now apply Qlt_bool_iff.
  - apply Qlt_bool_false_iff. rewrite E. now apply Qlt_bool_false_iff.
Qed.

(** The product of a threshold of the table by the float 1.5 is exact. *)
Lemma times_norms (procedure : value) (t : Z) (a : Q) :
  assoc procedure procedure_norms = Some t ->
  exceeds a (times (Finite (Int t)) (15 # 10))
  = Qlt_bool (inject_Z t * (15 # 10)) a.
Proof.
  unfold procedure_norms. cbn [assoc exceeds times Q_of_number].
  repeat match goal with
         | |- context [eq_str procedure ?s] =>
             destruct (eq_str procedure s);
             [intros [= <-]; apply Qlt_bool_comp; vm_compute; reflexivity |]
         end.
  discriminate.
Qed.

Lemma feature_norms_bounds (procedure : value) (nrm : norm) :
  assoc procedure feature_procedure_norms = Some nrm ->
  0 <= avg nrm <= 300 /\ 15 <= std nrm <= 90.
Proof.
  unfold feature_procedure_norms. cbn [assoc].
  repeat match goal with
         | |- context [eq_str procedure ?s] =>
             destruct (eq_str procedure s); [intros [= <-]; cbn; lia |]
         end.
  discriminate.
Qed.

Lemma inject_Z_ge_one (z : Z) : 1 <= z -> (1 <= inject_Z z)%Q.
Proof.
  intros H. change 1%Q with (inject_Z 1). now rewrite <- Zle_Qle.
Qed.

(** No quotient up to 20000 in size is beyond the floats. *)
Lemma overflows_small (x : Q) :
  (Qabs x <= 20000)%Q -> beyond_floats x = false.
Proof.
  intros H. rewrite <- overflows_beyond.
  apply Float64Facts.overflows_bounded.
  eapply Qle_trans; [exact H|]. vm_compute. discriminate.
Qed.

(** A quotient by an int from 1 up is no larger than the dividend. *)
Lemma quotient_small (x : Q) (z : Z) :
  1 <= z -> (Qabs x <= 20000)%Q -> (Qabs (x / inject_Z z) <= 20000)%Q.
Proof.
  intros Hz Hx. pose proof (inject_Z_ge_one z Hz) as H1.
  apply Qabs_Qle_condition in Hx. destruct Hx as [Hlo Hhi].
  apply Qabs_Qle_condition. split.
  - apply Qle_shift_div_l; lra.
  - apply Qle_shift_div_r; lra.
Qed.

(** Amounts up to 10000 in size are divided without overflow. *)
Lemma engine_in_bounds (claim_data : dict) (a : Q) :
  (Qabs a <= 10000)%Q -> engine_overflows claim_data a = false.
Proof.
  intros Ha. unfold engine_overflows.
  destruct (assoc _ procedure_norms) as [t|] eqn:Ht; [|reflexivity].
  pose proof (procedure_norms_bounds _ _ Ht) as Hb.
  rewrite overflows_small; [apply andb_false_r|].
  apply quotient_small; [lia|]. eapply Qle_trans; [exact Ha | discriminate].
Qed.

Lemma analysis_in_bounds (claim_data : dict) (a : Q) :
  (Qabs a <= 10000)%Q -> analysis_overflows claim_data a = false.
Proof.
  intros Ha. unfold analysis_overflows.
  destruct (assoc _ feature_procedure_norms) as [nrm|] eqn:Hn; [|reflexivity].
  destruct (feature_norms_bounds _ _ Hn) as [Havg Hstd].
  rewrite overflows_small; [apply andb_false_r|].
  apply quotient_small; [lia|].
  apply Qabs_Qle_condition in Ha. destruct Ha as [Hlo Hhi].
  assert (H0 : (0 <= inject_Z (avg nrm))%Q)
    by (change 0%Q with (inject_Z 0); rewrite <- Zle_Qle; lia).
  assert (H300 : (inject_Z (avg nrm) <= 300)%Q)
    by (change 300%Q with (inject_Z 300); rewrite <- Zle_Qle; lia).
  apply Qabs_Qle_condition. split; lra.
Qed.

Lemma bounds_abs (a : Q) : (1 <= a <= 10000)%Q -> (Qabs a <= 10000)%Q.
Proof. intros [H1 H2]. apply Qabs_Qle_condition. split; lra. Qed.

(** Which rule an answer of the rule engine holds, by its conditions. *)
Lemma any_rule_parts (b1 b2 b3 : bool) (procedure diagnosis amount state : value)
  (a : Q) (threshold : bound) :
  let acts := (only_if b1 (unusual_combo_record procedure diagnosis)
               ++ only_if b2 (high_amount_record amount a threshold)
               ++ only_if b3 (geographic_record state))%list in
  any_rule "UNUSUAL_COMBO" acts = b1
  /\ any_rule "HIGH_AMOUNT" acts = b2
  /\ any_rule "GEOGRAPHIC_RESTRICTION" acts = b3.
Proof. destruct b1, b2, b3; repeat split. Qed.

(** The activation of a rule id in an answer of the rule engine. *)
Lemma In_parts (b1 b2 b3 : bool) (x1 x2 x3 act : activation) :
  In act (only_if b1 x1 ++ only_if b2 x2 ++ only_if b3 x3)%list ->
  (b1 = true /\ act = x1) \/ (b2 = true /\ act = x2) \/ (b3 = true /\ act = x3).
Proof.
  destruct b1, b2, b3; cbn; intuition (subst; auto).
Qed.

(** What the rule engine answers about HIGH_AMOUNT. *)
Lemma evaluate_high_amount (claim_data : dict) (a : Q) :
  as_number (amount_of claim_data) = Ok a ->
  engine_overflows claim_data a = false ->
  exists acts,
    evaluate_business_rules claim_data = Ok acts
    /\ any_rule "HIGH_AMOUNT" acts
       = exceeds a (norms_get (get claim_data "procedure_type")).
Proof.
  intros Ha Hov. rewrite (evaluate_business_rules_parts _ _ Ha Hov). cbv zeta.
  eexists. split; [reflexivity|].
  apply (any_rule_parts _ _ _ _ _ _ _ _ _).
Qed.

(** C9: the rule engine raises only for an amount that is not a number
    (TypeError), or for an int amount above the threshold whose quotient by
    the threshold is beyond the floats (OverflowError, from the evidence of
    HIGH_AMOUNT).  Otherwise the rule ids of its output are pairwise
    distinct, all among UNUSUAL_COMBO, HIGH_AMOUNT and
    GEOGRAPHIC_RESTRICTION, at most three, and in this fixed order. *)
Theorem evaluate_business_rules_shape (claim_data : dict) :
  match evaluate_business_rules claim_data with
  | Ok acts =>
      let ids := map rule_id acts in
      NoDup ids
      /\ Forall (fun id => In id RULE_ORDER) ids
      /\ (List.length acts <= 3)%nat
      /\ subsequence ids RULE_ORDER
  | Raise e =>
      (e = TypeError
       /\ as_number (amount_of claim_data) = Raise TypeError)
      \/ (e = OverflowError
          /\ exists a,
              as_number (amount_of claim_data) = Ok a
              /\ engine_overflows claim_data a = true)
  end.
Proof.
  destruct (as_number (amount_of claim_data)) as [a|e] eqn:Ha.
  - destruct (engine_overflows claim_data a) eqn:Hov.
    + rewrite (evaluate_business_rules_overflow _ _ Ha Hov).
      right. split; [reflexivity|]. now exists a.
    + rewrite (evaluate_business_rules_parts _ _ Ha Hov). cbv zeta.
      destruct (is_unusual_combo _ _), (exceeds a _),
        (geographic_condition claim_data);
        cbn [only_if app map rule_id List.length unusual_combo_record
             high_amount_record geographic_record];
        unfold RULE_ORDER;
        (split; [distinct_strings|]);
        (split; [repeat constructor; cbn; tauto|]);
        (split; [lia|]); auto 6 with rules.
  - rewrite (evaluate_business_rules_raise _ _ Ha).
    left. pose proof (as_number_raise _ _ Ha) as ->. now split.
Qed.

(** C5, as amended: for a claim whose amount is a number, and not an int
    above the threshold whose quotient by the threshold is beyond the
    floats, HIGH_AMOUNT activates exactly when the amount is strictly above
    the max_normal threshold of the claim's procedure; for a procedure that
    is not in the table the threshold is positive infinity and the rule does
    not fire; an activation has confidence High when the amount is above 1.5
    times the threshold and Medium otherwise. *)
Theorem high_amount_activation (claim_data : dict) (a : Q) :
  as_number (amount_of claim_data) = Ok a ->
  engine_overflows claim_data a = false ->
  let procedure := get claim_data "procedure_type" in
  exists acts,
    evaluate_business_rules claim_data = Ok acts
    /\ (any_rule "HIGH_AMOUNT" acts = true <->
        exists t, assoc procedure procedure_norms = Some t
                  /\ (inject_Z t < a)%Q)
    /\ (in_strs procedure (map fst procedure_norms) = false ->
        norms_get procedure = Infinity
        /\ any_rule "HIGH_AMOUNT" acts = false)
    /\ (forall act t,
          In act acts -> rule_id act = "HIGH_AMOUNT" ->
          assoc procedure procedure_norms = Some t ->
          ((15 # 10) * inject_Z t < a -> confidence act = "High")%Q
          /\ (~ (15 # 10) * inject_Z t < a -> confidence act = "Medium")%Q).
Proof.
  intros Ha Hov procedure.
  rewrite (evaluate_business_rules_parts _ _ Ha Hov). cbv zeta. fold procedure.
  eexists. split; [reflexivity|].
  rewrite (proj1 (proj2 (any_rule_parts _ _ _ _ _ _ _ _ _))).
  unfold norms_get.
  destruct (assoc procedure procedure_norms) as [t|] eqn:Ht.
  - cbn [exceeds Q_of_number]. split; [|split].
    + rewrite Qlt_bool_iff. split.
      * intros H. now exists t.
      * intros [t' [[= <-] H]]. exact H.
    + intros Hunk. apply assoc_None_iff in Hunk. congruence.
    + intros act t' Hin Hid [= <-].
      assert (Hc : confidence act
                   = if Qlt_bool (inject_Z t * (15 # 10)) a
                     then "High" else "Medium").
      { apply In_parts in Hin.
        destruct Hin as [[_ ->]|[[_ ->]|[_ ->]]];
          [discriminate Hid | | discriminate Hid].
        cbn [confidence high_amount_record].
        now rewrite (times_norms _ _ a Ht). }
      rewrite Hc. rewrite (Qmult_comm (15 # 10)).
      destruct (Qlt_bool (inject_Z t * (15 # 10)) a) eqn:Hhigh.
      * split; [reflexivity|]. apply Qlt_bool_iff in Hhigh. tauto.
      * split; [|reflexivity]. apply Qlt_bool_false_iff in Hhigh.
        intros Hlt. exfalso. exact (Qlt_not_le _ _ Hlt Hhigh).
  - cbn [exceeds]. split; [|split].
    + split; [discriminate|]. intros [t [Et _]]. discriminate.
    + intros _. split; reflexivity.
    + intros act t _ _ Et. discriminate.
Qed.

(** The claim [consultation_500] instantiates [high_amount_activation]. *)
Lemma high_amount_activation_witness :
  as_number (amount_of consultation_500) = Ok (inject_Z 500)
  /\ engine_overflows consultation_500 (inject_Z 500) = false
  /\ exists acts,
      evaluate_business_rules consultation_500 = Ok acts
      /\ (any_rule "HIGH_AMOUNT" acts = true <->
          exists t, assoc (get consultation_500 "procedure_type") procedure_norms
                    = Some t
                    /\ (inject_Z t < inject_Z 500)%Q).
Proof.
  split; [reflexivity|]. split; [reflexivity|].
  destruct (high_amount_activation consultation_500 (inject_Z 500)
              eq_refl eq_refl)
    as [acts [Hev [Hiff _]]].
  exists acts. split; assumption.
Defined.

(** C5, counterexample: the amount of [consultation_huge], the int
    [10 ** 400], is above the threshold 450 of its procedure, and the rule
    engine raises OverflowError: there is no activation of HIGH_AMOUNT. *)
Lemma high_amount_overflow :
  as_number (amount_of consultation_huge) = Ok (inject_Z (10 ^ 400))
  /\ assoc (get consultation_huge "procedure_type") procedure_norms = Some 450
  /\ (inject_Z 450 < inject_Z (10 ^ 400))%Q
  /\ evaluate_business_rules consultation_huge = Raise OverflowError.
Proof.
  split; [reflexivity|]. split; [reflexivity|].
  split; vm_compute; reflexivity.
Qed.

(** *** Counterfactuals *)

Lemma dict_get_set_same (d : dict) (k : string) (v default : value) :
  dict_get (dict_set d k v) k default = v.
Proof.
  induction d as [|[k' v'] d IH]; cbn.
  - now rewrite String.eqb_refl.
  - destruct (String.eqb k' k) eqn:E; cbn; rewrite E; [reflexivity | exact IH].
Qed.

Lemma dict_get_set_other (d : dict) (k k' : string) (v default : value) :
  k <> k' -> dict_get (dict_set d k v) k' default = dict_get d k' default.
Proof.
  intros Hne. induction d as [|[k0 v0] d IH]; cbn.
  - apply String.eqb_neq in Hne. now rewrite Hne.
  - destruct (String.eqb k0 k) eqn:E; cbn.
    + apply String.eqb_eq in E. subst k0.
      apply String.eqb_neq in Hne. now rewrite Hne.
    + now rewrite IH.
Qed.

Lemma eq_str_true (v : value) (s : string) : eq_str v s = true -> v = VStr s.
Proof.
  destruct v; cbn; try discriminate. intros E.
  apply String.eqb_eq in E. now subst.
Qed.

(** Every counterfactual threshold is positive and is the threshold of
    the rule engine for the same procedure. *)
Lemma procedure_thresholds_in_norms (procedure : value) (t : Z) :
  assoc procedure procedure_thresholds = Some t ->
  0 < t /\ assoc procedure procedure_norms = Some t.
Proof.
  unfold procedure_thresholds. cbn [assoc].
  repeat match goal with
         | |- context [eq_str procedure ?s] =>
             let E := fresh "E" in
             destruct (eq_str procedure s) eqn:E;
             [apply eq_str_true in E; subst procedure;
              intros [= <-]; split; [lia | reflexivity] |]
         end.
  discriminate.
Qed.

(** The safe amount of a threshold of the table, the product of an int by
    the float 0.9, is printed as the exact product. *)
Lemma safe_amount_text (procedure : value) (t : Z) :
  assoc procedure procedure_thresholds = Some t ->
  format_fixed 2 (safe_amount t) = format_fixed 2 (inject_Z t * (9 # 10)).
Proof.
  unfold procedure_thresholds. cbn [assoc].
  repeat match goal with
         | |- context [eq_str procedure ?s] =>
             destruct (eq_str procedure s);
             [intros [= <-]; vm_compute; reflexivity |]
         end.
  discriminate.
Qed.

(** C6: for a claim whose amount is a number, the generator emits at most
    one counterfactual, and exactly one when the procedure has a
    counterfactual threshold that the amount exceeds; its sentence names the
    safe amount, threshold times 0.9, which is strictly below the threshold:
    with it in place of the amount, no counterfactual is generated and
    HIGH_AMOUNT does not activate. *)
Theorem counterfactual_generation (claim_data : dict) (a : Q) :
  as_number (amount_of claim_data) = Ok a ->
  let procedure := get claim_data "procedure_type" in
  exists cfs,
    generate_counterfactuals claim_data = Ok cfs
    /\ (List.length cfs <= 1)%nat
    /\ (List.length cfs = 1%nat <->
        exists t, assoc procedure procedure_thresholds = Some t
                  /\ (inject_Z t < a)%Q)
    /\ forall t,
        assoc procedure procedure_thresholds = Some t ->
        (inject_Z t < a)%Q ->
        let safe := (inject_Z t * (9 # 10))%Q in
        let substituted :=
          dict_set claim_data "claim_amount" (VNum (Float safe)) in
        cfs = [ "If claim amount were $" ++ format_fixed 2 safe
                ++ " instead of $" ++ py_str (amount_of claim_data)
                ++ ", this claim would likely not be flagged as an outlier" ]
        /\ (safe < inject_Z t)%Q
        /\ norms_get procedure = Finite (Int t)
        /\ generate_counterfactuals substituted = Ok []
        /\ exists acts,
            evaluate_business_rules substituted = Ok acts
            /\ any_rule "HIGH_AMOUNT" acts = false.
Proof.
  intros Ha procedure. unfold generate_counterfactuals at 1.
  fold (amount_of claim_data). fold procedure. cbv zeta.
  destruct (assoc procedure procedure_thresholds) as [t|] eqn:Ht.
  - destruct (procedure_thresholds_in_norms _ _ Ht) as [Hpos Hnorm].
    assert (Hnz : (t =? 0) = false) by (apply Z.eqb_neq; lia).
    rewrite Hnz, Ha. cbn [bind].
    assert (Hsafe : (inject_Z t * (9 # 10) < inject_Z t)%Q).
    { unfold Qlt, Qmult, inject_Z. cbn [Qnum Qden]. lia. }
    destruct (Qlt_bool (inject_Z t) a) eqn:Hgt.
    + eexists. split; [reflexivity|].
      cbn [append app List.length]. split; [lia|]. split.
      * split; [|reflexivity]. intros _. exists t.
        split; [reflexivity | now apply Qlt_bool_iff].
      * intros t' [= <-] _.
        set (safe := (inject_Z t * (9 # 10))%Q) in *.
        set (substituted :=
               dict_set claim_data "claim_amount" (VNum (Float safe))).
        split; [unfold counterfactual, safe;
                now rewrite (safe_amount_text _ _ Ht)|].
        split; [exact Hsafe|].
        split; [unfold norms_get; now rewrite Hnorm|].
        assert (Hamt : amount_of substituted = VNum (Float safe))
          by apply dict_get_set_same.
        assert (Hproc : get substituted "procedure_type" = procedure)
          by (apply dict_get_set_other; discriminate).
        assert (Hle : Qlt_bool (inject_Z t) safe = false)
          by (apply Qlt_bool_false_iff, Qlt_le_weak, Hsafe).
        split.
        -- unfold generate_counterfactuals. fold (amount_of substituted).
           rewrite Hproc, Ht, Hnz, Hamt. cbn [as_number bind Q_of_number].
           now rewrite Hle.
        -- assert (Hex : exceeds safe (norms_get (get substituted "procedure_type"))
                          = false).
           { rewrite Hproc. unfold norms_get. rewrite Hnorm. exact Hle. }
           destruct (evaluate_high_amount substituted safe) as [acts [Hev Hany]];
             [now rewrite Hamt | now apply engine_overflows_exceeds |].
           exists acts. split; [exact Hev|].
           rewrite Hany, Hproc. unfold norms_get. rewrite Hnorm. exact Hle.
    + eexists. split; [reflexivity|]. cbn [List.length].
      apply Qlt_bool_false_iff in Hgt.
      split; [lia|]. split.
      * split; [discriminate|]. intros [t' [[= <-] Hlt]].
        exfalso. exact (Qlt_not_le _ _ Hlt Hgt).
      * intros t' [= <-] Hlt. exfalso. exact (Qlt_not_le _ _ Hlt Hgt).
  - eexists. split; [reflexivity|]. cbn [List.length].
    split; [lia|]. split.
    + split; [discriminate|]. intros [t [Et _]]. discriminate.
    + intros t Et. discriminate.
Qed.

(** The claim [consultation_500] instantiates [counterfactual_generation]:
    its counterfactual suggests 405.00. *)
Lemma counterfactual_generation_witness :
  as_number (amount_of consultation_500) = Ok (inject_Z 500)
  /\ generate_counterfactuals consultation_500
     = Ok [ "If claim amount were $405.00 instead of $500, this claim would likely not be flagged as an outlier" ]
  /\ exists cfs,
      generate_counterfactuals consultation_500 = Ok cfs
      /\ (List.length cfs <= 1)%nat.
Proof.
  split; [reflexivity|]. split; [reflexivity|].
  destruct (counterfactual_generation consultation_500 (inject_Z 500) eq_refl)
    as [cfs [Hgen [Hlen _]]].
  exists cfs. split; assumption.
Defined.

(** *** Validator *)

Lemma dict_get_missing (d : dict) (k : string) (default : value) :
  has_key d k = false -> dict_get d k default = default.
Proof.
  induction d as [|[k' v] d IH]; cbn; [reflexivity|].
  destruct (String.eqb k' k); cbn; [discriminate | exact IH].
Qed.

Lemma amount_out_of_bounds_iff (a : Q) :
  amount_out_of_bounds a = true <-> ~ (1 <= a <= 10000)%Q.
Proof.
  unfold amount_out_of_bounds.
  rewrite negb_true_iff, andb_false_iff.
  split.
  - intros [H|H] [H1 H2]; [apply Qle_bool_iff in H1 | apply Qle_bool_iff in H2];
      congruence.
  - intros H. destruct (Qle_bool 1 a) eqn:E1; [|now left].
    destruct (Qle_bool a 10000) eqn:E2; [|now right].
    exfalso. apply H. split; now apply Qle_bool_iff.
Qed.

Lemma state_unknown_iff (state : string) :
  state_unknown state = true <-> ~ In state VALID_STATES.
Proof.
  unfold state_unknown. rewrite negb_true_iff.
  rewrite <- not_true_iff_false, existsb_exists.
  split; intros H Hin; apply H.
  - exists state. split; [exact Hin | apply String.eqb_refl].
  - destruct Hin as [x [Hx E]]. apply String.eqb_eq in E. now subst.
Qed.

(** The validator on a claim whose amount is a number and whose state is
    a string: the three checks, each adding its message. *)
Lemma validate_claim_data_checks (claim_data : dict) (a : Q) (s : string) :
  as_number (amount_of claim_data) = Ok a ->
  state_of claim_data = VStr s ->
  let procedure := get claim_data "procedure_type" in
  let errs :=
    (when (amount_out_of_bounds a) (amount_error (amount_of claim_data))
     ++ when (state_unknown (upper s)) (state_error (upper s))
     ++ when (procedure_unknown procedure) (procedure_error procedure))%list in
  validate_claim_data claim_data
  = Ok {| valid := negb (amount_out_of_bounds a || state_unknown (upper s)
                         || procedure_unknown procedure);
          errors := errs |}.
Proof.
  intros Ha Hs. unfold validate_claim_data.
  fold (amount_of claim_data) (state_of claim_data).
  rewrite Ha, Hs. cbn [bind py_upper]. cbv zeta.
  fold (amount_out_of_bounds a) (state_unknown (upper s))
       (procedure_unknown (get claim_data "procedure_type")).
  destruct (amount_out_of_bounds a), (state_unknown (upper s)),
    (procedure_unknown (get claim_data "procedure_type")); reflexivity.
Qed.

(** C8: on a claim whose amount is a number and whose state is a string,
    the validator returns; [valid] holds exactly when the error list is
    empty; the list is the amount error, the state error and the procedure
    error, each present exactly when its check is violated, whatever the
    other checks give; an amount outside [1, 10000] always puts the amount
    error in the list. *)
Theorem validate_claim_data_accumulates (claim_data : dict) (a : Q) (s : string) :
  as_number (amount_of claim_data) = Ok a ->
  state_of claim_data = VStr s ->
  let procedure := get claim_data "procedure_type" in
  exists v,
    validate_claim_data claim_data = Ok v
    /\ (valid v = true <-> errors v = [])
    /\ (exists bad_amount bad_state bad_procedure : bool,
          (bad_amount = true <-> ~ (1 <= a <= 10000)%Q)
          /\ (bad_state = true <-> ~ In (upper s) VALID_STATES)
          /\ (bad_procedure = true <->
              truthy procedure = true
              /\ in_strs procedure valid_procedures = false)
          /\ errors v
             = (when bad_amount (amount_error (amount_of claim_data))
                ++ when bad_state (state_error (upper s))
                ++ when bad_procedure (procedure_error procedure))%list)
    /\ (~ (1 <= a <= 10000)%Q ->
        valid v = false
        /\ In (amount_error (amount_of claim_data)) (errors v)).
Proof.
  intros Ha Hs procedure.
  rewrite (validate_claim_data_checks claim_data a s Ha Hs). cbv zeta.
  fold procedure. eexists. split; [reflexivity|]. cbn [valid errors].
  split; [|split].
  - destruct (amount_out_of_bounds a), (state_unknown (upper s)),
      (procedure_unknown procedure); cbn; split; intros H; easy.
  - exists (amount_out_of_bounds a), (state_unknown (upper s)),
      (procedure_unknown procedure).
    split; [apply amount_out_of_bounds_iff|].
    split; [apply state_unknown_iff|].
    split; [|reflexivity].
    unfold procedure_unknown. now rewrite andb_true_iff, negb_true_iff.
  - intros Hout. apply amount_out_of_bounds_iff in Hout. rewrite Hout.
    split; [reflexivity | now left].
Qed.

(** [invalid_claim] instantiates [validate_claim_data_accumulates]: three
    errors, in the order of the checks. *)
Lemma validate_claim_data_accumulates_witness :
  as_number (amount_of invalid_claim) = Ok (inject_Z 15000)
  /\ state_of invalid_claim = VStr "zz"
  /\ validate_claim_data invalid_claim
     = Ok {| valid := false;
             errors := [ "Invalid claim amount: $15000. Must be between $1 and $10,000";
                         "Invalid state code: ZZ";
                         "Invalid procedure type: Surgery" ] |}
  /\ exists v,
      validate_claim_data invalid_claim = Ok v
      /\ (valid v = true <-> errors v = []).
Proof.
  split; [reflexivity|]. split; [reflexivity|]. split; [reflexivity|].
  destruct (validate_claim_data_accumulates
              invalid_claim (inject_Z 15000) "zz" eq_refl eq_refl)
    as [v [Hv [Hvalid _]]].
  exists v. split; assumption.
Defined.

(** C10: a claim without [claim_amount] is validated with the amount 0 and
    gets the amount error; a claim without [patient_state] gets the state
    error, for the empty code; a claim whose [procedure_type] is missing or
    the empty string gets no procedure error: its errors are those of the
    amount and of the state.  In each case the other fields are of their
    types: the amount a number, the state a string. *)
Theorem validate_claim_data_missing_fields (claim_data : dict) :
  (has_key claim_data "claim_amount" = false ->
   forall s, state_of claim_data = VStr s ->
   exists v,
     validate_claim_data claim_data = Ok v
     /\ amount_of claim_data = VNum (Int 0)
     /\ valid v = false
     /\ In "Invalid claim amount: $0. Must be between $1 and $10,000"
           (errors v))
  /\ (has_key claim_data "patient_state" = false ->
      forall a, as_number (amount_of claim_data) = Ok a ->
      exists v,
        validate_claim_data claim_data = Ok v
        /\ valid v = false
        /\ In "Invalid state code: " (errors v))
  /\ (has_key claim_data "procedure_type" = false
      \/ get claim_data "procedure_type" = VStr EmptyString ->
      forall a s,
      as_number (amount_of claim_data) = Ok a ->
      state_of claim_data = VStr s ->
      exists v,
        validate_claim_data claim_data = Ok v
        /\ errors v
           = (when (amount_out_of_bounds a) (amount_error (amount_of claim_data))
              ++ when (state_unknown (upper s)) (state_error (upper s)))%list
        /\ ((1 <= a <= 10000)%Q -> In (upper s) VALID_STATES ->
            valid v = true /\ errors v = [])).
Proof.
  split; [|split].
  - intros Hmiss s Hs.
    assert (Hamt : amount_of claim_data = VNum (Int 0))
      by (apply dict_get_missing, Hmiss).
    assert (Ha : as_number (amount_of claim_data) = Ok (inject_Z 0))
      by now rewrite Hamt.
    rewrite (validate_claim_data_checks claim_data _ s Ha Hs). cbv zeta.
    eexists. split; [reflexivity|]. rewrite Hamt.
    split; [reflexivity|]. split; [reflexivity | now left].
  - intros Hmiss a Ha.
    assert (Hs : state_of claim_data = VStr EmptyString)
      by (apply dict_get_missing, Hmiss).
    rewrite (validate_claim_data_checks claim_data a _ Ha Hs). cbv zeta.
    eexists. split; [reflexivity|]. cbn [valid errors upper].
    change (state_unknown EmptyString) with true.
    split; [now rewrite orb_true_r|].
    apply in_or_app. right. now left.
  - intros Hproc a s Ha Hs.
    assert (Hp : procedure_unknown (get claim_data "procedure_type") = false).
    { destruct Hproc as [Hmiss|Hempty].
      - unfold get. now rewrite (dict_get_missing _ _ _ Hmiss).
      - now rewrite Hempty. }
    rewrite (validate_claim_data_checks claim_data a s Ha Hs). cbv zeta.
    rewrite Hp. eexists. split; [reflexivity|]. cbn [valid errors when].
    split; [now rewrite app_nil_r|].
    intros Hin Hstate.
    assert (Ea : amount_out_of_bounds a = false).
    { apply not_true_iff_false. rewrite amount_out_of_bounds_iff. tauto. }
    assert (Es : state_unknown (upper s) = false).
    { apply not_true_iff_false. rewrite state_unknown_iff. tauto. }
    rewrite Ea, Es. split; reflexivity.
Qed.

(** The empty claim instantiates [validate_claim_data_missing_fields]: it
    lacks the three fields and gets the amount error and the state error. *)
Lemma validate_claim_data_missing_fields_witness :
  has_key [] "claim_amount" = false
  /\ state_of [] = VStr EmptyString
  /\ validate_claim_data []
     = Ok {| valid := false;
             errors := [ "Invalid claim amount: $0. Must be between $1 and $10,000";
                         "Invalid state code: " ] |}
  /\ exists v,
      validate_claim_data [] = Ok v
      /\ In "Invalid claim amount: $0. Must be between $1 and $10,000"
            (errors v).
Proof.
  split; [reflexivity|]. split; [reflexivity|]. split; [reflexivity|].
  destruct (validate_claim_data_missing_fields []) as [Hamount _].
  destruct (Hamount eq_refl EmptyString eq_refl) as [v [Hv [_ [_ Hin]]]].
  exists v. split; assumption.
Defined.

(** *** Claims without [claim_id] *)

(** The feature analysis of a procedure with norms. *)
Lemma analyze_claim_features_known (claim_data : dict) (a : Q) (nrm : norm) :
  as_number (amount_of claim_data) = Ok a ->
  assoc (get claim_data "procedure_type") feature_procedure_norms = Some nrm ->
  analysis_overflows claim_data a = false ->
  exists fa,
    analyze_claim_features claim_data = Ok fa
    /\ procedure_analysis fa
       = Some (procedure_report_of (amount_of claim_data) a nrm).
Proof.
  intros Ha Hn Hov. unfold analyze_claim_features. cbv zeta.
  fold (amount_of claim_data). rewrite Hn, Ha. cbn [bind].
  unfold analysis_overflows in Hov. rewrite Hn in Hov.
  unfold procedure_report_of.
  destruct (0 <? std nrm) eqn:Hstd.
  - cbn [andb] in Hov. unfold true_divide.
    assert (E : negb (is_float (amount_of claim_data))
                && Float64.overflows
                     (minus (amount_of claim_data) a (avg nrm)
                      / inject_Z (std nrm)) = false).
    { unfold minus. rewrite overflows_beyond.
      destruct (is_float (amount_of claim_data)); [reflexivity | exact Hov]. }
    rewrite E. cbn [bind]. eexists. split; reflexivity.
  - cbn [bind]. eexists. split; reflexivity.
Qed.

(** The feature analysis raises when the deviation overflows. *)
Lemma analyze_claim_features_overflow (claim_data : dict) (a : Q) :
  as_number (amount_of claim_data) = Ok a ->
  analysis_overflows claim_data a = true ->
  analyze_claim_features claim_data = Raise OverflowError.
Proof.
  intros Ha. unfold analysis_overflows, analyze_claim_features. cbv zeta.
  fold (amount_of claim_data).
  destruct (assoc _ feature_procedure_norms) as [nrm|]; [|discriminate].
  rewrite Ha. cbn [bind]. intros Hov.
  apply andb_true_iff in Hov. destruct Hov as [Hov Hbig].
  apply andb_true_iff in Hov. destruct Hov as [Hstd Hint].
  rewrite Hstd. unfold true_divide, minus.
  apply negb_true_iff in Hint. rewrite Hint. cbn [negb andb].
  rewrite overflows_beyond, Hbig. reflexivity.
Qed.

Lemma analyze_claim_features_returns (claim_data : dict) (a : Q) :
  as_number (amount_of claim_data) = Ok a ->
  analysis_overflows claim_data a = false ->
  exists fa, analyze_claim_features claim_data = Ok fa.
Proof.
  intros Ha Hov.
  destruct (assoc (get claim_data "procedure_type") feature_procedure_norms)
    as [nrm|] eqn:Hn.
  - destruct (analyze_claim_features_known _ _ _ Ha Hn Hov) as [fa [Hfa _]].
    now exists fa.
  - unfold analyze_claim_features. cbv zeta. rewrite Hn. cbn [bind].
    eexists. reflexivity.
Qed.

Lemma generate_counterfactuals_returns (claim_data : dict) (a : Q) :
  as_number (amount_of claim_data) = Ok a ->
  exists cfs, generate_counterfactuals claim_data = Ok cfs.
Proof.
  intros Ha. unfold generate_counterfactuals. cbv zeta.
  fold (amount_of claim_data). rewrite Ha.
  destruct (assoc _ procedure_thresholds) as [t|]; [|eexists; reflexivity].
  destruct (t =? 0); [eexists; reflexivity|]. cbn [bind].
  destruct (Qlt_bool _ _); eexists; reflexivity.
Qed.

(** The report raises when the analysis or the rule engine overflows. *)
Lemma generate_interpretability_report_overflow
  (claim_data : dict) (a : Q) (similar_claims : list dict) :
  as_number (amount_of claim_data) = Ok a ->
  analysis_overflows claim_data a = true
  \/ engine_overflows claim_data a = true ->
  generate_interpretability_report claim_data similar_claims
  = Raise OverflowError.
Proof.
  intros Ha H. unfold generate_interpretability_report.
  destruct (analysis_overflows claim_data a) eqn:Han.
  - now rewrite (analyze_claim_features_overflow _ _ Ha Han).
  - destruct H as [H|H]; [discriminate H|].
    destruct (analyze_claim_features_returns _ _ Ha Han) as [fa ->].
    cbn [bind]. now rewrite (evaluate_business_rules_overflow _ _ Ha H).
Qed.

(** C4, as amended: for a claim without [claim_id] (its amount a number,
    its state a string) no error is raised for the missing field.  The
    audit entry is produced, and so is the report unless the amount is an
    int too large for the float divisions of the feature analysis or of the
    rule engine, which then raise OverflowError; the [claim_id] of the
    report and of the entry is [None], the default of [dict.get]. *)
Theorem missing_claim_id_defaults_to_None
  (claim_data : dict) (a : Q) (s : string)
  (similar_claims : list dict) (now : string)
  (rules : list activation) (outcome : string) :
  has_key claim_data "claim_id" = false ->
  as_number (amount_of claim_data) = Ok a ->
  state_of claim_data = VStr s ->
  (analysis_overflows claim_data a = false ->
   engine_overflows claim_data a = false ->
   exists r,
     generate_interpretability_report claim_data similar_claims = Ok r
     /\ claim_id r = VNone)
  /\ (analysis_overflows claim_data a = true
      \/ engine_overflows claim_data a = true ->
      generate_interpretability_report claim_data similar_claims
      = Raise OverflowError)
  /\ (exists e,
         create_audit_log now claim_data rules outcome = Ok e
         /\ audit_claim_id e = VNone).
Proof.
  intros Hmiss Ha Hs.
  assert (Hid : get claim_data "claim_id" = VNone)
    by (apply dict_get_missing, Hmiss).
  split; [|split].
  - intros Han Hen. unfold generate_interpretability_report.
    destruct (analyze_claim_features_returns _ _ Ha Han) as [fa ->].
    destruct (evaluate_high_amount _ _ Ha Hen) as [acts [-> _]].
    destruct (generate_counterfactuals_returns _ _ Ha) as [cfs ->].
    cbn [bind]. eexists. split; [reflexivity | exact Hid].
  - apply generate_interpretability_report_overflow. exact Ha.
  - unfold create_audit_log.
    rewrite (validate_claim_data_checks claim_data a s Ha Hs).
    cbn [bind]. eexists. split; [reflexivity | exact Hid].
Qed.

(** [claim_without_id] instantiates [missing_claim_id_defaults_to_None]. *)
Lemma missing_claim_id_defaults_to_None_witness :
  has_key claim_without_id "claim_id" = false
  /\ as_number (amount_of claim_without_id) = Ok (inject_Z 200)
  /\ state_of claim_without_id = VStr "CA"
  /\ analysis_overflows claim_without_id (inject_Z 200) = false
  /\ engine_overflows claim_without_id (inject_Z 200) = false
  /\ exists r,
      generate_interpretability_report claim_without_id [] = Ok r
      /\ claim_id r = VNone.
Proof.
  split; [reflexivity|]. split; [reflexivity|]. split; [reflexivity|].
  split; [reflexivity|]. split; [reflexivity|].
  exact (proj1 (missing_claim_id_defaults_to_None
                  claim_without_id (inject_Z 200) "CA" [] "2024-06-01T12:00:00"
                  [] "Approved" eq_refl eq_refl eq_refl) eq_refl eq_refl).
Defined.

(** C4, counterexample: [claim_without_id] has no [claim_id], and neither
    the report nor the audit entry raises. *)
Lemma missing_claim_id_not_raised :
  has_key claim_without_id "claim_id" = false
  /\ returns (generate_interpretability_report claim_without_id []) = true
  /\ returns (create_audit_log "2024-06-01T12:00:00" claim_without_id []
                "Approved") = true.
Proof.
  split; [reflexivity|]. split; vm_compute; reflexivity.
Qed.

(** *** Sorting by key *)

Lemma leb_trans (x y z : string) :
  String.leb x y = true -> String.leb y z = true -> String.leb x z = true.
Proof.
  unfold String.leb.
  destruct (String.compare x y) eqn:Exy; try discriminate; intros _;
    destruct (String.compare y z) eqn:Eyz; try discriminate; intros _.
  - apply String.compare_eq_iff in Exy, Eyz. subst.
    pose proof (proj2 (String_as_OT.cmp_eq z z) eq_refl) as Hzz.
    unfold String_as_OT.cmp in Hzz. now rewrite Hzz.
  - apply String.compare_eq_iff in Exy. subst. now rewrite Eyz.
  - apply String.compare_eq_iff in Eyz. subst. now rewrite Exy.
  - apply String_as_OT.cmp_lt in Exy, Eyz.
    pose proof (String_as_OT.lt_trans _ _ _ Exy Eyz) as Hxz.
    apply String_as_OT.cmp_lt in Hxz. unfold String_as_OT.cmp in Hxz.
    now rewrite Hxz.
Qed.

Section SortedFacts.
Context {A : Type} (key : A -> string).

Lemma insert_by_perm (x : A) (l : list A) :
  Permutation (insert_by key x l) (x :: l).
Proof.
  induction l as [|y l IH]; cbn; [reflexivity|].
  destruct (String.leb (key x) (key y)); [reflexivity|].
  rewrite IH. apply perm_swap.
Qed.

Lemma sort_by_perm (l : list A) : Permutation (sort_by key l) l.
Proof.
  induction l as [|x l IH]; cbn; [reflexivity|].
  rewrite insert_by_perm. now constructor.
Qed.

Lemma insert_by_sorted (x : A) (l : list A) :
  StronglySorted (key_le key) l -> StronglySorted (key_le key) (insert_by key x l).
Proof.
  induction 1 as [|y l Hs IH Hy]; cbn.
  - repeat constructor.
  - destruct (String.leb (key x) (key y)) eqn:E.
    + constructor; [now constructor|].
      constructor; [exact E|].
      eapply Forall_impl; [|exact Hy].
      intros z Hz. exact (leb_trans _ _ _ E Hz).
    + constructor; [exact IH|].
      apply (Permutation_Forall (Permutation_sym (insert_by_perm x l))).
      constructor; [|exact Hy].
      destruct (String.leb_total (key x) (key y)) as [H|H];
        [congruence | exact H].
Qed.

Lemma sort_by_sorted (l : list A) : StronglySorted (key_le key) (sort_by key l).
Proof.
  induction l as [|x l IH]; cbn; [constructor | now apply insert_by_sorted].
Qed.

(** Two sorted lists with the same elements, of distinct keys, are the
    same list. *)
Lemma sorted_perm_unique (l1 l2 : list A) :
  NoDup (map key l1) ->
  StronglySorted (key_le key) l1 -> StronglySorted (key_le key) l2 ->
  Permutation l1 l2 -> l1 = l2.
Proof.
  revert l2. induction l1 as [|x l1 IH]; intros l2 Hnd Hs1 Hs2 Hp.
  - apply Permutation_nil in Hp. now subst.
  - destruct l2 as [|y l2].
    { apply Permutation_sym, Permutation_nil in Hp. discriminate. }
    inversion Hnd as [|? ? Hnotin Hnd']; subst.
    inversion Hs1 as [|? ? Hs1' Hx]; subst.
    inversion Hs2 as [|? ? Hs2' Hy]; subst.
    assert (Exy : x = y).
    { assert (Hin1 : In x (y :: l2))
        by (eapply Permutation_in; [exact Hp | now left]).
      assert (Hin2 : In y (x :: l1))
        by (eapply Permutation_in;
            [apply Permutation_sym; exact Hp | now left]).
      destruct Hin1 as [->|Hin1]; [reflexivity|].
      destruct Hin2 as [->|Hin2]; [reflexivity|].
      exfalso. apply Hnotin.
      rewrite Forall_forall in Hx, Hy.
      rewrite (String.leb_antisym _ _ (Hx _ Hin2) (Hy _ Hin1)).
      now apply in_map. }
    subst y. f_equal.
    apply IH; try assumption.
    eapply Permutation_cons_inv; exact Hp.
Qed.

Lemma sort_by_perm_eq (l1 l2 : list A) :
  NoDup (map key l1) -> Permutation l1 l2 ->
  sort_by key l1 = sort_by key l2.
Proof.
  intros Hnd Hp. apply sorted_perm_unique.
  - eapply Permutation_NoDup; [|exact Hnd].
    apply Permutation_map, Permutation_sym, sort_by_perm.
  - apply sort_by_sorted.
  - apply sort_by_sorted.
  - rewrite !sort_by_perm. exact Hp.
Qed.
End SortedFacts.

(** *** Audit hash *)

(** A dict read through [get] does not depend on the order of its items. *)
Lemma dict_get_perm (d1 d2 : dict) (k : string) (default : value) :
  wf_dict d1 -> Permutation d1 d2 ->
  dict_get d1 k default = dict_get d2 k default.
Proof.
  unfold wf_dict. intros Hnd Hp. induction Hp as [|[k' v] d1 d2 Hp IH
                                                  |[k1 v1] [k2 v2] d|d1 d2 d3 Hp1 IH1 Hp2 IH2].
  - reflexivity.
  - cbn. inversion Hnd; subst. now rewrite IH.
  - cbn. destruct (String.eqb k1 k) eqn:E1, (String.eqb k2 k) eqn:E2;
      try reflexivity.
    apply String.eqb_eq in E1, E2. subst.
    inversion Hnd as [|? ? Hnotin _]; subst. exfalso. apply Hnotin. now left.
  - rewrite IH1 by exact Hnd. apply IH2.
    eapply Permutation_NoDup; [|exact Hnd]. now apply Permutation_map.
Qed.

Lemma validate_claim_data_perm (d1 d2 : dict) :
  wf_dict d1 -> Permutation d1 d2 ->
  validate_claim_data d1 = validate_claim_data d2.
Proof.
  intros Hnd Hp. unfold validate_claim_data, get.
  now rewrite !(dict_get_perm d1 d2 _ _ Hnd Hp).
Qed.

(** C3: two claim records with the same items, in whatever insertion
    order, have the same key-sorted serialization, and audit entries
    created from them, at any times, for any activations and decisions, end
    alike (both raise the same exception, or both return) with the same
    [audit_hash]: the MD5 digest of that serialization. *)
Theorem audit_hash_order_independent
  (d1 d2 : dict) (now1 now2 : string)
  (rules1 rules2 : list activation) (outcome1 outcome2 : string) :
  wf_dict d1 -> Permutation d1 d2 ->
  Json.dumps d1 true = Json.dumps d2 true
  /\ field audit_hash (create_audit_log now1 d1 rules1 outcome1)
     = field audit_hash (create_audit_log now2 d2 rules2 outcome2)
  /\ (forall e,
        create_audit_log now1 d1 rules1 outcome1 = Ok e ->
        audit_hash e = MD5.hexdigest (Json.dumps d1 true)).
Proof.
  intros Hnd Hp.
  assert (Hdumps : Json.dumps d1 true = Json.dumps d2 true).
  { unfold Json.dumps. now rewrite (sort_by_perm_eq fst d1 d2 Hnd Hp). }
  split; [exact Hdumps|]. unfold create_audit_log.
  rewrite <- Hdumps, <- (validate_claim_data_perm d1 d2 Hnd Hp).
  destruct (validate_claim_data d1) as [status|exc]; cbn [bind field].
  - split; [reflexivity|]. now intros e [= <-].
  - split; [reflexivity|]. discriminate.
Qed.

(** [claim_without_id] and the same items in reverse order instantiate
    [audit_hash_order_independent]. *)
Lemma audit_hash_order_independent_witness :
  wf_dict claim_without_id
  /\ Permutation claim_without_id (rev claim_without_id)
  /\ Json.dumps claim_without_id false <> Json.dumps (rev claim_without_id) false
  /\ field audit_hash
       (create_audit_log "2024-06-01T12:00:00" claim_without_id [] "Approved")
     = field audit_hash
         (create_audit_log "2024-06-02T08:30:00" (rev claim_without_id)
            [high_amount_500] "Pending").
Proof.
  assert (Hnd : wf_dict claim_without_id).
  { unfold wf_dict. cbn. distinct_strings. }
  split; [exact Hnd|]. split; [apply Permutation_rev|].
  split; [vm_compute; discriminate|].
  exact (proj1 (proj2 (audit_hash_order_independent
                         claim_without_id (rev claim_without_id)
                         "2024-06-01T12:00:00" "2024-06-02T08:30:00"
                         [] [high_amount_500] "Approved" "Pending"
                         Hnd (Permutation_rev _)))).
Defined.

(** *** Fairness monitor *)

Lemma fold_max_spec (xs : list Q) (x : Q) :
  is_max (fold_left Qmax xs x) (x :: xs).
Proof.
  revert x. induction xs as [|y xs IH]; intros x; cbn [fold_left].
  - split.
    + intros z [<-|[]]. apply Qle_refl.
    + exists x. split; [now left | reflexivity].
  - destruct (IH (Qmax x y)) as [Hub [z [Hz Ez]]]. split.
    + intros w [<-|[<-|Hw]].
      * eapply Qle_trans; [apply Q.le_max_l | apply Hub; now left].
      * eapply Qle_trans; [apply Q.le_max_r | apply Hub; now left].
      * apply Hub. now right.
    + destruct Hz as [<-|Hz].
      * destruct (Q.max_dec x y) as [E|E].
        -- exists x. split; [now left|].
           eapply Qeq_trans; [apply Qeq_sym; exact E | exact Ez].
        -- exists y. split; [right; now left|].
           eapply Qeq_trans; [apply Qeq_sym; exact E | exact Ez].
      * exists z. split; [right; now right | exact Ez].
Qed.

Lemma fold_min_spec (xs : list Q) (x : Q) :
  is_min (fold_left Qmin xs x) (x :: xs).
Proof.
  revert x. induction xs as [|y xs IH]; intros x; cbn [fold_left].
  - split.
    + intros z [<-|[]]. apply Qle_refl.
    + exists x. split; [now left | reflexivity].
  - destruct (IH (Qmin x y)) as [Hlb [z [Hz Ez]]]. split.
    + intros w [<-|[<-|Hw]].
      * eapply Qle_trans; [apply Hlb; now left | apply Q.le_min_l].
      * eapply Qle_trans; [apply Hlb; now left | apply Q.le_min_r].
      * apply Hlb. now right.
    + destruct Hz as [<-|Hz].
      * destruct (Q.min_dec x y) as [E|E].
        -- exists x. split; [now left|].
           eapply Qeq_trans; [apply Qeq_sym; exact E | exact Ez].
        -- exists y. split; [right; now left|].
           eapply Qeq_trans; [apply Qeq_sym; exact E | exact Ez].
      * exists z. split; [right; now right | exact Ez].
Qed.

(** A group rate is a float between 0 and 1. *)
Lemma mean_bounds (flags : list bool) : (0 <= Pandas.mean flags <= 1)%Q.
Proof.
  unfold Pandas.mean.
  assert (H : (0 <= Q_of_nat (List.length (filter (fun b : bool => b) flags))
                    / Q_of_nat (List.length flags) <= 1)%Q).
  { destruct flags as [|b flags].
    - cbn. split; discriminate.
    - apply (fraction_bounds _ (List.length flags)).
      apply (filter_length_le (fun b : bool => b) (b :: flags)). }
  split.
  - apply Float64Facts.nearest_nonneg, H.
  - apply Float64Facts.nearest_le_one, H.
Qed.

Lemma groupby_mean_bounds (by_column : list string) (flags : list bool) :
  Forall (fun kr => (0 <= snd kr <= 1)%Q) (Pandas.groupby_mean by_column flags).
Proof.
  unfold Pandas.groupby_mean. apply Forall_map, Forall_forall.
  intros label _. apply mean_bounds.
Qed.

Lemma Qeq_bool_false_pos (m : Q) : (0 < m)%Q -> Qeq_bool m 0 = false.
Proof.
  intros Hpos. destruct (Qeq_bool m 0) eqn:E; [|reflexivity].
  apply Qeq_bool_iff in E. rewrite E in Hpos.
  exfalso. exact (Qlt_irrefl _ Hpos).
Qed.

(** The fields of a sub-report, one by one. *)
Lemma disparity_of_fields (rates : list (string * Q)) :
  let d := disparity_of rates in
  (forall M, max_rate d = Pandas.Num M -> is_max M (map snd rates))
  /\ (forall m, min_rate d = Pandas.Num m -> is_min m (map snd rates))
  /\ (forall m, min_rate d = Pandas.Num m -> (0 < m)%Q ->
      exists M, max_rate d = Pandas.Num M /\ ratio d = float_quotient M m)
  /\ (forall m, min_rate d = Pandas.Num m -> (m == 0)%Q ->
      ratio d = Pandas.PInf).
Proof.
  cbv zeta. unfold disparity_of, Pandas.series_max, Pandas.series_min.
  cbn [max_rate min_rate ratio].
  destruct (map snd rates) as [|x xs].
  - repeat split; discriminate.
  - split; [|split; [|split]].
    + intros M [= <-]. apply fold_max_spec.
    + intros m [= <-]. apply fold_min_spec.
    + intros m [= <-] Hpos. eexists. split; [reflexivity|].
      cbn [Pandas.gt Pandas.div].
      rewrite (proj2 (Qlt_bool_iff _ _) Hpos).
      rewrite (Qeq_bool_false_pos _ Hpos).
      unfold float_quotient, Float64.div, Float64.rounded.
      rewrite overflows_beyond. now destruct (beyond_floats _).
    + intros m [= <-] Hzero. cbn [Pandas.gt].
      assert (E : Qlt_bool 0 (fold_left Qmin xs x) = false).
      { apply Qlt_bool_false_iff. rewrite Hzero. apply Qle_refl. }
      now rewrite E.
Qed.

Lemma labels_In (column : list string) (label : string) :
  In label (Pandas.labels column) <-> In label column.
Proof.
  unfold Pandas.labels. rewrite <- (nodup_In string_dec column label).
  split; apply Permutation_in;
    [|apply Permutation_sym]; apply sort_by_perm.
Qed.

Lemma filter_group (rows : list (string * bool)) (label : string) :
  List.length (filter (fun b : bool => b) (Pandas.group rows label))
  = List.length
      (filter (fun row => String.eqb (fst row) label && snd row) rows)
  /\ List.length (Pandas.group rows label)
     = List.length (filter (fun row => String.eqb (fst row) label) rows).
Proof.
  unfold Pandas.group. split; [|apply length_map].
  induction rows as [|[l b] rows IH]; [reflexivity|].
  cbn [filter fst snd]. destruct (String.eqb l label); cbn [andb map filter snd];
    [destruct b; cbn [List.length]; now rewrite IH | exact IH].
Qed.

(** The mean of a group is the rate of the group. *)
Lemma mean_group (rows : list (string * bool)) (label : string) :
  Pandas.mean (Pandas.group rows label) = group_rate rows label.
Proof.
  unfold Pandas.mean, group_rate.
  destruct (filter_group rows label) as [-> ->]. reflexivity.
Qed.

(** The rates of [groupby] are the rates of the groups of the column. *)
Lemma groupby_mean_rates (by_column : list string) (flags : list bool) :
  let rows := combine by_column flags in
  Pandas.groupby_mean by_column flags
  = map (fun label => (label, group_rate rows label))
        (Pandas.labels (map fst rows)).
Proof.
  cbv zeta. unfold Pandas.groupby_mean. apply map_ext.
  intros label. now rewrite mean_group.
Qed.

Lemma rate_In (by_column : list string) (flags : list bool) (x : Q) :
  let rows := combine by_column flags in
  In x (map snd (Pandas.groupby_mean by_column flags))
  <-> exists label, In label (map fst rows) /\ x = group_rate rows label.
Proof.
  cbv zeta. rewrite groupby_mean_rates, map_map. cbn [snd].
  rewrite in_map_iff. split.
  - intros [label [<- Hin]]. exists label.
    split; [now apply labels_In | reflexivity].
  - intros [label [Hin ->]]. exists label.
    split; [reflexivity | now apply labels_In].
Qed.

(** The sub-report of a column, from the rows of the batch. *)
Lemma disparity_of_ratio (by_column : list string) (flags : list bool) :
  ratio_of_rates (disparity_of (Pandas.groupby_mean by_column flags))
                 (combine by_column flags).
Proof.
  pose proof (rate_In by_column flags) as Hin. cbv zeta in Hin.
  pose proof (groupby_mean_bounds by_column flags) as Hb.
  pose proof (disparity_of_fields (Pandas.groupby_mean by_column flags))
    as [Hmax [Hmin [Hratio Hinf]]].
  cbv zeta in Hmax, Hmin, Hratio, Hinf.
  set (rates := Pandas.groupby_mean by_column flags) in *.
  unfold ratio_of_rates.
  destruct (combine by_column flags) as [|row rows] eqn:Erows.
  - assert (E : map snd rates = []).
    { destruct (map snd rates) as [|x xs] eqn:E; [reflexivity|].
      destruct (proj1 (Hin x) (or_introl eq_refl)) as [label [[] _]]. }
    unfold disparity_of, Pandas.series_max, Pandas.series_min.
    cbn [max_rate min_rate ratio]. rewrite E. repeat split.
  - assert (E : exists x xs, map snd rates = x :: xs).
    { destruct (map snd rates) as [|x xs] eqn:E; [|now exists x, xs].
      exfalso. apply (in_nil (a := group_rate (row :: rows) (fst row))).
      apply Hin. exists (fst row). split; [now left | reflexivity]. }
    destruct E as [x [xs E]].
    assert (Em : min_rate (disparity_of rates)
                 = Pandas.Num (fold_left Qmin xs x)).
    { unfold disparity_of, Pandas.series_min. cbn [min_rate]. now rewrite E. }
    assert (EM : max_rate (disparity_of rates)
                 = Pandas.Num (fold_left Qmax xs x)).
    { unfold disparity_of, Pandas.series_max. cbn [max_rate]. now rewrite E. }
    destruct (Hmin _ Em) as [Hlb [xm [Hxm Exm]]].
    destruct (Hmax _ EM) as [Hub [xM [HxM ExM]]].
    eexists. eexists. split; [exact Em|]. split; [exact EM|].
    split; [|split; [|split; [|split]]].
    + split.
      * intros label Hlabel. apply Hlb, Hin. now exists label.
      * apply Hin in Hxm. destruct Hxm as [label [Hlabel ->]].
        now exists label.
    + split.
      * intros label Hlabel. apply Hub, Hin. now exists label.
      * apply Hin in HxM. destruct HxM as [label [Hlabel ->]].
        now exists label.
    + rewrite <- Exm. apply in_map_iff in Hxm.
      destruct Hxm as [kr [<- Hkr]].
      rewrite Forall_forall in Hb. now apply Hb.
    + intros Hpos. destruct (Hratio _ Em Hpos) as [M [HM ->]].
      rewrite EM in HM. now injection HM as <-.
    + apply Hinf, Em.
Qed.

Lemma gt_iff (r : Pandas.float64) (k : Q) :
  Pandas.gt r k = true <-> strictly_above r k.
Proof.
  destruct r; cbn; [apply Qlt_bool_iff | tauto | split; [discriminate | tauto]].
Qed.

(** The quotient of a float by itself is 1. *)
Lemma float_quotient_same (M m : Q) :
  (M == m)%Q -> (0 < m)%Q ->
  exists x, float_quotient M m = Pandas.Num x /\ (x == 1)%Q.
Proof.
  intros E Hpos.
  assert (H1 : (M / m == 1)%Q).
  { rewrite E. unfold Qdiv. apply Qmult_inv_r.
    intros Hm. rewrite Hm in Hpos. exact (Qlt_irrefl _ Hpos). }
  unfold float_quotient. rewrite <- overflows_beyond.
  unfold Float64.overflows.
  rewrite (Float64Facts.nearest_eq _ _ H1).
  eexists. split; [reflexivity|]. vm_compute. reflexivity.
Qed.

(** With one rate for all groups, the ratio is a number equal to 1. *)
Lemma disparity_of_uniform (by_column : list string) (flags : list bool) :
  uniform_rate (combine by_column flags) ->
  exists x,
    ratio (disparity_of (Pandas.groupby_mean by_column flags)) = Pandas.Num x
    /\ (x == 1)%Q.
Proof.
  intros [Hne [r [Hpos Hall]]].
  pose proof (disparity_of_ratio by_column flags) as H.
  unfold ratio_of_rates in H.
  destruct (combine by_column flags) as [|row rows]; [congruence|].
  destruct H as [m [M [_ [_ [[_ [lm [Hlm Em]]] [[_ [lM [HlM EM]]] [_ [H _]]]]]]]].
  assert (Hm : (m == r)%Q) by (rewrite <- Em; now apply Hall).
  assert (HM : (M == r)%Q) by (rewrite <- EM; now apply Hall).
  assert (Hmpos : (0 < m)%Q) by now rewrite Hm.
  rewrite (H Hmpos).
  apply float_quotient_same; [now rewrite HM, Hm | exact Hmpos].
Qed.

Lemma not_above_one (x k : Q) :
  (x == 1)%Q -> (1 < k)%Q -> Pandas.gt (Pandas.Num x) k = false.
Proof.
  intros Ex Hk. cbn. apply Qlt_bool_false_iff. rewrite Ex.
  now apply Qlt_le_weak.
Qed.

(** C7: for a batch with outlier flags, each grouping field that is present
    gets a sub-report.  The rate of a group is the number of its outliers
    over the number of its claims.  When the batch has claims, the rates of
    the sub-report are the least and the greatest group rate, and its ratio
    is their quotient as floats divide when the least rate is positive,
    positive infinity when it is zero; for a batch without claims the rates
    are NaN and the ratio is infinite.  The state alert is emitted exactly
    when the state ratio is strictly above 2.0 and the provider alert
    exactly when the provider ratio is strictly above 3.0; when the groups
    of every present dimension share one nonzero rate, the ratios are 1 and
    there is no alert. *)
Theorem fairness_ratio_and_alerts
  (claims_df : Pandas.DataFrame) (flags : list bool) :
  Pandas.is_outlier claims_df = Some flags ->
  let fairness_report := check_demographic_fairness claims_df in
  let alerts := generate_disparity_alerts fairness_report in
  let state_ratio := ratio_or_one (state_disparities fairness_report) in
  let provider_ratio := ratio_or_one (provider_disparities fairness_report) in
  (forall states,
      Pandas.patient_state claims_df = Some states ->
      exists d, state_disparities fairness_report = Some d
                /\ ratio_of_rates d (combine states flags))
  /\ (forall providers,
         Pandas.provider_name claims_df = Some providers ->
         exists d, provider_disparities fairness_report = Some d
                   /\ ratio_of_rates d (combine providers flags))
  /\ (exists state_breach provider_breach : bool,
         (state_breach = true <-> strictly_above state_ratio 2)
         /\ (provider_breach = true <-> strictly_above provider_ratio 3)
         /\ alerts = (when state_breach (state_alert state_ratio)
                      ++ when provider_breach (provider_alert provider_ratio))%list)
  /\ (uniform_dimension (Pandas.patient_state claims_df) flags ->
      uniform_dimension (Pandas.provider_name claims_df) flags ->
      alerts = []
      /\ (exists x, state_ratio = Pandas.Num x /\ (x == 1)%Q)
      /\ (exists x, provider_ratio = Pandas.Num x /\ (x == 1)%Q)).
Proof.
  intros Hflags. cbv zeta.
  unfold check_demographic_fairness. rewrite Hflags.
  cbn [state_disparities provider_disparities].
  split; [|split; [|split]].
  - intros states ->. eexists. split; [reflexivity|].
    apply disparity_of_ratio.
  - intros providers ->. eexists. split; [reflexivity|].
    apply disparity_of_ratio.
  - unfold generate_disparity_alerts. cbv zeta.
    cbn [state_disparities provider_disparities].
    set (state_ratio := ratio_or_one _).
    set (provider_ratio := ratio_or_one _).
    exists (Pandas.gt state_ratio 2), (Pandas.gt provider_ratio 3).
    split; [apply gt_iff|]. split; [apply gt_iff|].
    destruct (Pandas.gt state_ratio 2), (Pandas.gt provider_ratio 3);
      reflexivity.
  - intros Hstate Hprovider.
    assert (Hs : exists x,
               ratio_or_one
                 match Pandas.patient_state claims_df with
                 | Some states =>
                     Some (disparity_of (Pandas.groupby_mean states flags))
                 | None => None
                 end = Pandas.Num x /\ (x == 1)%Q).
    { destruct (Pandas.patient_state claims_df) as [states|]; cbn in *.
      - now apply disparity_of_uniform.
      - exists 1%Q. split; reflexivity. }
    assert (Hp : exists x,
               ratio_or_one
                 match Pandas.provider_name claims_df with
                 | Some providers =>
                     Some (disparity_of (Pandas.groupby_mean providers flags))
                 | None => None
                 end = Pandas.Num x /\ (x == 1)%Q).
    { destruct (Pandas.provider_name claims_df) as [providers|]; cbn in *.
      - now apply disparity_of_uniform.
      - exists 1%Q. split; reflexivity. }
    split; [|split; assumption].
    unfold generate_disparity_alerts. cbv zeta.
    cbn [state_disparities provider_disparities].
    destruct Hs as [xs [-> Exs]], Hp as [xp [-> Exp]].
    rewrite (not_above_one xs 2 Exs), (not_above_one xp 3 Exp);
      reflexivity.
Qed.

(** [sample_frame] instantiates [fairness_ratio_and_alerts].  The state TX
    has no outlier: the least state rate is 0, the state ratio is infinite.
    The provider rates are the floats of 5/7 and 5/21, whose quotient as
    floats is 3.0000000000000004, strictly above 3.0.  Both alerts are
    emitted. *)
Lemma fairness_ratio_and_alerts_witness :
  Pandas.is_outlier sample_frame
  = Some (copies 5 true ++ copies 2 false
          ++ copies 5 true ++ copies 2 false ++ copies 14 false)%list
  /\ generate_disparity_alerts (check_demographic_fairness sample_frame)
     = [ "HIGH DISPARITY: State outlier rates vary by infx";
         "HIGH DISPARITY: Provider outlier rates vary by 3.00x" ]
  /\ (exists d,
         state_disparities (check_demographic_fairness sample_frame) = Some d
         /\ ratio d = Pandas.PInf)
  /\ (exists d,
         provider_disparities (check_demographic_fairness sample_frame) = Some d
         /\ ratio d = Pandas.Num (6755399441055745 # 2251799813685248)
         /\ (3 < 6755399441055745 # 2251799813685248)%Q)
  /\ exists d,
      provider_disparities (check_demographic_fairness sample_frame) = Some d
      /\ ratio_of_rates d
           (combine
              (copies 7 "a" ++ copies 21 "b")%list
              (copies 5 true ++ copies 2 false
               ++ copies 5 true ++ copies 2 false ++ copies 14 false)%list).
Proof.
  split; [reflexivity|]. split; [vm_compute; reflexivity|].
  split; [eexists; split; vm_compute; reflexivity|].
  split; [eexists; split; [|split]; vm_compute; reflexivity|].
  exact (proj1 (proj2 (fairness_ratio_and_alerts sample_frame _ eq_refl))
           _ eq_refl).
Defined.

(** A frame whose groups share one nonzero rate: the ratio is 1, and no
    alert is emitted. *)
Example uniform_frame_no_alert :
  uniform_dimension (Pandas.patient_state uniform_frame)
    (copies 5 true ++ copies 2 false ++ copies 5 true ++ copies 2 false)%list
  /\ (exists x,
         ratio_or_one
           (state_disparities (check_demographic_fairness uniform_frame))
         = Pandas.Num x
         /\ (x == 1)%Q)
  /\ generate_disparity_alerts (check_demographic_fairness uniform_frame) = [].
Proof.
  split; [|split; [eexists; split|]; vm_compute; reflexivity].
  split; [discriminate|].
  exists (Float64.nearest (5 # 7)).
  split; [vm_compute; reflexivity|].
  intros label Hin. cbn in Hin.
  repeat (destruct Hin as [<-|Hin]; [vm_compute; reflexivity|]).
  contradiction.
Qed.

(* ================================================================= *)
(** ** Further properties of the class *)

(** *** The rule engine, rule by rule *)

Lemma eq_str_refl (s : string) : eq_str (VStr s) s = true.
Proof. apply String.eqb_refl. Qed.

Lemma in_strs_iff (v : value) (l : list string) :
  in_strs v l = true <-> exists s, v = VStr s /\ In s l.
Proof.
  unfold in_strs. rewrite existsb_exists. split.
  - intros [s [Hin E]]. exists s. split; [now apply eq_str_true | exact Hin].
  - intros [s [-> Hin]]. exists s. split; [exact Hin | apply eq_str_refl].
Qed.

Lemma is_unusual_combo_iff (procedure diagnosis : value) :
  is_unusual_combo procedure diagnosis = true
  <-> exists p d, procedure = VStr p /\ diagnosis = VStr d
                  /\ In (p, d) unusual_combos.
Proof.
  unfold is_unusual_combo. rewrite existsb_exists. split.
  - intros [[p d] [Hin E]]. apply andb_true_iff in E. destruct E as [Ep Ed].
    exists p, d. cbn in Ep, Ed.
    repeat split; [now apply eq_str_true | now apply eq_str_true | exact Hin].
  - intros [p [d [-> [-> Hin]]]]. exists (p, d). split; [exact Hin|].
    cbn [fst snd]. now rewrite !eq_str_refl.
Qed.

(** The default of a lookup only shows when the key is missing. *)
Lemma dict_get_default (d : dict) (k : string) (x y : value) :
  dict_get d k x = dict_get d k y
  \/ (dict_get d k x = x /\ dict_get d k y = y).
Proof.
  induction d as [|[k' v] d IH]; cbn; [now right|].
  destruct (String.eqb k' k); [now left | exact IH].
Qed.

(** X1: on a claim whose amount is a number that the rule engine can
    divide, UNUSUAL_COMBO activates exactly when the procedure and the
    diagnosis are strings that form one of the listed pairs; its activation
    then comes first in the list, with confidence High and a description
    naming both. *)
Theorem unusual_combo_rule (claim_data : dict) (a : Q) :
  as_number (amount_of claim_data) = Ok a ->
  engine_overflows claim_data a = false ->
  exists acts,
    evaluate_business_rules claim_data = Ok acts
    /\ (any_rule "UNUSUAL_COMBO" acts = true <->
        exists p d,
          get claim_data "procedure_type" = VStr p
          /\ get claim_data "diagnosis" = VStr d
          /\ In (p, d) unusual_combos)
    /\ (forall p d,
          get claim_data "procedure_type" = VStr p ->
          get claim_data "diagnosis" = VStr d ->
          In (p, d) unusual_combos ->
          exists act rest,
            acts = act :: rest
            /\ rule_id act = "UNUSUAL_COMBO"
            /\ confidence act = "High"
            /\ description act = "Unusual combination: " ++ p ++ " + " ++ d
            /\ any_rule "UNUSUAL_COMBO" rest = false).
Proof.
  intros Ha Hov. rewrite (evaluate_business_rules_parts _ _ Ha Hov). cbv zeta.
  eexists. split; [reflexivity|].
  set (combo := is_unusual_combo _ _).
  assert (Hany : forall b1 b2 x y,
             any_rule "UNUSUAL_COMBO"
               (only_if b1 (high_amount_record x a y)
                ++ only_if b2 (geographic_record (get claim_data "patient_state")))%list
             = false) by (intros [] [] x y; reflexivity).
  split.
  - rewrite <- is_unusual_combo_iff. fold combo.
    unfold any_rule. rewrite existsb_app. fold (any_rule "UNUSUAL_COMBO").
    change (existsb _ ?l) with (any_rule "UNUSUAL_COMBO" l). rewrite Hany.
    destruct combo; cbn; split; congruence.
  - intros p d Hp Hd Hin.
    assert (Hc : combo = true).
    { apply is_unusual_combo_iff. now exists p, d. }
    rewrite Hc. cbn [only_if app]. eexists. eexists.
    split; [reflexivity|]. rewrite Hp, Hd. cbn [rule_id confidence description
      unusual_combo_record py_str].
    repeat split. apply Hany.
Qed.

(** [session_for_cold] instantiates [unusual_combo_rule]. *)
Lemma unusual_combo_rule_witness :
  as_number (amount_of session_for_cold) = Ok (inject_Z 200)
  /\ engine_overflows session_for_cold (inject_Z 200) = false
  /\ field (map rule_id) (evaluate_business_rules session_for_cold)
     = Ok ["UNUSUAL_COMBO"]
  /\ exists acts,
      evaluate_business_rules session_for_cold = Ok acts
      /\ (any_rule "UNUSUAL_COMBO" acts = true <->
          exists p d,
            get session_for_cold "procedure_type" = VStr p
            /\ get session_for_cold "diagnosis" = VStr d
            /\ In (p, d) unusual_combos).
Proof.
  split; [reflexivity|]. split; [reflexivity|]. split; [reflexivity|].
  destruct (unusual_combo_rule session_for_cold (inject_Z 200) eq_refl eq_refl)
    as [acts [Hev [Hiff _]]].
  exists acts. split; assumption.
Defined.

Lemma any_rule_app (rid : string) (l1 l2 : list activation) :
  any_rule rid (l1 ++ l2) = any_rule rid l1 || any_rule rid l2.
Proof. apply existsb_app. Qed.

(** X2: on a claim whose amount is a number that the rule engine can
    divide, GEOGRAPHIC_RESTRICTION activates exactly when the state is one
    of the strings WY, AK, MT, as written, and the procedure is Virtual
    Consultation; its activation has confidence High and names the state. *)
Theorem geographic_restriction_rule (claim_data : dict) (a : Q) :
  as_number (amount_of claim_data) = Ok a ->
  engine_overflows claim_data a = false ->
  exists acts,
    evaluate_business_rules claim_data = Ok acts
    /\ (any_rule "GEOGRAPHIC_RESTRICTION" acts = true <->
        (exists s, get claim_data "patient_state" = VStr s
                   /\ In s ["WY"; "AK"; "MT"])
        /\ get claim_data "procedure_type" = VStr "Virtual Consultation")
    /\ (forall act,
          In act acts -> rule_id act = "GEOGRAPHIC_RESTRICTION" ->
          confidence act = "High"
          /\ exists s,
              get claim_data "patient_state" = VStr s
              /\ description act
                 = "Virtual consultation from restricted state: " ++ s).
Proof.
  intros Ha Hov. rewrite (evaluate_business_rules_parts _ _ Ha Hov). cbv zeta.
  eexists. split; [reflexivity|].
  assert (Hcond : geographic_condition claim_data = true <->
                  (exists s, get claim_data "patient_state" = VStr s
                             /\ In s ["WY"; "AK"; "MT"])
                  /\ get claim_data "procedure_type" = VStr "Virtual Consultation").
  { unfold geographic_condition. rewrite andb_true_iff, in_strs_iff.
    split; intros [Hs Hp]; (split; [exact Hs|]).
    - now apply eq_str_true.
    - rewrite Hp. apply eq_str_refl. }
  split.
  - rewrite <- Hcond.
    now rewrite (proj2 (proj2 (any_rule_parts _ _ _ _ _ _ _ _ _))).
  - intros act Hin Hid. apply In_parts in Hin.
    destruct Hin as [[_ ->]|[[_ ->]|[Hg ->]]];
      [discriminate Hid | discriminate Hid |].
    split; [reflexivity|].
    destruct (proj1 Hcond Hg) as [[s [Hs _]] _].
    exists s. split; [exact Hs|]. now rewrite Hs.
Qed.

(** [consultation_from_wyoming] instantiates
    [geographic_restriction_rule]: the rule activates, and names WY. *)
Lemma geographic_restriction_rule_witness :
  as_number (amount_of consultation_from_wyoming) = Ok (inject_Z 100)
  /\ engine_overflows consultation_from_wyoming (inject_Z 100) = false
  /\ evaluate_business_rules consultation_from_wyoming
     = Ok [geographic_record (VStr "WY")]
  /\ exists acts,
      evaluate_business_rules consultation_from_wyoming = Ok acts
      /\ (any_rule "GEOGRAPHIC_RESTRICTION" acts = true <->
          (exists s, get consultation_from_wyoming "patient_state" = VStr s
                     /\ In s ["WY"; "AK"; "MT"])
          /\ get consultation_from_wyoming "procedure_type"
             = VStr "Virtual Consultation").
Proof.
  split; [reflexivity|]. split; [reflexivity|]. split; [reflexivity|].
  destruct (geographic_restriction_rule consultation_from_wyoming (inject_Z 100)
              eq_refl eq_refl)
    as [acts [Hev [Hiff _]]].
  exists acts. split; assumption.
Defined.

(** X3: the validator compares the state in upper case, the rule engine as
    written.  A Virtual Consultation with an amount in bounds, from a state
    whose upper-case form is restricted, is valid without errors, and
    GEOGRAPHIC_RESTRICTION activates only when the state is written in
    capitals. *)
Theorem geographic_restriction_needs_capitals
  (claim_data : dict) (a : Q) (s : string) :
  as_number (amount_of claim_data) = Ok a ->
  (1 <= a <= 10000)%Q ->
  state_of claim_data = VStr s ->
  get claim_data "procedure_type" = VStr "Virtual Consultation" ->
  In (upper s) restricted_states ->
  validate_claim_data claim_data = Ok {| valid := true; errors := [] |}
  /\ exists acts,
      evaluate_business_rules claim_data = Ok acts
      /\ (any_rule "GEOGRAPHIC_RESTRICTION" acts = true <-> s = upper s).
Proof.
  intros Ha Hbounds Hs Hp Hup. split.
  - rewrite (validate_claim_data_checks _ _ _ Ha Hs). cbv zeta. rewrite Hp.
    assert (Ea : amount_out_of_bounds a = false).
    { apply not_true_iff_false. rewrite amount_out_of_bounds_iff. tauto. }
    assert (Es : state_unknown (upper s) = false).
    { destruct Hup as [<-|[<-|[<-|[]]]]; reflexivity. }
    rewrite Ea, Es. reflexivity.
  - rewrite (evaluate_business_rules_parts _ _ Ha
               (engine_in_bounds _ _ (bounds_abs _ Hbounds))). cbv zeta.
    eexists. split; [reflexivity|].
    rewrite (proj2 (proj2 (any_rule_parts _ _ _ _ _ _ _ _ _))).
    assert (Hget : get claim_data "patient_state" = VStr s).
    { destruct (dict_get_default claim_data "patient_state"
                  VNone (VStr EmptyString)) as [E|[_ E]].
      - unfold get. rewrite E. exact Hs.
      - unfold state_of in Hs. rewrite E in Hs. injection Hs as <-.
        cbn in Hup. intuition discriminate. }
    unfold geographic_condition. rewrite Hget, Hp, eq_str_refl, andb_true_r.
    rewrite in_strs_iff. split.
    + intros [s' [[= <-] Hin]].
      destruct Hin as [<-|[<-|[<-|[]]]]; reflexivity.
    + intros E. exists s. split; [reflexivity|]. rewrite E. exact Hup.
Qed.

(** [wyoming_lower_case] instantiates
    [geographic_restriction_needs_capitals]: valid, and not flagged. *)
Lemma geographic_restriction_needs_capitals_witness :
  as_number (amount_of wyoming_lower_case) = Ok (inject_Z 100)
  /\ state_of wyoming_lower_case = VStr "wy"
  /\ In (upper "wy") restricted_states
  /\ validate_claim_data wyoming_lower_case
     = Ok {| valid := true; errors := [] |}
  /\ evaluate_business_rules wyoming_lower_case = Ok [].
Proof.
  split; [reflexivity|]. split; [reflexivity|].
  split; [now left|].
  assert (Hb : (1 <= inject_Z 100 <= 10000)%Q) by (split; discriminate).
  split; [|reflexivity].
  exact (proj1 (geographic_restriction_needs_capitals
                  wyoming_lower_case (inject_Z 100) "wy"
                  eq_refl Hb eq_refl eq_refl (or_introl eq_refl))).
Defined.

(** *** The aggregator *)

Lemma any_rule_In (rid : string) (acts : list activation) :
  any_rule rid acts = true <-> In rid (map rule_id acts).
Proof.
  unfold any_rule. rewrite existsb_exists, in_map_iff. split.
  - intros [act [Hin E]]. exists act. apply String.eqb_eq in E. now split.
  - intros [act [E Hin]]. exists act. split; [exact Hin|].
    now apply String.eqb_eq.
Qed.

Lemma any_rule_same_ids (rid : string) (acts1 acts2 : list activation) :
  (In rid (map rule_id acts1) <-> In rid (map rule_id acts2)) ->
  any_rule rid acts1 = any_rule rid acts2.
Proof.
  intros H. rewrite <- !any_rule_In in H.
  destruct (any_rule rid acts1), (any_rule rid acts2); intuition congruence.
Qed.

(** X4: the decision pathway and the recommendations depend only on which
    of the three rule ids occur among the activations: not on their order,
    their number, their other fields or activations of other ids. *)
Theorem aggregation_depends_on_rule_ids (acts1 acts2 : list activation) :
  (forall rid, In rid RULE_ORDER ->
     (In rid (map rule_id acts1) <-> In rid (map rule_id acts2))) ->
  trace_decision_pathway acts1 = trace_decision_pathway acts2
  /\ generate_recommendations acts1 = generate_recommendations acts2.
Proof.
  intros H. unfold trace_decision_pathway, generate_recommendations.
  rewrite (any_rule_same_ids "UNUSUAL_COMBO" acts1 acts2),
    (any_rule_same_ids "HIGH_AMOUNT" acts1 acts2),
    (any_rule_same_ids "GEOGRAPHIC_RESTRICTION" acts1 acts2);
    [split; reflexivity | | |]; apply H; cbn; tauto.
Qed.

(** [repeated_activations] and the two rules once each, in the order of
    the engine, instantiate [aggregation_depends_on_rule_ids]. *)
Lemma aggregation_depends_on_rule_ids_witness :
  trace_decision_pathway repeated_activations
  = trace_decision_pathway [high_amount_500; geographic_record (VStr "MT")]
  /\ trace_decision_pathway repeated_activations
     = [ "Supporting factor: Abnormally high claim amount";
         "Geographic constraint violation" ].
Proof.
  split; [|reflexivity].
  apply (aggregation_depends_on_rule_ids
           repeated_activations
           [high_amount_500; geographic_record (VStr "MT")]).
  intros rid _. cbn. tauto.
Defined.

(** X5: for every list of activations the pathway and the recommendations
    have the same length, at most three, without repeated lines; they are
    empty exactly when no activation carries one of the three rule ids:
    an activation of another id adds nothing. *)
Theorem aggregation_bounds (acts : list activation) :
  let pathway := trace_decision_pathway acts in
  let recs := generate_recommendations acts in
  List.length pathway = List.length recs
  /\ (List.length pathway <= 3)%nat
  /\ NoDup pathway /\ NoDup recs
  /\ (pathway = [] <->
      Forall (fun act => ~ In (rule_id act) RULE_ORDER) acts).
Proof.
  cbv zeta. unfold trace_decision_pathway, generate_recommendations.
  assert (Hnone : (any_rule "UNUSUAL_COMBO" acts = false
                   /\ any_rule "HIGH_AMOUNT" acts = false
                   /\ any_rule "GEOGRAPHIC_RESTRICTION" acts = false)
                  <-> Forall (fun act => ~ In (rule_id act) RULE_ORDER) acts).
  { rewrite Forall_forall, <- !not_true_iff_false, !any_rule_In.
    unfold RULE_ORDER. split.
    - intros [H1 [H2 H3]] act Hin [E|[E|[E|[]]]];
        [apply H1 | apply H2 | apply H3]; rewrite E; now apply in_map.
    - intros H. repeat split; intros Hin; apply in_map_iff in Hin;
        destruct Hin as [act [E Hin]]; apply (H act Hin); rewrite E;
        cbn; tauto. }
  rewrite <- Hnone.
  destruct (any_rule "UNUSUAL_COMBO" acts), (any_rule "HIGH_AMOUNT" acts),
    (any_rule "GEOGRAPHIC_RESTRICTION" acts);
    cbn [append app List.length];
    (split; [reflexivity|]); (split; [lia|]);
    (split; [distinct_strings|]); (split; [distinct_strings|]);
    split; intros H; try discriminate H; try tauto;
    destruct H as [H1 [H2 H3]]; discriminate.
Qed.

(** X6: on a claim whose amount is a number that the rule engine can
    divide, the report's pathway and recommendations have one line per
    activation of the rule engine, in the order of the activations. *)
Theorem aggregation_follows_activations (claim_data : dict) (a : Q) :
  as_number (amount_of claim_data) = Ok a ->
  engine_overflows claim_data a = false ->
  exists acts,
    evaluate_business_rules claim_data = Ok acts
    /\ trace_decision_pathway acts = map pathway_line (map rule_id acts)
    /\ generate_recommendations acts
       = map recommendation_line (map rule_id acts).
Proof.
  intros Ha Hov. rewrite (evaluate_business_rules_parts _ _ Ha Hov). cbv zeta.
  eexists. split; [reflexivity|].
  destruct (is_unusual_combo _ _), (exceeds a _),
    (geographic_condition claim_data); split; reflexivity.
Qed.

(** [session_for_cold] instantiates [aggregation_follows_activations]. *)
Lemma aggregation_follows_activations_witness :
  as_number (amount_of session_for_cold) = Ok (inject_Z 200)
  /\ engine_overflows session_for_cold (inject_Z 200) = false
  /\ exists acts,
      evaluate_business_rules session_for_cold = Ok acts
      /\ trace_decision_pathway acts = map pathway_line (map rule_id acts).
Proof.
  split; [reflexivity|]. split; [reflexivity|].
  destruct (aggregation_follows_activations session_for_cold (inject_Z 200)
              eq_refl eq_refl) as [acts [Hev [Hpath _]]].
  exists acts. split; assumption.
Defined.

(** *** Confidence levels *)

Lemma Qle_bool_fraction (c : Z) (h n : nat) :
  Qle_bool (c # 10) (Q_of_nat h / Q_of_nat (S n)) = true
  <-> c * Z.of_nat (S n) <= 10 * Z.of_nat h.
Proof.
  rewrite Qle_bool_iff.
  unfold Q_of_nat, Qdiv, Qmult, Qinv, Qle, inject_Z.
  cbn [Qnum Qden Z.of_nat]. lia.
Qed.

(** X7: the level of the assessment, with [h] High activations out of
    [t]: High exactly when [t] is not zero and [7 t <= 10 h]; Medium
    exactly when [4 t <= 10 h < 7 t]; Low exactly when [t] is zero or
    [10 h < 4 t]. *)
Theorem assess_confidence_level (acts : list activation) :
  let h := high_count acts in
  let t := List.length acts in
  let lv := level (assess_confidence acts) in
  (lv = "High" <-> t <> O /\ (7 * t <= 10 * h)%nat)
  /\ (lv = "Medium" <-> (4 * t <= 10 * h)%nat /\ (10 * h < 7 * t)%nat)
  /\ (lv = "Low" <-> t = O \/ (10 * h < 4 * t)%nat).
Proof.
  cbv zeta. unfold assess_confidence, high_count.
  change (fun rule => (confidence rule =? "High")%string) with is_high.
  set (h := List.length (filter is_high acts)).
  assert (Hh : (h <= List.length acts)%nat) by apply filter_length_le.
  destruct (List.length acts) as [|n] eqn:Et.
  - cbn. repeat split; try discriminate; try lia; auto.
  - cbn [Nat.eqb level].
    pose proof (Qle_bool_fraction 7 h n) as H7.
    pose proof (Qle_bool_fraction 4 h n) as H4.
    destruct (Qle_bool (7 # 10) _) eqn:E7;
      [|destruct (Qle_bool (4 # 10) _) eqn:E4];
      repeat match goal with
             | H : true = true <-> _ |- _ => pose proof (proj1 H eq_refl); clear H
             | H : false = true <-> ?P |- _ =>
                 assert (~ P) by (intros HP; apply H in HP; discriminate);
                 clear H
             end;
      repeat split; intros;
      repeat match goal with
             | H : _ /\ _ |- _ => destruct H
             | H : _ \/ _ |- _ => destruct H
             end;
      try discriminate; try lia; try (right; lia).
Qed.

(** X8: on a claim whose amount is a number that the rule engine can
    divide, the level of the rule engine's activations is Low when none is
    High (no activation, or HIGH_AMOUNT alone with confidence Medium), High
    when all are, and Medium when HIGH_AMOUNT is Medium beside another
    rule. *)
Theorem engine_confidence_level (claim_data : dict) (a : Q) :
  as_number (amount_of claim_data) = Ok a ->
  engine_overflows claim_data a = false ->
  exists acts,
    evaluate_business_rules claim_data = Ok acts
    /\ level (assess_confidence acts)
       = (if negb (existsb is_high acts) then "Low"
          else if forallb is_high acts then "High"
          else "Medium").
Proof.
  intros Ha Hov. rewrite (evaluate_business_rules_parts _ _ Ha Hov). cbv zeta.
  eexists. split; [reflexivity|].
  unfold high_amount_record, is_high.
  destruct (is_unusual_combo _ _), (exceeds a (norms_get _)),
    (geographic_condition claim_data), (exceeds a (times _ _));
    reflexivity.
Qed.

(** [consultation_500] instantiates [engine_confidence_level]: Low. *)
Lemma engine_confidence_level_witness :
  as_number (amount_of consultation_500) = Ok (inject_Z 500)
  /\ engine_overflows consultation_500 (inject_Z 500) = false
  /\ level (assess_confidence [high_amount_500]) = "Low"
  /\ exists acts,
      evaluate_business_rules consultation_500 = Ok acts
      /\ level (assess_confidence acts)
         = (if negb (existsb is_high acts) then "Low"
            else if forallb is_high acts then "High"
            else "Medium").
Proof.
  split; [reflexivity|]. split; [reflexivity|]. split; [reflexivity|].
  exact (engine_confidence_level consultation_500 (inject_Z 500)
           eq_refl eq_refl).
Defined.

(** *** Feature analysis *)

Lemma assoc_map {A B : Type} (f : A -> B) (k : value) (table : list (string * A)) :
  assoc k (map (fun entry => (fst entry, f (snd entry))) table)
  = option_map f (assoc k table).
Proof.
  induction table as [|[k' x] table IH]; cbn; [reflexivity|].
  destruct (eq_str k k'); [reflexivity | exact IH].
Qed.

(** The threshold of the rule engine is the [max_normal] of the norms. *)
Lemma norms_get_max_normal (procedure : value) :
  norms_get procedure
  = match assoc procedure feature_procedure_norms with
    | Some nrm => Finite (Int (max_normal nrm))
    | None => Infinity
    end.
Proof.
  unfold norms_get. rewrite <- procedure_norms_max_normal, assoc_map.
  now destruct (assoc procedure feature_procedure_norms).
Qed.

Lemma in_strs_app (v : value) (l1 l2 : list string) :
  in_strs v (l1 ++ l2) = in_strs v l1 || in_strs v l2.
Proof. apply existsb_app. Qed.

Lemma category_of_cases (diagnosis : value) :
  let category := category_of diagnosis diagnosis_categories in
  (category = "Mental Health" <->
   in_strs diagnosis mental_health_diagnoses = true)
  /\ (category = "Physical" <-> in_strs diagnosis physical_diagnoses = true)
  /\ (category = "Unknown" <->
      in_strs diagnosis (mental_health_diagnoses ++ physical_diagnoses) = false).
Proof.
  cbv zeta. unfold diagnosis_categories. cbn [category_of].
  fold mental_health_diagnoses physical_diagnoses.
  rewrite in_strs_app.
  destruct (in_strs diagnosis mental_health_diagnoses) eqn:Em.
  - apply in_strs_iff in Em. destruct Em as [s [-> Hin]].
    assert (Ep : in_strs (VStr s) physical_diagnoses = false)
      by (destruct Hin as [<-|[<-|[<-|[]]]]; reflexivity).
    rewrite Ep. cbn [orb].
    repeat split; intros H; try reflexivity; discriminate H.
  - destruct (in_strs diagnosis physical_diagnoses); cbn [orb];
      repeat split; intros H; try reflexivity; discriminate H.
Qed.

(** The diagnosis category and the procedure analysis of an answer. *)
Lemma analyze_claim_features_answer (claim_data : dict) (fa : features) :
  analyze_claim_features claim_data = Ok fa ->
  diagnosis_category (diagnosis_analysis fa)
  = category_of (get claim_data "diagnosis") diagnosis_categories
  /\ (procedure_analysis fa = None <->
      assoc (get claim_data "procedure_type") feature_procedure_norms = None).
Proof.
  unfold analyze_claim_features. cbv zeta.
  destruct (assoc (get claim_data "procedure_type") feature_procedure_norms)
    as [nrm|].
  - destruct (as_number _) as [a|e]; cbn [bind]; [|discriminate].
    destruct (if 0 <? std nrm then _ else _) as [deviation|e]; cbn [bind];
      [|discriminate].
    intros [= <-]. cbn. split; [reflexivity | split; discriminate].
  - cbn [bind]. intros [= <-]. cbn. split; [reflexivity | tauto].
Qed.

(** X9: the feature analysis raises only when the procedure has norms:
    a TypeError when the amount is not a number, an OverflowError when it
    is an int whose deviation is beyond the floats.  A procedure without
    norms gives an empty procedure analysis whatever the amount is.  The
    diagnosis category is Mental Health or Physical exactly for the strings
    of these lists, Unknown for everything else. *)
Theorem analyze_claim_features_outcome (claim_data : dict) :
  let procedure := get claim_data "procedure_type" in
  let diagnosis := get claim_data "diagnosis" in
  match analyze_claim_features claim_data with
  | Ok fa =>
      (procedure_analysis fa = None <->
       in_strs procedure (map fst feature_procedure_norms) = false)
      /\ (diagnosis_category (diagnosis_analysis fa) = "Mental Health" <->
          in_strs diagnosis mental_health_diagnoses = true)
      /\ (diagnosis_category (diagnosis_analysis fa) = "Physical" <->
          in_strs diagnosis physical_diagnoses = true)
      /\ (diagnosis_category (diagnosis_analysis fa) = "Unknown" <->
          in_strs diagnosis (mental_health_diagnoses ++ physical_diagnoses)
          = false)
  | Raise e =>
      in_strs procedure (map fst feature_procedure_norms) = true
      /\ ((e = TypeError
           /\ as_number (amount_of claim_data) = Raise TypeError)
          \/ (e = OverflowError
              /\ exists a,
                  as_number (amount_of claim_data) = Ok a
                  /\ analysis_overflows claim_data a = true))
  end.
Proof.
  cbv zeta.
  destruct (analyze_claim_features claim_data) as [fa|e] eqn:Hfa.
  - destruct (analyze_claim_features_answer _ _ Hfa) as [-> Hnone].
    rewrite Hnone, assoc_None_iff. split; [tauto|].
    apply category_of_cases.
  - pose proof (assoc_None_iff (get claim_data "procedure_type")
                  feature_procedure_norms) as Hnone.
    destruct (assoc (get claim_data "procedure_type") feature_procedure_norms)
      as [nrm|] eqn:Hn.
    + split.
      { destruct (in_strs _ (map fst feature_procedure_norms)); [reflexivity|].
        destruct Hnone as [_ Hnone]. discriminate (Hnone eq_refl). }
      destruct (as_number (amount_of claim_data)) as [a|e'] eqn:Ha.
      * right. destruct (analysis_overflows claim_data a) eqn:Hov.
        -- rewrite (analyze_claim_features_overflow _ _ Ha Hov) in Hfa.
           injection Hfa as <-. split; [reflexivity|]. now exists a.
        -- destruct (analyze_claim_features_known _ _ _ Ha Hn Hov)
             as [fa [Hok _]]. congruence.
      * left. pose proof (as_number_raise _ _ Ha) as ->.
        unfold analyze_claim_features in Hfa. cbv zeta in Hfa.
        fold (amount_of claim_data) in Hfa. rewrite Hn, Ha in Hfa.
        cbn [bind] in Hfa. injection Hfa as <-. now split.
    + unfold analyze_claim_features in Hfa. cbv zeta in Hfa.
      rewrite Hn in Hfa. discriminate Hfa.
Qed.

(** X10: for a claim whose amount is a number that the analysis and the
    rule engine can divide, and whose procedure has norms, the
    [threshold_violation] of the feature analysis and the activation of
    HIGH_AMOUNT by the rule engine agree. *)
Theorem threshold_violation_is_high_amount
  (claim_data : dict) (a : Q) (nrm : norm) :
  as_number (amount_of claim_data) = Ok a ->
  assoc (get claim_data "procedure_type") feature_procedure_norms = Some nrm ->
  analysis_overflows claim_data a = false ->
  engine_overflows claim_data a = false ->
  exists fa pr acts,
    analyze_claim_features claim_data = Ok fa
    /\ procedure_analysis fa = Some pr
    /\ evaluate_business_rules claim_data = Ok acts
    /\ threshold_violation pr = any_rule "HIGH_AMOUNT" acts.
Proof.
  intros Ha Hn Han Hen.
  destruct (analyze_claim_features_known _ _ _ Ha Hn Han) as [fa [Hfa Hpr]].
  destruct (evaluate_high_amount _ _ Ha Hen) as [acts [Hev Hany]].
  exists fa, (procedure_report_of (amount_of claim_data) a nrm), acts.
  repeat split; try assumption.
  rewrite Hany, norms_get_max_normal, Hn. reflexivity.
Qed.

(** [consultation_500] instantiates [threshold_violation_is_high_amount]. *)
Lemma threshold_violation_is_high_amount_witness :
  as_number (amount_of consultation_500) = Ok (inject_Z 500)
  /\ assoc (get consultation_500 "procedure_type") feature_procedure_norms
     = Some {| avg := 150; std := 45; max_normal := 450 |}
  /\ analysis_overflows consultation_500 (inject_Z 500) = false
  /\ engine_overflows consultation_500 (inject_Z 500) = false
  /\ exists fa pr acts,
      analyze_claim_features consultation_500 = Ok fa
      /\ procedure_analysis fa = Some pr
      /\ evaluate_business_rules consultation_500 = Ok acts
      /\ threshold_violation pr = any_rule "HIGH_AMOUNT" acts.
Proof.
  split; [reflexivity|]. split; [reflexivity|].
  split; [reflexivity|]. split; [reflexivity|].
  exact (threshold_violation_is_high_amount consultation_500 (inject_Z 500)
           _ eq_refl eq_refl eq_refl eq_refl).
Defined.

(** X11: for a claim whose amount is a number that the analysis can
    divide, and whose procedure has norms, [deviation_sigma] is the float
    nearest to (amount - avg) / std, the difference being exact for an int
    amount and itself rounded for a float amount; the threshold is violated
    exactly when the amount lies more than 20/3 standard deviations above
    the average: every [max_normal] lies 20/3 [std] above its [avg]. *)
Theorem threshold_violation_in_sigmas
  (claim_data : dict) (a : Q) (nrm : norm) :
  as_number (amount_of claim_data) = Ok a ->
  assoc (get claim_data "procedure_type") feature_procedure_norms = Some nrm ->
  analysis_overflows claim_data a = false ->
  exists fa pr,
    analyze_claim_features claim_data = Ok fa
    /\ procedure_analysis fa = Some pr
    /\ deviation_sigma pr
       = Float (Float64.nearest
                  (minus (amount_of claim_data) a (avg nrm)
                   / inject_Z (std nrm)))
    /\ (threshold_violation pr = true <->
        ((20 # 3) < (a - inject_Z (avg nrm)) / inject_Z (std nrm))%Q).
Proof.
  intros Ha Hn Hov.
  destruct (analyze_claim_features_known _ _ _ Ha Hn Hov) as [fa [Hfa Hpr]].
  exists fa, (procedure_report_of (amount_of claim_data) a nrm).
  split; [exact Hfa|]. split; [exact Hpr|].
  cbn [deviation_sigma threshold_violation procedure_report_of].
  rewrite Qlt_bool_iff.
  revert Hn. unfold feature_procedure_norms. cbn [assoc].
  repeat match goal with
         | |- context [eq_str ?p ?s] =>
             destruct (eq_str p s);
             [intros [= <-]; cbn [avg std max_normal Z.ltb Z.compare];
              split; [reflexivity|];
              unfold Qlt, Qdiv, Qminus, Qplus, Qopp, Qmult, Qinv, inject_Z;
              cbn [Qnum Qden]; lia |]
         end.
  discriminate.
Qed.

(** [consultation_500] instantiates [threshold_violation_in_sigmas]: its
    deviation, 350/45, is held as the float 7.777777777777778. *)
Lemma threshold_violation_in_sigmas_witness :
  as_number (amount_of consultation_500) = Ok (inject_Z 500)
  /\ assoc (get consultation_500 "procedure_type") feature_procedure_norms
     = Some {| avg := 150; std := 45; max_normal := 450 |}
  /\ analysis_overflows consultation_500 (inject_Z 500) = false
  /\ exists fa pr,
      analyze_claim_features consultation_500 = Ok fa
      /\ procedure_analysis fa = Some pr
      /\ deviation_sigma pr
         = Float (8756999275442631 # 1125899906842624)
      /\ threshold_violation pr = true.
Proof.
  split; [reflexivity|]. split; [reflexivity|]. split; [reflexivity|].
  destruct (threshold_violation_in_sigmas consultation_500 (inject_Z 500)
              _ eq_refl eq_refl eq_refl) as [fa [pr [Hfa [Hpr [Hsigma Hv]]]]].
  exists fa, pr. split; [exact Hfa|]. split; [exact Hpr|].
  split; [exact Hsigma|]. apply Hv. reflexivity.
Defined.

(** *** Counterfactuals and the report *)

Lemma analyze_claim_features_raise (claim_data : dict) (e : exn) :
  as_number (amount_of claim_data) = Raise e ->
  analyze_claim_features claim_data = Raise e
  \/ exists fa, analyze_claim_features claim_data = Ok fa.
Proof.
  intros Ha. unfold analyze_claim_features. cbv zeta.
  fold (amount_of claim_data). rewrite Ha.
  destruct (assoc _ feature_procedure_norms); cbn [bind];
    [now left | right; eexists; reflexivity].
Qed.

(** X12: the counterfactual generator raises only a TypeError, and only
    when the procedure has a counterfactual threshold and the amount is not
    a number; for any other procedure it returns no counterfactual without
    looking at the amount. *)
Theorem generate_counterfactuals_outcome (claim_data : dict) :
  let procedure := get claim_data "procedure_type" in
  match generate_counterfactuals claim_data with
  | Ok cfs =>
      (List.length cfs <= 1)%nat
      /\ (in_strs procedure (map fst procedure_thresholds) = false -> cfs = [])
  | Raise e =>
      e = TypeError
      /\ in_strs procedure (map fst procedure_thresholds) = true
      /\ as_number (amount_of claim_data) = Raise TypeError
  end.
Proof.
  cbv zeta. unfold generate_counterfactuals. cbv zeta.
  fold (amount_of claim_data).
  pose proof (assoc_None_iff (get claim_data "procedure_type")
                procedure_thresholds) as Hnone.
  destruct (assoc (get claim_data "procedure_type") procedure_thresholds)
    as [t|] eqn:Ht.
  - assert (Hin : in_strs (get claim_data "procedure_type")
                    (map fst procedure_thresholds) = true).
    { destruct (in_strs _ (map fst procedure_thresholds)); [reflexivity|].
      destruct Hnone as [_ Hnone]. discriminate (Hnone eq_refl). }
    rewrite Hin.
    destruct (t =? 0); [split; [cbn; lia | reflexivity]|].
    destruct (as_number (amount_of claim_data)) as [a|e] eqn:Ha; cbn [bind].
    + destruct (Qlt_bool _ _); cbn; split; (lia || discriminate).
    + assert (e = TypeError) as ->; [|now repeat split].
      destruct (amount_of claim_data); cbn in Ha; congruence.
  - split; [cbn; lia | reflexivity].
Qed.

(** X13: the interpretability report raises exactly when the amount of
    the claim is not a number, and then a TypeError, or is an int too large
    for the float division of the feature analysis or of the rule engine,
    and then an OverflowError, whatever the other fields are; otherwise its
    parts are the answers of the analysis functions on the same claim, and
    [similar_patterns] counts the similar claims. *)
Theorem generate_interpretability_report_outcome
  (claim_data : dict) (similar_claims : list dict) :
  match generate_interpretability_report claim_data similar_claims with
  | Ok r =>
      (exists a, as_number (amount_of claim_data) = Ok a
                 /\ analysis_overflows claim_data a = false
                 /\ engine_overflows claim_data a = false)
      /\ claim_id r = get claim_data "claim_id"
      /\ analyze_claim_features claim_data = Ok (feature_analysis r)
      /\ evaluate_business_rules claim_data = Ok (rules_activated r)
      /\ generate_counterfactuals claim_data = Ok (counterfactuals r)
      /\ decision_pathway r = trace_decision_pathway (rules_activated r)
      /\ confidence_assessment r = assess_confidence (rules_activated r)
      /\ recommendations r = generate_recommendations (rules_activated r)
      /\ similar_patterns r = List.length similar_claims
  | Raise e =>
      (e = TypeError /\ as_number (amount_of claim_data) = Raise TypeError)
      \/ (e = OverflowError
          /\ exists a,
              as_number (amount_of claim_data) = Ok a
              /\ (analysis_overflows claim_data a = true
                  \/ engine_overflows claim_data a = true))
  end.
Proof.
  destruct (as_number (amount_of claim_data)) as [a|e] eqn:Ha.
  - destruct (analysis_overflows claim_data a) eqn:Han.
    { rewrite (generate_interpretability_report_overflow _ _ _ Ha
                 (or_introl Han)).
      right. split; [reflexivity|]. exists a. split; [reflexivity | now left]. }
    destruct (engine_overflows claim_data a) eqn:Hen.
    { rewrite (generate_interpretability_report_overflow _ _ _ Ha
                 (or_intror Hen)).
      right. split; [reflexivity|]. exists a. split; [reflexivity | now right]. }
    unfold generate_interpretability_report.
    destruct (analyze_claim_features_returns _ _ Ha Han) as [fa ->].
    destruct (evaluate_high_amount _ _ Ha Hen) as [acts [-> _]].
    destruct (generate_counterfactuals_returns _ _ Ha) as [cfs ->].
    cbn. repeat split. now exists a.
  - pose proof (as_number_raise _ _ Ha) as ->.
    unfold generate_interpretability_report.
    destruct (analyze_claim_features_raise _ _ Ha) as [->|[fa ->]];
      cbn [bind]; [left; now split|].
    rewrite (evaluate_business_rules_raise _ _ Ha). left. now split.
Qed.

Lemma generate_counterfactuals_nonempty (claim_data : dict) (a : Q) :
  as_number (amount_of claim_data) = Ok a ->
  exists cfs,
    generate_counterfactuals claim_data = Ok cfs
    /\ (cfs <> [] <->
        exists t,
          assoc (get claim_data "procedure_type") procedure_thresholds = Some t
          /\ (inject_Z t < a)%Q).
Proof.
  intros Ha. unfold generate_counterfactuals. cbv zeta.
  fold (amount_of claim_data). rewrite Ha.
  destruct (assoc _ procedure_thresholds) as [t|] eqn:Ht.
  - destruct (procedure_thresholds_in_norms _ _ Ht) as [Hpos _].
    assert (Hnz : (t =? 0) = false) by (apply Z.eqb_neq; lia).
    rewrite Hnz. cbn [bind].
    destruct (Qlt_bool (inject_Z t) a) eqn:Hgt; eexists;
      (split; [reflexivity|]).
    + split; [|discriminate]. intros _. exists t.
      split; [reflexivity | now apply Qlt_bool_iff].
    + apply Qlt_bool_false_iff in Hgt. split; [congruence|].
      intros [t' [[= <-] Hlt]]. exfalso. exact (Qlt_not_le _ _ Hlt Hgt).
  - eexists. split; [reflexivity|]. split; [congruence|].
    intros [t [Et _]]. discriminate.
Qed.

(** X14: in the report of a claim whose amount is a number that the
    analysis and the rule engine can divide, a counterfactual is only given
    beside an activation of HIGH_AMOUNT, with its pathway line and its
    recommendation; and an activation of HIGH_AMOUNT comes with a
    counterfactual exactly for the procedures that have a counterfactual
    threshold. *)
Theorem counterfactual_only_with_high_amount
  (claim_data : dict) (a : Q) (similar_claims : list dict) :
  as_number (amount_of claim_data) = Ok a ->
  analysis_overflows claim_data a = false ->
  engine_overflows claim_data a = false ->
  exists r,
    generate_interpretability_report claim_data similar_claims = Ok r
    /\ (counterfactuals r <> [] ->
        any_rule "HIGH_AMOUNT" (rules_activated r) = true
        /\ In "Supporting factor: Abnormally high claim amount"
              (decision_pathway r)
        /\ In "Verify procedure coding and duration justification"
              (recommendations r))
    /\ (any_rule "HIGH_AMOUNT" (rules_activated r) = true ->
        (counterfactuals r <> [] <->
         in_strs (get claim_data "procedure_type")
                 (map fst procedure_thresholds) = true)).
Proof.
  intros Ha Han Hen. unfold generate_interpretability_report.
  destruct (analyze_claim_features_returns _ _ Ha Han) as [fa ->].
  destruct (evaluate_high_amount _ _ Ha Hen) as [acts [-> Hany]].
  destruct (generate_counterfactuals_nonempty _ _ Ha) as [cfs [-> Hcfs]].
  cbn [bind]. eexists. split; [reflexivity|].
  cbn [counterfactuals rules_activated decision_pathway recommendations].
  split.
  - intros Hne. apply Hcfs in Hne. destruct Hne as [t [Ht Hlt]].
    destruct (procedure_thresholds_in_norms _ _ Ht) as [_ Hnorm].
    assert (Hhigh : any_rule "HIGH_AMOUNT" acts = true).
    { rewrite Hany. unfold norms_get. rewrite Hnorm.
      now apply Qlt_bool_iff. }
    split; [exact Hhigh|].
    unfold trace_decision_pathway, generate_recommendations. rewrite Hhigh.
    destruct (any_rule "UNUSUAL_COMBO" acts),
      (any_rule "GEOGRAPHIC_RESTRICTION" acts); cbn; tauto.
  - intros Hhigh. rewrite Hcfs.
    rewrite Hany in Hhigh. unfold norms_get in Hhigh.
    pose proof (assoc_None_iff (get claim_data "procedure_type")
                  procedure_thresholds) as Hnone.
    destruct (assoc _ procedure_thresholds) as [t|] eqn:Ht.
    + destruct (procedure_thresholds_in_norms _ _ Ht) as [_ Hnorm].
      rewrite Hnorm in Hhigh. cbn in Hhigh. apply Qlt_bool_iff in Hhigh.
      split.
      * intros _. destruct (in_strs _ (map fst procedure_thresholds));
          [reflexivity|]. destruct Hnone as [_ Hnone].
        discriminate (Hnone eq_refl).
      * intros _. now exists t.
    + split.
      * intros [t [Et _]]. discriminate.
      * intros Hin. rewrite (proj1 Hnone eq_refl) in Hin. discriminate.
Qed.

(** [consultation_500] instantiates [counterfactual_only_with_high_amount]. *)
Lemma counterfactual_only_with_high_amount_witness :
  as_number (amount_of consultation_500) = Ok (inject_Z 500)
  /\ analysis_overflows consultation_500 (inject_Z 500) = false
  /\ engine_overflows consultation_500 (inject_Z 500) = false
  /\ field counterfactuals (generate_interpretability_report consultation_500 [])
     = Ok [ "If claim amount were $405.00 instead of $500, this claim would likely not be flagged as an outlier" ]
  /\ exists r,
      generate_interpretability_report consultation_500 [] = Ok r
      /\ (counterfactuals r <> [] ->
          any_rule "HIGH_AMOUNT" (rules_activated r) = true
          /\ In "Supporting factor: Abnormally high claim amount"
                (decision_pathway r)
          /\ In "Verify procedure coding and duration justification"
                (recommendations r)).
Proof.
  split; [reflexivity|]. split; [reflexivity|]. split; [reflexivity|].
  split; [reflexivity|].
  destruct (counterfactual_only_with_high_amount
              consultation_500 (inject_Z 500) [] eq_refl eq_refl eq_refl)
    as [r [Hr [Hcf _]]].
  exists r. split; assumption.
Defined.

(** *** The validator and the audit log *)

(** X15: the validator raises a TypeError exactly when the amount is not
    a number, and an AttributeError exactly when the amount is a number and
    the state is not a string; otherwise it returns, with at most three
    errors. *)
Theorem validate_claim_data_outcome (claim_data : dict) :
  match validate_claim_data claim_data with
  | Ok v =>
      (exists a, as_number (amount_of claim_data) = Ok a)
      /\ (exists s, state_of claim_data = VStr s)
      /\ (List.length (errors v) <= 3)%nat
  | Raise e =>
      (e = TypeError /\ as_number (amount_of claim_data) = Raise TypeError)
      \/ (e = AttributeError
          /\ (exists a, as_number (amount_of claim_data) = Ok a)
          /\ forall s, state_of claim_data <> VStr s)
  end.
Proof.
  destruct (as_number (amount_of claim_data)) as [a|e] eqn:Ha.
  - destruct (state_of claim_data) as [|b|n|s] eqn:Hs.
    4: { rewrite (validate_claim_data_checks _ _ _ Ha Hs). cbv zeta.
         split; [now exists a|]. split; [now exists s|].
         cbn [errors].
         destruct (amount_out_of_bounds a), (state_unknown (upper s)),
           (procedure_unknown _); cbn; lia. }
    all: unfold validate_claim_data;
      fold (amount_of claim_data) (state_of claim_data);
      rewrite Ha, Hs; cbn [bind py_upper]; right;
      split; [reflexivity|]; split; [now exists a|];
      intros s; discriminate.
  - pose proof (as_number_raise _ _ Ha) as ->.
    unfold validate_claim_data. fold (amount_of claim_data).
    rewrite Ha. cbn [bind]. left. now split.
Qed.

Lemma hex_digit_length (n : N) : String.length (Json.hex_digit n) = 1%nat.
Proof. reflexivity. Qed.

Lemma hexdigest_length (s : string) : String.length (MD5.hexdigest s) = 32%nat.
Proof.
  unfold MD5.hexdigest.
  destruct (fold_left MD5.process _ MD5.init) as [[[a b] c] d].
  reflexivity.
Qed.

(** X16: an audit entry is created exactly when the validator returns on
    the claim, valid or not, and carries its verdict; otherwise the call
    raises the validator's exception.  The entry's hash has 32 characters,
    and the rule ids and confidence labels are those of the given
    activations, position by position. *)
Theorem create_audit_log_outcome
  (now : string) (claim_data : dict)
  (rules : list activation) (outcome : string) :
  field validation_status (create_audit_log now claim_data rules outcome)
  = validate_claim_data claim_data
  /\ forall e,
      create_audit_log now claim_data rules outcome = Ok e ->
      String.length (audit_hash e) = 32%nat
      /\ combine (audit_rules_activated e) (confidence_scores e)
         = map (fun rule => (rule_id rule, confidence rule)) rules
      /\ audit_claim_id e = get claim_data "claim_id".
Proof.
  unfold create_audit_log.
  destruct (validate_claim_data claim_data) as [v|exc]; cbn [bind field].
  - split; [reflexivity|]. intros e [= <-].
    cbn [audit_hash audit_rules_activated confidence_scores audit_claim_id].
    split; [apply hexdigest_length|]. split; [|reflexivity].
    induction rules as [|rule rules IH]; cbn; [reflexivity | now rewrite IH].
  - split; [reflexivity | discriminate].
Qed.

Lemma upper_char_idempotent (c : ascii) : upper_char (upper_char c) = upper_char c.
Proof. destruct c as [[] [] [] [] [] [] [] []]; reflexivity. Qed.

Lemma upper_idempotent (s : string) : upper (upper s) = upper s.
Proof.
  induction s as [|c s IH]; cbn; [reflexivity|].
  now rewrite upper_char_idempotent, IH.
Qed.

(** X17: the validator reads the state in upper case: writing the state of
    a claim in capitals changes nothing in its answer, errors and exceptions
    included. *)
Theorem validate_claim_data_state_case (claim_data : dict) (s : string) :
  state_of claim_data = VStr s ->
  validate_claim_data
    (dict_set claim_data "patient_state" (VStr (upper s)))
  = validate_claim_data claim_data.
Proof.
  intros Hs. unfold validate_claim_data, get.
  rewrite (dict_get_set_other claim_data "patient_state" "claim_amount"),
    (dict_get_set_other claim_data "patient_state" "procedure_type")
    by discriminate.
  rewrite dict_get_set_same. fold (state_of claim_data). rewrite Hs.
  cbn [py_upper]. now rewrite upper_idempotent.
Qed.

(** [claim_lower_case_state] instantiates [validate_claim_data_state_case]:
    valid with [tx] as with [TX]. *)
Lemma validate_claim_data_state_case_witness :
  state_of claim_lower_case_state = VStr "tx"
  /\ validate_claim_data claim_lower_case_state
     = Ok {| valid := true; errors := [] |}
  /\ validate_claim_data
       (dict_set claim_lower_case_state "patient_state" (VStr "TX"))
     = validate_claim_data claim_lower_case_state.
Proof.
  split; [reflexivity|]. split; [reflexivity|].
  exact (validate_claim_data_state_case claim_lower_case_state "tx" eq_refl).
Defined.


(** X18: a claim above 10000 for a procedure with norms is reported
    invalid by the validator, with the amount error, and all the same
    activates HIGH_AMOUNT with confidence High: validation does not gate the
    rule engine.  When the amount is an int whose quotient by the threshold
    is beyond the floats, the rule engine raises OverflowError instead. *)
Theorem amount_above_bound_is_high_amount
  (claim_data : dict) (a : Q) (s : string) (t : Z) :
  as_number (amount_of claim_data) = Ok a ->
  state_of claim_data = VStr s ->
  assoc (get claim_data "procedure_type") procedure_norms = Some t ->
  (10000 < a)%Q ->
  (exists v,
      validate_claim_data claim_data = Ok v
      /\ valid v = false
      /\ In (amount_error (amount_of claim_data)) (errors v))
  /\ (if engine_overflows claim_data a
      then evaluate_business_rules claim_data = Raise OverflowError
      else exists acts act,
          evaluate_business_rules claim_data = Ok acts
          /\ In act acts
          /\ rule_id act = "HIGH_AMOUNT"
          /\ confidence act = "High").
Proof.
  intros Ha Hs Ht Hbig. split.
  - rewrite (validate_claim_data_checks _ _ _ Ha Hs). cbv zeta.
    assert (Hout : amount_out_of_bounds a = true).
    { apply amount_out_of_bounds_iff. intros [_ Hle].
      exact (Qlt_not_le _ _ Hbig Hle). }
    rewrite Hout. eexists. split; [reflexivity|].
    split; [reflexivity | now left].
  - destruct (engine_overflows claim_data a) eqn:Hov;
      [exact (evaluate_business_rules_overflow _ _ Ha Hov)|].
    rewrite (evaluate_business_rules_parts _ _ Ha Hov). cbv zeta.
    pose proof (procedure_norms_bounds _ _ Ht) as Hb.
    unfold norms_get. rewrite Ht.
    assert (H1 : exceeds a (Finite (Int t)) = true).
    { cbn. apply Qlt_bool_iff. eapply Qle_lt_trans; [|exact Hbig].
      unfold Qle, inject_Z. cbn. lia. }
    assert (H2 : exceeds a (times (Finite (Int t)) (15 # 10)) = true).
    { rewrite (times_norms _ _ a Ht).
      apply Qlt_bool_iff. eapply Qle_lt_trans; [|exact Hbig].
      unfold Qle, Qmult, inject_Z. cbn. lia. }
    rewrite H1. eexists. eexists.
    split; [reflexivity|]. split.
    + apply in_or_app. right. apply in_or_app. left. now left.
    + split; [reflexivity|]. cbn [confidence high_amount_record].
      now rewrite H2.
Qed.

(** [claim_15000] instantiates [amount_above_bound_is_high_amount]. *)
Lemma amount_above_bound_is_high_amount_witness :
  as_number (amount_of claim_15000) = Ok (inject_Z 15000)
  /\ state_of claim_15000 = VStr "CA"
  /\ assoc (get claim_15000 "procedure_type") procedure_norms = Some 900
  /\ (10000 < inject_Z 15000)%Q
  /\ field (map rule_id) (evaluate_business_rules claim_15000)
     = Ok ["HIGH_AMOUNT"]
  /\ exists v,
      validate_claim_data claim_15000 = Ok v
      /\ valid v = false
      /\ In (amount_error (amount_of claim_15000)) (errors v).
Proof.
  split; [reflexivity|]. split; [reflexivity|]. split; [reflexivity|].
  split; [reflexivity|]. split; [reflexivity|].
  exact (proj1 (amount_above_bound_is_high_amount
                  claim_15000 (inject_Z 15000) "CA" 900
                  eq_refl eq_refl eq_refl eq_refl)).
Defined.

Lemma validate_claim_data_returns (claim_data : dict) (v : validation) :
  validate_claim_data claim_data = Ok v ->
  exists a s,
    as_number (amount_of claim_data) = Ok a
    /\ state_of claim_data = VStr s.
Proof.
  unfold validate_claim_data.
  fold (amount_of claim_data) (state_of claim_data).
  destruct (as_number (amount_of claim_data)) as [a|e]; [|discriminate].
  destruct (state_of claim_data) as [|b|n|s]; try discriminate.
  intros _. now exists a, s.
Qed.

(** X19: a claim that the validator finds valid and that names a
    procedure is known to the other components: the rule engine has a
    finite threshold for the procedure, the [max_normal] of its norms, and
    the feature analysis gives a procedure report. *)
Theorem valid_claim_has_norms (claim_data : dict) (v : validation) :
  validate_claim_data claim_data = Ok v ->
  valid v = true ->
  truthy (get claim_data "procedure_type") = true ->
  exists nrm fa pr,
    assoc (get claim_data "procedure_type") feature_procedure_norms = Some nrm
    /\ norms_get (get claim_data "procedure_type")
       = Finite (Int (max_normal nrm))
    /\ analyze_claim_features claim_data = Ok fa
    /\ procedure_analysis fa = Some pr.
Proof.
  intros Hv Hvalid Htruthy.
  destruct (validate_claim_data_returns _ _ Hv) as [a [s [Ha Hs]]].
  rewrite (validate_claim_data_checks _ _ _ Ha Hs) in Hv. cbv zeta in Hv.
  injection Hv as <-. cbn [valid] in Hvalid.
  apply negb_true_iff in Hvalid.
  apply orb_false_iff in Hvalid. destruct Hvalid as [Hamount Hproc].
  unfold procedure_unknown in Hproc. rewrite Htruthy in Hproc.
  cbn [andb] in Hproc. apply negb_false_iff in Hproc.
  apply in_strs_iff in Hproc. destruct Hproc as [p [Hp Hin]].
  assert (Hn : exists nrm,
             assoc (get claim_data "procedure_type") feature_procedure_norms
             = Some nrm).
  { rewrite Hp.
    destruct Hin as [<-|[<-|[<-|[<-|[<-|[]]]]]]; eexists; reflexivity. }
  destruct Hn as [nrm Hn].
  assert (Hbounds : (1 <= a <= 10000)%Q).
  { apply orb_false_iff in Hamount. destruct Hamount as [Hamount _].
    destruct (Qlt_le_dec a 1) as [H1|H1];
      [|destruct (Qlt_le_dec 10000 a) as [H2|H2]; [|now split]];
      exfalso; apply not_true_iff_false in Hamount; apply Hamount;
      apply amount_out_of_bounds_iff; intros [Hlo Hhi];
      [exact (Qlt_not_le _ _ H1 Hlo) | exact (Qlt_not_le _ _ H2 Hhi)]. }
  destruct (analyze_claim_features_known _ _ _ Ha Hn
              (analysis_in_bounds _ _ (bounds_abs _ Hbounds)))
    as [fa [Hfa Hpr]].
  exists nrm, fa, (procedure_report_of (amount_of claim_data) a nrm).
  repeat split; try assumption.
  now rewrite norms_get_max_normal, Hn.
Qed.

(** [claim_lower_case_state] instantiates [valid_claim_has_norms]. *)
Lemma valid_claim_has_norms_witness :
  validate_claim_data claim_lower_case_state
  = Ok {| valid := true; errors := [] |}
  /\ truthy (get claim_lower_case_state "procedure_type") = true
  /\ exists nrm fa pr,
      assoc (get claim_lower_case_state "procedure_type")
            feature_procedure_norms = Some nrm
      /\ norms_get (get claim_lower_case_state "procedure_type")
         = Finite (Int (max_normal nrm))
      /\ analyze_claim_features claim_lower_case_state = Ok fa
      /\ procedure_analysis fa = Some pr.
Proof.
  split; [reflexivity|]. split; [reflexivity|].
  exact (valid_claim_has_norms claim_lower_case_state _ eq_refl eq_refl eq_refl).
Defined.

(** *** Fairness monitor, edge cases *)

(** The mean of a group without outlier is the float 0. *)
Lemma mean_all_false (flags : list bool) :
  Forall (fun flag => flag = false) flags -> (Pandas.mean flags == 0)%Q.
Proof.
  intros Hall. unfold Pandas.mean.
  assert (E : filter (fun b : bool => b) flags = []).
  { induction Hall as [|flag flags -> _ IH]; cbn; [reflexivity | exact IH]. }
  rewrite E.
  rewrite (Float64Facts.nearest_eq _ 0); [reflexivity|].
  unfold Qdiv. cbn [List.length]. apply Qmult_0_l.
Qed.

(** A group without outlier has rate 0 among the group rates. *)
Lemma group_without_outlier (by_column : list string) (flags : list bool)
  (label : string) :
  In label (map fst (combine by_column flags)) ->
  (forall flag, In (label, flag) (combine by_column flags) -> flag = false) ->
  exists rate,
    In (label, rate) (Pandas.groupby_mean by_column flags) /\ (rate == 0)%Q.
Proof.
  intros Hlabel Hnone. unfold Pandas.groupby_mean.
  exists (Pandas.mean (Pandas.group (combine by_column flags) label)). split.
  - apply (in_map (fun l => (l, Pandas.mean (Pandas.group _ l)))).
    now apply labels_In.
  - apply mean_all_false. unfold Pandas.group.
    apply Forall_forall. intros flag Hin.
    apply in_map_iff in Hin. destruct Hin as [[l f] [Ef Hin]].
    apply filter_In in Hin. destruct Hin as [Hin El].
    cbn in Ef, El. apply String.eqb_eq in El. subst. now apply Hnone.
Qed.

(** With a group of rate 0 the least rate is 0 and the ratio infinite. *)
Lemma disparity_of_zero_rate (by_column : list string) (flags : list bool)
  (label : string) (rate : Q) :
  In (label, rate) (Pandas.groupby_mean by_column flags) -> (rate == 0)%Q ->
  ratio (disparity_of (Pandas.groupby_mean by_column flags)) = Pandas.PInf.
Proof.
  intros Hin Hzero.
  pose proof (groupby_mean_bounds by_column flags) as Hb.
  pose proof (disparity_of_fields (Pandas.groupby_mean by_column flags))
    as [_ [Hmin [_ Hinf]]].
  cbv zeta in Hmin, Hinf.
  set (rates := Pandas.groupby_mean by_column flags) in *.
  destruct (min_rate (disparity_of rates)) as [m| |] eqn:Em.
  - apply (Hinf m eq_refl).
    destruct (Hmin m eq_refl) as [Hlb [x [Hx Ex]]].
    apply Qle_antisym.
    + rewrite <- Hzero. apply Hlb.
      apply (in_map snd) in Hin. exact Hin.
    + rewrite <- Ex. apply in_map_iff in Hx.
      destruct Hx as [kr [<- Hkr]].
      rewrite Forall_forall in Hb. now apply Hb.
  - unfold disparity_of, Pandas.series_min in Em. cbn in Em.
    destruct (map snd rates); discriminate.
  - unfold disparity_of, Pandas.series_min in *. cbn [min_rate ratio] in *.
    destruct (map snd rates) eqn:E; [|discriminate].
    apply (in_map snd) in Hin. rewrite E in Hin. contradiction.
Qed.

(** X20: when the rows of some state hold no outlier, the state ratio is
    infinite and the state alert is emitted, whatever the other groups are;
    in particular for a batch without any outlier. *)
Theorem group_without_outlier_alerts
  (claims_df : Pandas.DataFrame) (flags : list bool) (states : list string)
  (label : string) :
  Pandas.is_outlier claims_df = Some flags ->
  Pandas.patient_state claims_df = Some states ->
  In label (map fst (combine states flags)) ->
  (forall flag, In (label, flag) (combine states flags) -> flag = false) ->
  let fairness_report := check_demographic_fairness claims_df in
  (exists d, state_disparities fairness_report = Some d
             /\ ratio d = Pandas.PInf)
  /\ In "HIGH DISPARITY: State outlier rates vary by infx"
        (generate_disparity_alerts fairness_report).
Proof.
  intros Hflags Hstates Hlabel Hnone. cbv zeta.
  destruct (group_without_outlier _ _ _ Hlabel Hnone) as [rate [Hin Hzero]].
  pose proof (disparity_of_zero_rate _ _ _ _ Hin Hzero) as Hratio.
  unfold check_demographic_fairness. rewrite Hflags, Hstates.
  cbn [state_disparities]. split.
  - eexists. split; [reflexivity | exact Hratio].
  - unfold generate_disparity_alerts. cbv zeta.
    cbn [state_disparities ratio_or_one]. rewrite Hratio.
    cbn [Pandas.gt append app]. destruct (Pandas.gt _ 3); now left.
Qed.

(** [frame_without_outliers] instantiates [group_without_outlier_alerts]. *)
Lemma group_without_outlier_alerts_witness :
  Pandas.is_outlier frame_without_outliers = Some [false; false; false; false]
  /\ generate_disparity_alerts (check_demographic_fairness frame_without_outliers)
     = ["HIGH DISPARITY: State outlier rates vary by infx"]
  /\ In "HIGH DISPARITY: State outlier rates vary by infx"
        (generate_disparity_alerts
           (check_demographic_fairness frame_without_outliers)).
Proof.
  split; [reflexivity|]. split; [reflexivity|].
  refine (proj2 (group_without_outlier_alerts
                   frame_without_outliers _ _ "CA" eq_refl eq_refl _ _)).
  - cbn. tauto.
  - cbn. intros flag H.
    repeat (destruct H as [H|H]; [now inversion H|]). contradiction.
Defined.

(** X21: a dimension of the fairness report is omitted exactly when the
    frame lacks the outlier flag or the grouping column, without error; a
    frame without the outlier flag gives an empty report and no alert. *)
Theorem fairness_report_omits_absent_columns (claims_df : Pandas.DataFrame) :
  let fairness_report := check_demographic_fairness claims_df in
  (state_disparities fairness_report = None <->
   Pandas.is_outlier claims_df = None \/ Pandas.patient_state claims_df = None)
  /\ (provider_disparities fairness_report = None <->
      Pandas.is_outlier claims_df = None
      \/ Pandas.provider_name claims_df = None)
  /\ (Pandas.is_outlier claims_df = None ->
      generate_disparity_alerts fairness_report = []).
Proof.
  cbv zeta. unfold check_demographic_fairness.
  cbn [state_disparities provider_disparities].
  destruct (Pandas.is_outlier claims_df) as [flags|],
    (Pandas.patient_state claims_df) as [states|],
    (Pandas.provider_name claims_df) as [providers|];
    repeat split; intros; try discriminate; try reflexivity; auto;
    repeat match goal with H : _ \/ _ |- _ => destruct H end;
    discriminate.
Qed.

(** X22: every sub-report of the fairness monitor is well formed: its
    rates are NaN (no group) or lie between 0 and 1 with the least below
    the greatest, and its ratio is infinite or a number that is at least 1,
    never NaN. *)
Theorem fairness_report_well_formed (claims_df : Pandas.DataFrame) :
  let fairness_report := check_demographic_fairness claims_df in
  (forall d, state_disparities fairness_report = Some d ->
             well_formed_disparity d)
  /\ (forall d, provider_disparities fairness_report = Some d ->
                well_formed_disparity d).
Proof.
  assert (Hwf : forall by_column flags,
             well_formed_disparity
               (disparity_of (Pandas.groupby_mean by_column flags))).
  { intros by_column flags.
    pose proof (groupby_mean_bounds by_column flags) as Hb.
    pose proof (disparity_of_fields (Pandas.groupby_mean by_column flags))
      as [Hmax [Hmin [Hratio Hinf]]].
    cbv zeta in Hmax, Hmin, Hratio, Hinf.
    set (rates := Pandas.groupby_mean by_column flags) in *.
    assert (Hsnd : forall x, In x (map snd rates) -> (0 <= x <= 1)%Q).
    { intros x Hx. apply in_map_iff in Hx. destruct Hx as [kr [<- Hkr]].
      rewrite Forall_forall in Hb. now apply Hb. }
    unfold well_formed_disparity, disparity_of, Pandas.series_max,
      Pandas.series_min in *. cbn [max_rate min_rate ratio] in *.
    destruct (map snd rates) as [|x xs].
    { split; [now left | now left]. }
    destruct (Hmax _ eq_refl) as [Hub [xM [HxM EM]]].
    destruct (Hmin _ eq_refl) as [Hlb [xm [Hxm Em]]].
    assert (Hm0 : (0 <= fold_left Qmin xs x)%Q)
      by (rewrite <- Em; apply Hsnd, Hxm).
    assert (HM1 : (fold_left Qmax xs x <= 1)%Q)
      by (rewrite <- EM; apply Hsnd, HxM).
    assert (HmM : (fold_left Qmin xs x <= fold_left Qmax xs x)%Q)
      by (rewrite <- EM; apply Hlb, HxM).
    split.
    - right. eexists. eexists. repeat split; assumption.
    - cbn [Pandas.gt].
      destruct (Qlt_bool 0 (fold_left Qmin xs x)) eqn:Epos; [|now left].
      apply Qlt_bool_iff in Epos.
      destruct (Hratio _ eq_refl Epos) as [M [[= <-] HR]].
      cbn [Pandas.gt] in HR. rewrite (proj2 (Qlt_bool_iff _ _) Epos) in HR.
      rewrite HR. unfold float_quotient.
      destruct (beyond_floats _); [now left | right].
      eexists. split; [reflexivity|].
      apply Float64Facts.nearest_ge_one.
      apply Qle_shift_div_l; [exact Epos|]. now rewrite Qmult_1_l. }
  cbv zeta. unfold check_demographic_fairness.
  cbn [state_disparities provider_disparities].
  destruct (Pandas.is_outlier claims_df) as [flags|];
    [|split; discriminate].
  split.
  - destruct (Pandas.patient_state claims_df); [|discriminate].
    intros d [= <-]. apply Hwf.
  - destruct (Pandas.provider_name claims_df); [|discriminate].
    intros d [= <-]. apply Hwf.
Qed.

(* ================================================================= *)
(** ** Properties of the response validation of run_agent.py *)

Example search_finds_ssn :
  RunAgent.search RunAgent.ssn_pattern response_with_ssn = true.
Proof. reflexivity. Qed.

Example search_ssn_needs_boundaries :
  map (RunAgent.search RunAgent.ssn_pattern)
      ["a123-45-6789"; "x 123-45-6789."; "123-45-67890"]
  = [false; true; false].
Proof. reflexivity. Qed.

Example search_finds_email :
  map (RunAgent.search RunAgent.email_pattern)
      ["a@b.co"; "a@b.c"; "a@b.co1"; "a@b.co|x"; "-a@b.com"; "%@b.com"; "a@b.co_"]
  = [true; false; false; true; true; false; false].
Proof. reflexivity. Qed.

Lemma filter_nil_existsb {A : Type} (f : A -> bool) (l : list A) :
  filter f l = [] <-> existsb f l = false.
Proof.
  induction l as [|x l IH]; cbn; [tauto|].
  destruct (f x); cbn; [split; discriminate | exact IH].
Qed.

(** The loop over the error indicators. *)
Lemma fold_check_indicator (response_text : string) (indicators : list string)
  (results : RunAgent.validation_results) :
  fold_left (RunAgent.check_indicator response_text) indicators results
  = {| RunAgent.valid :=
         RunAgent.valid results
         && negb (existsb (indicates response_text) indicators);
       RunAgent.errors :=
         (RunAgent.errors results
          ++ map indicator_error (filter (indicates response_text) indicators))%list;
       RunAgent.warnings := RunAgent.warnings results |}.
Proof.
  revert results. induction indicators as [|i indicators IH]; intros results.
  - destruct results. cbn. now rewrite andb_true_r, app_nil_r.
  - cbn [fold_left existsb filter]. rewrite IH.
    unfold RunAgent.check_indicator. fold (indicates response_text i).
    destruct (indicates response_text i); cbn.
    + rewrite andb_false_r. unfold append.
      now rewrite <- app_assoc.
    + reflexivity.
Qed.

(** The loop over the PII patterns. *)
Lemma fold_check_pattern (response_text : string)
  (patterns : list (list RunAgent.atom)) (results : RunAgent.validation_results) :
  fold_left (RunAgent.check_pattern response_text) patterns results
  = {| RunAgent.valid := RunAgent.valid results;
       RunAgent.errors := RunAgent.errors results;
       RunAgent.warnings :=
         (RunAgent.warnings results
          ++ map (fun _ => pii_warning)
                 (filter (fun p => RunAgent.search p response_text) patterns))%list |}.
Proof.
  revert results. induction patterns as [|p patterns IH]; intros results.
  - destruct results. cbn. now rewrite app_nil_r.
  - cbn [fold_left filter]. rewrite IH. unfold RunAgent.check_pattern.
    destruct (RunAgent.search p response_text); cbn; [|reflexivity].
    unfold append. now rewrite <- app_assoc.
Qed.

(** The answer on a response that is not too short. *)
Lemma validate_agent_response_long (response_text : string) :
  too_short response_text = false ->
  RunAgent.validate_agent_response response_text
  = {| RunAgent.valid :=
         negb (existsb (indicates response_text) RunAgent.error_indicators);
       RunAgent.errors :=
         map indicator_error
             (filter (indicates response_text) RunAgent.error_indicators);
       RunAgent.warnings :=
         (structure_warnings response_text
          ++ map (fun _ => pii_warning)
                 (filter (fun p => RunAgent.search p response_text)
                         RunAgent.pii_patterns)
          ++ when (String.length (RunAgent.strip response_text) <? 20)%nat
                  "Response seems very short"
          ++ when (negb (existsb (indicates response_text)
                                 RunAgent.question_keywords))
                  "Response may not be relevant to insurance claims analysis")%list |}.
Proof.
  intros Hlong. unfold RunAgent.validate_agent_response.
  fold (too_short response_text). rewrite Hlong. cbv zeta.
  rewrite fold_check_pattern, fold_check_indicator.
  fold (indicates response_text).
  change (existsb (fun keyword => RunAgent.contains
                                    (RunAgent.lower response_text)
                                    (RunAgent.lower keyword)))
    with (existsb (indicates response_text)).
  unfold structure_warnings.
  destruct (existsb _ RunAgent.outlier_keywords);
    [destruct (filter _ RunAgent.required_sections)|];
    destruct (String.length (RunAgent.strip response_text) <? 20)%nat;
    destruct (existsb (indicates response_text) RunAgent.question_keywords);
    unfold RunAgent.warn, append;
    cbn [negb RunAgent.valid RunAgent.errors RunAgent.warnings when app andb];
    rewrite ?app_nil_r, <- ?app_assoc; cbn [app]; reflexivity.
Qed.

Lemma validate_agent_response_short (response_text : string) :
  too_short response_text = true ->
  RunAgent.validate_agent_response response_text
  = {| RunAgent.valid := false;
       RunAgent.errors := ["Response is empty or too short"];
       RunAgent.warnings := [] |}.
Proof.
  intros Hshort. unfold RunAgent.validate_agent_response.
  fold (too_short response_text). now rewrite Hshort.
Qed.

(** X23: a response is valid exactly when its list of errors is empty, that
    is when it is not empty, keeps five characters or more once stripped,
    and contains none of the five error indicators, in any case of letters;
    the errors name the indicators found, in the order of the list.
    Warnings, the PII warning among them, never make a response invalid. *)
Theorem agent_response_validity (response_text : string) :
  let results := RunAgent.validate_agent_response response_text in
  (RunAgent.valid results = true <-> RunAgent.errors results = [])
  /\ (RunAgent.valid results = true <->
      response_text <> EmptyString
      /\ (5 <= String.length (RunAgent.strip response_text))%nat
      /\ forall indicator,
          In indicator RunAgent.error_indicators ->
          RunAgent.contains (RunAgent.lower response_text) indicator = false)
  /\ (too_short response_text = false ->
      RunAgent.errors results
      = map indicator_error
            (filter (indicates response_text) RunAgent.error_indicators)).
Proof.
  cbv zeta. destruct (too_short response_text) eqn:Hshort.
  - rewrite (validate_agent_response_short _ Hshort).
    cbn [RunAgent.valid RunAgent.errors].
    split; [split; discriminate|]. split; [|discriminate].
    split; [discriminate|]. intros [Hne [Hlen _]].
    unfold too_short in Hshort. apply orb_true_iff in Hshort.
    destruct Hshort as [E|E].
    + apply String.eqb_eq in E. contradiction.
    + apply Nat.ltb_lt in E. lia.
  - rewrite (validate_agent_response_long _ Hshort).
    cbn [RunAgent.valid RunAgent.errors].
    assert (Hnone : existsb (indicates response_text) RunAgent.error_indicators
                    = false
                    <-> forall indicator,
                        In indicator RunAgent.error_indicators ->
                        RunAgent.contains (RunAgent.lower response_text) indicator
                        = false).
    { rewrite <- not_true_iff_false, existsb_exists. split.
      - intros H indicator Hin. apply not_true_iff_false. intros E.
        apply H. exists indicator. split; [exact Hin|].
        unfold indicates.
        now destruct Hin as [<-|[<-|[<-|[<-|[<-|[]]]]]].
      - intros H [indicator [Hin E]]. specialize (H indicator Hin).
        unfold indicates in E.
        destruct Hin as [<-|[<-|[<-|[<-|[<-|[]]]]]]; cbn in E; congruence. }
    unfold too_short in Hshort. apply orb_false_iff in Hshort.
    destruct Hshort as [Hne Hlen].
    apply String.eqb_neq in Hne. apply Nat.ltb_ge in Hlen.
    split; [|split; [|reflexivity]].
    + rewrite negb_true_iff, <- filter_nil_existsb.
      destruct (filter _ RunAgent.error_indicators); cbn;
        split; congruence.
    + rewrite negb_true_iff, Hnone. tauto.
Qed.

(** X24: personal data is reported as a warning only: the PII warning is
    never among the errors, and it is among the warnings exactly when the
    response is not too short and one of the two patterns, social security
    number or e-mail address, is found in it. *)
Theorem pii_is_a_warning (response_text : string) :
  let results := RunAgent.validate_agent_response response_text in
  ~ In pii_warning (RunAgent.errors results)
  /\ (In pii_warning (RunAgent.warnings results) <->
      too_short response_text = false
      /\ (RunAgent.search RunAgent.ssn_pattern response_text = true
          \/ RunAgent.search RunAgent.email_pattern response_text = true)).
Proof.
  cbv zeta. destruct (too_short response_text) eqn:Hshort.
  - rewrite (validate_agent_response_short _ Hshort).
    cbn [RunAgent.errors RunAgent.warnings]. split.
    + intros [H|[]]. discriminate H.
    + split; [contradiction | intros [H _]; discriminate H].
  - rewrite (validate_agent_response_long _ Hshort).
    cbn [RunAgent.errors RunAgent.warnings]. split.
    + intros Hin. apply in_map_iff in Hin. destruct Hin as [i [E _]].
      unfold pii_warning, indicator_error in E. cbn in E. discriminate E.
    + rewrite !in_app_iff. unfold RunAgent.pii_patterns. cbn [filter].
      assert (Hs : ~ In pii_warning (structure_warnings response_text)).
      { unfold structure_warnings.
        destruct (existsb _ RunAgent.outlier_keywords); [|tauto].
        destruct (filter _ RunAgent.required_sections); [tauto|].
        intros [H|[]]. unfold pii_warning in H. cbn in H. discriminate H. }
      assert (Hw : forall b1 b2,
                 ~ (In pii_warning (when b1 "Response seems very short")
                    \/ In pii_warning
                         (when b2 "Response may not be relevant to insurance claims analysis"))).
      { intros [] [] [H|H]; cbn in H; try tauto;
          destruct H as [H|[]]; discriminate H. }
      split.
      * intros [H|[H|H]]; [contradiction| |exfalso; exact (Hw _ _ H)].
        split; [reflexivity|].
        destruct (RunAgent.search RunAgent.ssn_pattern response_text);
          [now left|].
        destruct (RunAgent.search RunAgent.email_pattern response_text);
          [now right|]. contradiction.
      * intros [_ [H|H]]; right; left; rewrite H; cbn; [now left|].
        destruct (RunAgent.search RunAgent.ssn_pattern response_text);
          cbn; tauto.
Qed.

Lemma lower_app (s1 s2 : string) :
  RunAgent.lower (s1 ++ s2) = RunAgent.lower s1 ++ RunAgent.lower s2.
Proof. induction s1 as [|c s1 IH]; cbn; [reflexivity | now rewrite IH]. Qed.

(** A response with an error indicator is not valid. *)
Lemma indicated_is_invalid (response_text indicator : string) :
  In indicator RunAgent.error_indicators ->
  indicates response_text indicator = true ->
  RunAgent.valid (RunAgent.validate_agent_response response_text) = false.
Proof.
  intros Hin Hind. destruct (too_short response_text) eqn:Hshort.
  - now rewrite (validate_agent_response_short _ Hshort).
  - rewrite (validate_agent_response_long _ Hshort). cbn [RunAgent.valid].
    apply negb_false_iff, existsb_exists. now exists indicator.
Qed.

(** X25: [run_conversation] hands a response text of the agent on
    unchanged exactly when it is valid, and the message of failed validation
    in its place otherwise, with the tool calls and the validation result
    beside it.  When the final event has no text, [None], the validation
    fails and the line that logs the original response raises TypeError:
    nothing is returned.  The fallback texts of [run_conversation], for an
    agent that gives no final response and for an agent run that raises,
    whatever the exception says, contain an error indicator: the caller
    always gets the message of failed validation for them. *)
Theorem fallback_responses_are_replaced
  {call : Type} (tool_calls : list call) :
  (forall response_text,
      RunAgent.conclude (Some response_text) tool_calls
      = Ok {| RunAgent.response :=
                Some (if RunAgent.valid
                           (RunAgent.validate_agent_response response_text)
                      then response_text else validation_failed);
              RunAgent.predicted_trajectory := tool_calls;
              RunAgent.conversation_validation :=
                RunAgent.validate_agent_response response_text |})
  /\ RunAgent.conclude None tool_calls = Raise TypeError
  /\ field RunAgent.response
       (RunAgent.conclude (Some RunAgent.no_final_response) tool_calls)
     = Ok (Some validation_failed)
  /\ forall e,
      field RunAgent.response
        (RunAgent.conclude (Some (RunAgent.conversation_error e)) tool_calls)
      = Ok (Some validation_failed).
Proof.
  assert (Hsome : forall response_text,
             RunAgent.conclude (Some response_text) tool_calls
             = Ok {| RunAgent.response :=
                       Some (if RunAgent.valid
                                  (RunAgent.validate_agent_response response_text)
                             then response_text else validation_failed);
                     RunAgent.predicted_trajectory := tool_calls;
                     RunAgent.conversation_validation :=
                       RunAgent.validate_agent_response response_text |}).
  { intros text. unfold RunAgent.conclude. cbv zeta.
    cbn [RunAgent.validate_final_response RunAgent.first_200].
    now destruct (RunAgent.valid _). }
  split; [exact Hsome|]. split; [reflexivity|]. split.
  - rewrite Hsome. reflexivity.
  - intros e. rewrite Hsome. cbn [field RunAgent.response].
    assert (Hind : indicates (RunAgent.conversation_error e) "error occurred"
                   = true).
    { unfold indicates, RunAgent.conversation_error. rewrite lower_app.
      reflexivity. }
    now rewrite (indicated_is_invalid _ "error occurred");
      [|now left|exact Hind].
Qed.

(** *** Sample runs of the edge cases *)

(** A text amount for a procedure without norms: the feature analysis and
    the counterfactual generator do not look at the amount, the rule engine
    and the report raise. *)
Example text_amount_without_norms :
  returns (analyze_claim_features text_amount_unknown_procedure) = true
  /\ generate_counterfactuals text_amount_unknown_procedure = Ok []
  /\ field (map rule_id) (evaluate_business_rules text_amount_unknown_procedure)
     = Raise TypeError
  /\ returns (generate_interpretability_report text_amount_unknown_procedure [])
     = false.
Proof. repeat split. Qed.

(** A state that is [None] has no [upper]. *)
Example state_none_raises :
  validate_claim_data claim_state_none = Raise AttributeError
  /\ field audit_hash
       (create_audit_log "2024-06-01T12:00:00" claim_state_none [] "Approved")
     = Raise AttributeError.
Proof. split; reflexivity. Qed.

(** A structured answer with a social security number is valid; it gets
    the warning about its missing sections and the PII warning. *)
Example response_with_ssn_is_valid :
  RunAgent.validate_agent_response response_with_ssn
  = {| RunAgent.valid := true;
       RunAgent.errors := [];
       RunAgent.warnings :=
         [ "Structured response missing sections: ['TRIGGERED RULES:', 'CONFIDENCE:', 'RECOMMENDATION:']";
           pii_warning ] |}.
Proof. reflexivity. Qed.
